(** * NetRT: the TensorRT back-end of the OpenPose network interface

    A shallow embedding of [src/src/openpose/net/netRT.cpp] and
    [src/include/openpose/net/netRT.hpp].  The C++ code is stateful and
    fallible, so every member function becomes a computation in a small
    state-and-exception monad.  The CUDA runtime, the TensorRT engine and the
    file system are external collaborators: they appear as an explicit,
    executable mock (allocation table, call trace, plan files) threaded
    through that monad. *)

From Stdlib Require Import ZArith String Ascii List Lia Bool DecimalString.
From stdpp Require Import base option list gmap strings.

Local Open Scope string_scope.
Local Open Scope Z_scope.

(** ** Machine integers and their decimal rendering *)

Module Int32.

(** [int] is a 32-bit two's-complement integer; arithmetic that leaves the
    range wraps around. *)
Definition min_int : Z := - 2 ^ 31.
Definition max_int : Z := 2 ^ 31 - 1.

Definition wrap (x : Z) : Z := (x + 2 ^ 31) mod 2 ^ 32 - 2 ^ 31.

Definition in_range (x : Z) : Prop := min_int <= x <= max_int.

Definition mul (x y : Z) : Z := wrap (x * y).

(** [std::accumulate(first, last, init, std::multiplies<int>())] *)
Definition accumulate_mul (l : list Z) (init : Z) : Z :=
  fold_left mul l init.

(** [std::to_string(int)] *)
Definition to_string (x : Z) : string :=
  NilZero.string_of_int (Z.to_int x).

End Int32.

Module SizeT.

(** [size_t] is an unsigned 64-bit integer. *)
Definition wrap (x : Z) : Z := x mod 2 ^ 64.

Definition sizeof_float : Z := 4.

End SizeT.

(** ** Text helpers used to inspect error messages *)

Fixpoint starts_with (p s : string) : bool :=
  match p, s with
  | EmptyString, _ => true
  | String a p', String b s' => Ascii.eqb a b && starts_with p' s'
  | String _ _, EmptyString => false
  end.

Fixpoint contains (needle hay : string) : bool :=
  starts_with needle hay ||
  match hay with
  | EmptyString => false
  | String _ hay' => contains needle hay'
  end.

(** ** Outcomes of C++ computations *)

(** Exceptions that can leave a member function. *)
Inductive exn : Type :=
| OpError (msg : string) (line : Z)
    (* thrown by op::error(message, __LINE__, __FUNCTION__, __FILE__) *)
| VectorLength.
    (* thrown by the std::vector constructor for a size above max_size() *)

(** Executions the C++ standard leaves undefined. *)
Inductive ub : Type :=
| OutOfBounds (index : Z)   (* buffers[index] outside the two-slot array *)
| NullDeref.                (* member call through a pointer to no object *)

Inductive outcome (S A : Type) : Type :=
| Ret (a : A) (s : S)
| Throw (e : exn) (s : S)
| Undefined (u : ub) (s : S).

Arguments Ret {S A} a s.
Arguments Throw {S A} e s.
Arguments Undefined {S A} u s.

Definition M (S A : Type) : Type := S -> outcome S A.

Definition ret {S A} (a : A) : M S A := fun s => Ret a s.

Definition bind {S A B} (m : M S A) (k : A -> M S B) : M S B :=
  fun s =>
    match m s with
    | Ret a s' => k a s'
    | Throw e s' => Throw e s'
    | Undefined u s' => Undefined u s'
    end.

Definition throw {S A} (e : exn) : M S A := fun s => Throw e s.
Definition undefined {S A} (u : ub) : M S A := fun s => Undefined u s.
Definition get {S} : M S S := fun s => Ret s s.
Definition gets {S A} (f : S -> A) : M S A := fun s => Ret (f s) s.
Definition modify {S} (f : S -> S) : M S unit := fun s => Ret tt (f s).

(** [if (c) stmt;] *)
Definition when {S} (c : bool) (m : M S unit) : M S unit :=
  if c then m else ret tt.

(** [try { body } catch (const std::exception& e) { handler }]: both
    exceptions of [exn] derive from [std::exception]. *)
Definition try_catch {S A} (body : M S A) (handler : exn -> M S A) : M S A :=
  fun s =>
    match body s with
    | Throw e s' => handler e s'
    | r => r
    end.

Declare Scope cpp_scope.
Delimit Scope cpp_scope with cpp.
Notation "x <- c1 ;; c2" := (bind c1 (fun x => c2))
  (at level 100, c1 at next level, right associativity) : cpp_scope.
Notation "c1 ;; c2" := (bind c1 (fun _ => c2))
  (at level 100, right associativity) : cpp_scope.
Local Open Scope cpp_scope.

(** The state reached by a computation, whatever its outcome. *)
Definition final {S A} (o : outcome S A) : S :=
  match o with
  | Ret _ s | Throw _ s | Undefined _ s => s
  end.

Definition returns {S A} (o : outcome S A) : bool :=
  match o with Ret _ _ => true | _ => false end.

Definition thrown {S A} (o : outcome S A) : option exn :=
  match o with Throw e _ => Some e | _ => None end.

(** [e.what()] *)
Definition what (e : exn) : string :=
  match e with
  | OpError msg _ => msg
  | VectorLength => "cannot create std::vector larger than max_size()"
  end.

(** Modelled from the spec: [op::error] (openpose/utilities/errorAndLog.hpp)
    is not part of the sources at hand.  The spec (section 7) says every
    failure is reported synchronously to the caller at the point of detection
    and carries line context and a human-readable message: the call does not
    return, it raises. *)
Definition error {S} (msg : string) (line : Z) : M S unit :=
  throw (OpError msg line).

(** ** The CUDA runtime, as a mock that records every call *)

Module Cuda.

Inductive cudaError : Type :=
| cudaErrorMemoryAllocation
| cudaErrorInvalidDevicePointer
| cudaErrorInvalidValue.

(** One entry per runtime call, most recent first. *)
Inductive Call : Type :=
| Malloc (ptr : Z) (bytes : Z)      (* cudaMalloc that handed out [ptr] *)
| MallocFailed (bytes : Z)          (* cudaMalloc that reported failure *)
| Free (ptr : Z)                    (* cudaFree(ptr) *)
| MemcpyH2D (dst : Z) (bytes : Z)   (* cudaMemcpy(dst, _, bytes, HostToDevice) *)
| Execute (batch : Z).              (* IExecutionContext::execute *)

(** A device allocation: its size and its float cells (as bit patterns). *)
Record Buffer : Type := { bytes : Z; cells : Z -> Z }.

Record Device : Type := {
  heap : gmap Z Buffer;             (* live allocations, by device address *)
  brk : Z;                          (* next address handed out *)
  available : Z;                    (* device memory left, in bytes *)
  lastError : option cudaError;     (* what cudaPeekAtLastError reports *)
  calls : list Call
}.

Definition record (c : Call) (d : Device) : Device :=
  {| heap := heap d; brk := brk d; available := available d;
     lastError := lastError d; calls := c :: calls d |}.

Definition fail_with (e : cudaError) (d : Device) : Device :=
  {| heap := heap d; brk := brk d; available := available d;
     lastError := Some e; calls := calls d |}.

(** [cudaMalloc(&p, size)]: on success the fresh address is returned (and the
    caller stores it in [p]); on failure [p] is left alone. *)
Definition cudaMalloc (size : Z) (d : Device) : option Z * Device :=
  if size <=? available d then
    (Some (brk d),
     {| heap := <[brk d := {| bytes := size; cells := fun _ => 0 |}]> (heap d);
        brk := brk d + size;
        available := available d - size;
        lastError := lastError d;
        calls := Malloc (brk d) size :: calls d |})
  else
    (None, fail_with cudaErrorMemoryAllocation (record (MallocFailed size) d)).

(** [cudaFree(p)]: a null pointer is accepted and ignored; an address that is
    not a live allocation is an error. *)
Definition cudaFree (p : Z) (d : Device) : Device :=
  let d' := record (Free p) d in
  if p =? 0 then d'
  else match heap d !! p with
       | Some b =>
           {| heap := delete p (heap d'); brk := brk d';
              available := available d' + bytes b;
              lastError := lastError d'; calls := calls d' |}
       | None => fail_with cudaErrorInvalidDevicePointer d'
       end.

Definition copy_cells (count : Z) (src old : Z -> Z) : Z -> Z :=
  fun i => if (0 <=? i) && (i <? count) then src i else old i.

(** [cudaMemcpy(dst, src, nbytes, cudaMemcpyHostToDevice)] *)
Definition cudaMemcpyH2D (dst : Z) (src : Z -> Z) (nbytes : Z) (d : Device)
  : Device :=
  let d' := record (MemcpyH2D dst nbytes) d in
  match heap d !! dst with
  | Some b =>
      if nbytes <=? bytes b then
        {| heap := <[dst := {| bytes := bytes b;
                               cells := copy_cells (nbytes / SizeT.sizeof_float)
                                          src (cells b) |}]> (heap d');
           brk := brk d'; available := available d';
           lastError := lastError d'; calls := calls d' |}
      else fail_with cudaErrorInvalidValue d'
  | None => fail_with cudaErrorInvalidValue d'
  end.

Definition is_malloc (c : Call) : bool :=
  match c with Malloc _ _ | MallocFailed _ => true | _ => false end.
Definition is_free (c : Call) : bool :=
  match c with Free _ => true | _ => false end.
Definition is_memcpy (c : Call) : bool :=
  match c with MemcpyH2D _ _ => true | _ => false end.
Definition is_execute (c : Call) : bool :=
  match c with Execute _ => true | _ => false end.

Definition count (f : Call -> bool) (d : Device) : nat :=
  length (List.filter f (calls d)).

(** How often [cudaMalloc] handed out address [p], and how often [cudaFree]
    was called on it. *)
Definition allocates (p : Z) (c : Call) : bool :=
  match c with Malloc q _ => q =? p | _ => false end.
Definition releases (p : Z) (c : Call) : bool :=
  match c with Free q => q =? p | _ => false end.

End Cuda.

(** ** The TensorRT engine *)

Module TensorRT.

Record Binding : Type := { bindingName : string; bindingIsInput : bool }.

(** A deserialized engine: its binding table and the function it computes
    from the cells of its input binding to the cells of its output binding. *)
Record ICudaEngine : Type := {
  bindings : list Binding;
  network : (Z -> Z) -> (Z -> Z)
}.

Definition getNbBindings (e : ICudaEngine) : Z :=
  Z.of_nat (length (bindings e)).

Fixpoint index_of (n : string) (l : list Binding) (i : Z) : Z :=
  match l with
  | [] => -1
  | b :: l' => if String.eqb (bindingName b) n then i else index_of n l' (i + 1)
  end.

(** [ICudaEngine::getBindingIndex(name)]: the slot of the binding with that
    name, or -1 when the engine has none. *)
Definition getBindingIndex (e : ICudaEngine) (n : string) : Z :=
  index_of n (bindings e) 0.

Fixpoint slot_of (input : bool) (l : list Binding) (i : nat) : option nat :=
  match l with
  | [] => None
  | b :: l' =>
      if Bool.eqb (bindingIsInput b) input then Some i else slot_of input l' (S i)
  end.

(** [IExecutionContext::execute(batch, bindings)]: the engine reads the
    device buffer bound to its input slot and writes the one bound to its
    output slot; it reports failure when a slot holds no live allocation. *)
Definition execute (e : ICudaEngine) (batch : Z) (buffers : list Z)
    (d : Cuda.Device) : bool * Cuda.Device :=
  let d' := Cuda.record (Cuda.Execute batch) d in
  match slot_of true (bindings e) 0, slot_of false (bindings e) 0 with
  | Some i, Some o =>
      match buffers !! i, buffers !! o with
      | Some pin, Some pout =>
          match Cuda.heap d !! pin, Cuda.heap d !! pout with
          | Some bin, Some bout =>
              (true,
               {| Cuda.heap :=
                    <[pout := {| Cuda.bytes := Cuda.bytes bout;
                                 Cuda.cells := network e (Cuda.cells bin) |}]>
                      (Cuda.heap d');
                  Cuda.brk := Cuda.brk d';
                  Cuda.available := Cuda.available d';
                  Cuda.lastError := Cuda.lastError d';
                  Cuda.calls := Cuda.calls d' |})
          | _, _ => (false, Cuda.fail_with Cuda.cudaErrorInvalidDevicePointer d')
          end
      | _, _ => (false, d')
      end
  | _, _ => (false, d')
  end.

End TensorRT.

(** ** The host tensor *)

(** Modelled from the spec: [op::Array<float>] (openpose/core/array.hpp) is
    not part of the sources at hand.  The spec (section 3, InputTensor)
    describes a host-resident array with a list of dimension sizes and a
    total element count; it is empty when it has no element. *)
Record Array : Type := {
  mSize : list Z;       (* std::vector<int> of dimension sizes *)
  mVolume : Z;          (* size_t: number of elements *)
  spData : Z -> Z       (* the elements, by flat index *)
}.

Definition empty (a : Array) : bool := mVolume a =? 0.
Definition getNumberDimensions (a : Array) : Z := Z.of_nat (length (mSize a)).
Definition getSize (a : Array) : list Z := mSize a.
Definition getSizeAt (a : Array) (index : nat) : Z := nth index (mSize a) 0.
Definition getVolume (a : Array) : Z := mVolume a.
Definition getConstPtr (a : Array) : Z -> Z := spData a.

(** The number of elements a list of dimension sizes stands for. *)
Definition elements (sizes : list Z) : Z :=
  match sizes with
  | [] => 0
  | _ => fold_right Z.mul 1 sizes
  end.

(** Arrays the class can hold: every size is a non-negative [int], and the
    volume is the product of the sizes and fits [size_t]. *)
Definition Array_wf (a : Array) : Prop :=
  Forall (fun n => 0 <= n <= Int32.max_int) (mSize a) /\
  mVolume a = elements (mSize a) /\
  mVolume a < 2 ^ 64.

(** Modelled from the spec: [vectorsAreEqual]
    (openpose/utilities/standard.hpp) is not part of the sources at hand;
    it compares two vectors element by element. *)
Definition vectorsAreEqual (v1 v2 : list Z) : bool := bool_decide (v1 = v2).

(** ** Plan files and [std::ifstream] *)

(** A file as the stream sees it: the length reported when the stream is
    positioned at its end, and the bytes the medium delivers when read.  On
    an intact file the two agree; a read is short when fewer bytes arrive. *)
Record File : Type := { fsize : Z; fdata : list Byte.byte }.

(** [std::vector<char>::max_size()], also the largest [std::streamsize] *)
Definition vector_max_size : Z := 2 ^ 63 - 1.

Definition File_intact (f : File) : Prop :=
  fsize f = Z.of_nat (length (fdata f)) /\ fsize f <= vector_max_size.

Record ifstream : Type := {
  source : option File;
  failbit : bool;
  binary : bool;
  gpos : Z
}.

(** [std::ifstream s(path, mode)] with [std::ios::binary] and/or [std::ios::ate] *)
Definition ifstream_open (fs : gmap string File) (path : string)
    (mode_binary mode_ate : bool) : ifstream :=
  match fs !! path with
  | Some f => {| source := Some f; failbit := false; binary := mode_binary;
                 gpos := if mode_ate then fsize f else 0 |}
  | None => {| source := None; failbit := true; binary := mode_binary; gpos := 0 |}
  end.

(** [s.tellg()] *)
Definition tellg (s : ifstream) : Z := if failbit s then -1 else gpos s.

(** [s.seekg(0, std::ios::beg)] *)
Definition seekg_beg (s : ifstream) : ifstream :=
  if failbit s then s
  else {| source := source s; failbit := false; binary := binary s; gpos := 0 |}.

(** [s.read(buffer, n)]: the bytes extracted, and the stream afterwards;
    extracting fewer than [n] bytes sets [failbit]. *)
Definition read (s : ifstream) (n : Z) : list Byte.byte * ifstream :=
  if failbit s then ([], s)
  else
    match source s with
    | None => ([], {| source := None; failbit := true; binary := binary s;
                      gpos := gpos s |})
    | Some f =>
        let got := take (Z.to_nat n) (drop (Z.to_nat (gpos s)) (fdata f)) in
        (got, {| source := source s;
                 failbit := Z.of_nat (length got) <? n;
                 binary := binary s;
                 gpos := gpos s + Z.of_nat (length got) |})
    end.

(** ** Process state and object state *)

(** What the process shares between all [NetRT] objects. *)
Record World : Type := {
  files : gmap string File;
  deserializer : list Byte.byte -> option TensorRT.ICudaEngine;
    (* IRuntime::deserializeCudaEngine; [None] is the null engine *)
  sGoogleLoggingInitializedRT : bool;
  glogInitCalls : nat;             (* calls of google::InitGoogleLogging *)
  device : Cuda.Device
}.

(** The value the static initialiser gives the flag (netRT.cpp, line 22). *)
Definition sGoogleLoggingInitializedRT_initial : bool := true.

(** The process before any [NetRT] exists. *)
Definition boot (fs : gmap string File)
    (deser : list Byte.byte -> option TensorRT.ICudaEngine)
    (d : Cuda.Device) : World :=
  {| files := fs; deserializer := deser;
     sGoogleLoggingInitializedRT := sGoogleLoggingInitializedRT_initial;
     glogInitCalls := 0; device := d |}.

Definition with_device (d : Cuda.Device) (w : World) : World :=
  {| files := files w; deserializer := deserializer w;
     sGoogleLoggingInitializedRT := sGoogleLoggingInitializedRT w;
     glogInitCalls := glogInitCalls w; device := d |}.

(** [caffe::Blob<float>]: its shape and, once [set_gpu_data] was called, the
    device address it reads from instead of memory of its own. *)
Record Blob : Type := { shape : list Z; gpu_data : option Z }.

(** [struct NetRT::ImplNetRT] *)
Record ImplNetRT : Type := {
  mGpuId : Z;
  mRTPlan : string;
  mLastBlobName : string;
  mNetInputSize4D : list Z;
  nvengine : option TensorRT.ICudaEngine;  (* None: refers to no object *)
  context : option TensorRT.ICudaEngine;   (* the context's engine *)
  buffers : list Z;                        (* void* buffers[NB_BINDINGS] *)
  inputBlobIndex : Z;
  outputBlobIndex : Z;
  spOutputBlob : option Blob
}.

(** The members the constructor leaves uninitialised hold indeterminate
    values until [initializationOnThread] assigns them: the two raw pointers
    [nvengine] and [context] (either referring to no object, or happening to
    hold the address of a live one), the buffer array and the two indices. *)
Record Indeterminate : Type := {
  garbage_nvengine : option TensorRT.ICudaEngine;
  garbage_context : option TensorRT.ICudaEngine;
  garbage_buffers : Z * Z;
  garbage_inputBlobIndex : Z;
  garbage_outputBlobIndex : Z
}.

(** A [NetRT] object inside its process. *)
Record Machine : Type := { world : World; this : ImplNetRT }.

Definition set_this (f : ImplNetRT -> ImplNetRT) : M Machine unit :=
  modify (fun m => {| world := world m; this := f (this m) |}).

Definition on_device {A} (f : Cuda.Device -> A * Cuda.Device) : M Machine A :=
  fun m =>
    let r := f (device (world m)) in
    Ret (fst r) {| world := with_device (snd r) (world m); this := this m |}.

Definition set_mNetInputSize4D (v : list Z) (i : ImplNetRT) : ImplNetRT :=
  {| mGpuId := mGpuId i; mRTPlan := mRTPlan i; mLastBlobName := mLastBlobName i;
     mNetInputSize4D := v; nvengine := nvengine i; context := context i;
     buffers := buffers i; inputBlobIndex := inputBlobIndex i;
     outputBlobIndex := outputBlobIndex i; spOutputBlob := spOutputBlob i |}.

Definition set_nvengine (v : option TensorRT.ICudaEngine) (i : ImplNetRT)
  : ImplNetRT :=
  {| mGpuId := mGpuId i; mRTPlan := mRTPlan i; mLastBlobName := mLastBlobName i;
     mNetInputSize4D := mNetInputSize4D i; nvengine := v; context := context i;
     buffers := buffers i; inputBlobIndex := inputBlobIndex i;
     outputBlobIndex := outputBlobIndex i; spOutputBlob := spOutputBlob i |}.

Definition set_context (v : option TensorRT.ICudaEngine) (i : ImplNetRT)
  : ImplNetRT :=
  {| mGpuId := mGpuId i; mRTPlan := mRTPlan i; mLastBlobName := mLastBlobName i;
     mNetInputSize4D := mNetInputSize4D i; nvengine := nvengine i; context := v;
     buffers := buffers i; inputBlobIndex := inputBlobIndex i;
     outputBlobIndex := outputBlobIndex i; spOutputBlob := spOutputBlob i |}.

Definition set_buffers (v : list Z) (i : ImplNetRT) : ImplNetRT :=
  {| mGpuId := mGpuId i; mRTPlan := mRTPlan i; mLastBlobName := mLastBlobName i;
     mNetInputSize4D := mNetInputSize4D i; nvengine := nvengine i;
     context := context i; buffers := v; inputBlobIndex := inputBlobIndex i;
     outputBlobIndex := outputBlobIndex i; spOutputBlob := spOutputBlob i |}.

Definition set_inputBlobIndex (v : Z) (i : ImplNetRT) : ImplNetRT :=
  {| mGpuId := mGpuId i; mRTPlan := mRTPlan i; mLastBlobName := mLastBlobName i;
     mNetInputSize4D := mNetInputSize4D i; nvengine := nvengine i;
     context := context i; buffers := buffers i; inputBlobIndex := v;
     outputBlobIndex := outputBlobIndex i; spOutputBlob := spOutputBlob i |}.

Definition set_outputBlobIndex (v : Z) (i : ImplNetRT) : ImplNetRT :=
  {| mGpuId := mGpuId i; mRTPlan := mRTPlan i; mLastBlobName := mLastBlobName i;
     mNetInputSize4D := mNetInputSize4D i; nvengine := nvengine i;
     context := context i; buffers := buffers i;
     inputBlobIndex := inputBlobIndex i; outputBlobIndex := v;
     spOutputBlob := spOutputBlob i |}.

Definition set_spOutputBlob (v : option Blob) (i : ImplNetRT) : ImplNetRT :=
  {| mGpuId := mGpuId i; mRTPlan := mRTPlan i; mLastBlobName := mLastBlobName i;
     mNetInputSize4D := mNetInputSize4D i; nvengine := nvengine i;
     context := context i; buffers := buffers i;
     inputBlobIndex := inputBlobIndex i; outputBlobIndex := outputBlobIndex i;
     spOutputBlob := v |}.

(** ** class NetRT *)

Module NetRT.

Definition INPUT_BLOB_NAME : string := "image".
Definition OUTPUT_BLOB_NAME : string := "net_output".

Definition NB_BINDINGS : Z := 2.
Definition INPUT_IMAGE_NBR_CHANNELS : Z := 3.
Definition INPUT_IMAGE_HEIGHT : Z := 320.
Definition INPUT_IMAGE_WIDTH : Z := 240.

Definition OUTPUT_HEATMAP_NB_CHANNELS : Z := 57.
Definition OUTPUT_HEATMAP_HEIGHT : Z := 40.
Definition OUTPUT_HEATMAP_WIDTH : Z := 30.

(** Default arguments of the constructor (netRT.hpp, lines 45-46). *)
Definition default_gpuId : Z := 0.
Definition default_enableGoogleLogging : bool := true.
Definition default_lastBlobName : string := "net_output".

(** [a * b * c * d] over [int], left to right. *)
Definition int_product (a b c d : Z) : Z :=
  Int32.mul (Int32.mul (Int32.mul a b) c) d.

(** Modelled from the spec: [existFile] (openpose/utilities/fileSystem.hpp)
    is not part of the sources at hand; construction "validates the plan
    file's existence". *)
Definition existFile (path : string) : M World bool :=
  gets (fun w => bool_decide (is_Some (files w !! path))).

(** Modelled from the spec: [cudaCheck] (openpose/gpu/cuda.hpp) is not part
    of the sources at hand; "any platform-reported error is surfaced as a
    fatal DeviceError" through [op::error]. *)
Definition cudaCheck (line : Z) : M Machine unit :=
  e <- gets (fun m => Cuda.lastError (device (world m))) ;;
  match e with
  | Some _ => error "Cuda check failed" line
  | None => ret tt
  end.

(** [google::InitGoogleLogging("OpenPose")] *)
Definition InitGoogleLogging : M World unit :=
  modify (fun w =>
    {| files := files w; deserializer := deserializer w;
       sGoogleLoggingInitializedRT := sGoogleLoggingInitializedRT w;
       glogInitCalls := S (glogInitCalls w); device := device w |}).

Definition store_sGoogleLoggingInitializedRT (b : bool) : M World unit :=
  modify (fun w =>
    {| files := files w; deserializer := deserializer w;
       sGoogleLoggingInitializedRT := b;
       glogInitCalls := glogInitCalls w; device := device w |}).

(** [ImplNetRT::ImplNetRT] (netRT.cpp, lines 42-60).  One thread runs the
    body without interference; the lock has no effect then. *)
Definition ImplNetRT_ctor (RTPlan : string) (gpuId : Z)
    (enableGoogleLogging : bool) (lastBlobName : string) (g : Indeterminate)
  : M World ImplNetRT :=
  (found <- existFile RTPlan ;;
   when (negb found) (error ("TensorRT plan not found: " ++ RTPlan) 49) ;;
   initialized <- gets sGoogleLoggingInitializedRT ;;
   when (enableGoogleLogging && negb initialized)
     (initialized' <- gets sGoogleLoggingInitializedRT ;;
      when (enableGoogleLogging && negb initialized')
        (InitGoogleLogging ;;
         store_sGoogleLoggingInitializedRT true)) ;;
   ret {| mGpuId := gpuId; mRTPlan := RTPlan; mLastBlobName := lastBlobName;
          mNetInputSize4D := [];
          nvengine := garbage_nvengine g; context := garbage_context g;
          buffers := [fst (garbage_buffers g); snd (garbage_buffers g)];
          inputBlobIndex := garbage_inputBlobIndex g;
          outputBlobIndex := garbage_outputBlobIndex g;
          spOutputBlob := None |})%cpp.

(** [NetRT::NetRT]: allocates the implementation object. *)
Definition NetRT_ctor (RTPlan : string) (gpuId : Z) (enableGoogleLogging : bool)
    (lastBlobName : string) (g : Indeterminate) : M World ImplNetRT :=
  ImplNetRT_ctor RTPlan gpuId enableGoogleLogging lastBlobName g.

(** [upImpl->buffers[index]] as an rvalue *)
Definition read_slot (index : Z) : M Machine Z :=
  (b <- gets (fun m => buffers (this m)) ;;
   if (0 <=? index) && (index <? NB_BINDINGS) then
     match b !! Z.to_nat index with
     | Some p => ret p
     | None => undefined (OutOfBounds index)
     end
   else undefined (OutOfBounds index))%cpp.

(** [cudaMalloc(&(upImpl->buffers[index]), size)] *)
Definition cudaMalloc_slot (index : Z) (size : Z) : M Machine unit :=
  (if (0 <=? index) && (index <? NB_BINDINGS) then
     p <- on_device (Cuda.cudaMalloc size) ;;
     match p with
     | Some addr =>
         set_this (fun i => set_buffers (<[Z.to_nat index := addr]> (buffers i)) i)
     | None => ret tt
     end
   else undefined (OutOfBounds index))%cpp.

(** [cudaFree(upImpl->buffers[index])] *)
Definition cudaFree_slot (index : Z) : M Machine unit :=
  (p <- read_slot index ;;
   on_device (fun d => (tt, Cuda.cudaFree p d)))%cpp.

(** [ImplNetRT::~ImplNetRT] (netRT.cpp, lines 62-67) *)
Definition ImplNetRT_dtor : M Machine unit :=
  (i <- gets (fun m => inputBlobIndex (this m)) ;;
   cudaFree_slot i ;;
   o <- gets (fun m => outputBlobIndex (this m)) ;;
   cudaFree_slot o ;;
   cudaCheck 66)%cpp.

(** "Load the TensorRT plan from file" (netRT.cpp, lines 81-90) *)
Definition loadPlan : M Machine (list Byte.byte) :=
  (path <- gets (fun m => mRTPlan (this m)) ;;
   fs <- gets (fun m => files (world m)) ;;
   let modelFile := ifstream_open fs path true true in
   let modelSize := tellg modelFile in
   let modelFile := seekg_beg modelFile in
   when (vector_max_size <? SizeT.wrap modelSize) (throw VectorLength) ;;
   let r := read modelFile modelSize in
   when (failbit (snd r)) (error "Could not load tensorrt engine." 89) ;;
   ret (fst r))%cpp.

(** "Create the engine from the serialized plan" (lines 92-95) *)
Definition createEngine (modelBuffer : list Byte.byte) : M Machine unit :=
  (deser <- gets (fun m => deserializer (world m)) ;;
   set_this (set_nvengine (deser modelBuffer)) ;;
   nv <- gets (fun m => nvengine (this m)) ;;
   match nv with
   | None => undefined NullDeref
   | Some e => set_this (set_context (Some e))
   end)%cpp.

(** "Check number of bindings" (lines 97-100) *)
Definition checkBindings (engine : TensorRT.ICudaEngine) : M Machine unit :=
  when (negb (TensorRT.getNbBindings engine =? NB_BINDINGS))
    (error "The engine should have 2 binding (One input and one output)" 100).

(** "Bind the output and input tensor name to indexes" (lines 102-104) *)
Definition bindNames (engine : TensorRT.ICudaEngine) : M Machine unit :=
  (set_this (set_inputBlobIndex (TensorRT.getBindingIndex engine INPUT_BLOB_NAME)) ;;
   set_this (set_outputBlobIndex (TensorRT.getBindingIndex engine OUTPUT_BLOB_NAME)))%cpp.

Definition input_bytes : Z :=
  SizeT.wrap (int_product 1 INPUT_IMAGE_NBR_CHANNELS INPUT_IMAGE_HEIGHT
                INPUT_IMAGE_WIDTH * SizeT.sizeof_float).

Definition output_bytes : Z :=
  SizeT.wrap (int_product 1 OUTPUT_HEATMAP_NB_CHANNELS OUTPUT_HEATMAP_HEIGHT
                OUTPUT_HEATMAP_WIDTH * SizeT.sizeof_float).

(** "Allocate memory for the input and output buffers on the gpu"
    (lines 106-110) *)
Definition allocateBuffers : M Machine unit :=
  (i <- gets (fun m => inputBlobIndex (this m)) ;;
   cudaMalloc_slot i input_bytes ;;
   o <- gets (fun m => outputBlobIndex (this m)) ;;
   cudaMalloc_slot o output_bytes)%cpp.

(** "Redirect to a caffe blob for compatibility with the current pipeline"
    (lines 112-114) *)
Definition redirectToBlob : M Machine unit :=
  (set_this (set_spOutputBlob
     (Some {| shape := [1; OUTPUT_HEATMAP_NB_CHANNELS; OUTPUT_HEATMAP_HEIGHT;
                        OUTPUT_HEATMAP_WIDTH];
              gpu_data := None |})) ;;
   o <- gets (fun m => outputBlobIndex (this m)) ;;
   p <- read_slot o ;;
   blob <- gets (fun m => spOutputBlob (this m)) ;;
   match blob with
   | None => undefined NullDeref
   | Some b =>
       set_this (set_spOutputBlob (Some {| shape := shape b; gpu_data := Some p |}))
   end)%cpp.

(** [NetRT::initializationOnThread] (netRT.cpp, lines 79-117) *)
Definition initializationOnThread : M Machine unit :=
  (modelBuffer <- loadPlan ;;
   createEngine modelBuffer ;;
   ctx <- gets (fun m => context (this m)) ;;
   match ctx with
   | None => undefined NullDeref
   | Some engine =>
       checkBindings engine ;;
       bindNames engine ;;
       allocateBuffers ;;
       redirectToBlob ;;
       cudaCheck 116
   end)%cpp.

(** The message of the volume check (lines 131-133). *)
Definition dimension_conflict (totalSize : Z) (size : list Z) : string :=
  let hardcodedSize :=
    "[total size = "
    ++ Int32.to_string (int_product 1 3 INPUT_IMAGE_WIDTH INPUT_IMAGE_HEIGHT)
    ++ "]" in
  let inputSizeDetail :=
    "total size = " ++ Int32.to_string totalSize
    ++ "[batch size = " ++ Int32.to_string (nth 0 size 0)
    ++ ", channel (RGB) = " ++ Int32.to_string (nth 1 size 0)
    ++ ", height = " ++ Int32.to_string (nth 2 size 0)
    ++ ", width = " ++ Int32.to_string (nth 3 size 0) ++ "]" in
  "Dimension conflict " ++ hardcodedSize ++ " vs " ++ inputSizeDetail.

(** "Security checks" (lines 121-135) *)
Definition securityChecks (inputData : Array) : M Machine unit :=
  (when (empty inputData)
     (error "The Array inputData cannot be empty." 123) ;;
   when (negb (getNumberDimensions inputData =? 4)
         || negb (getSizeAt inputData 1 =? 3))
     (error "The Array inputData must have 4 dimensions: [batch size, 3 (RGB), height, width]."
        126) ;;
   let size := getSize inputData in
   let totalSize := Int32.accumulate_mul size 1 in
   when (negb (totalSize =?
               int_product 1 INPUT_IMAGE_NBR_CHANNELS INPUT_IMAGE_WIDTH
                 INPUT_IMAGE_HEIGHT))
     (error (dimension_conflict totalSize size) 134))%cpp.

(** [NetRT::forwardPass] (netRT.cpp, lines 119-152) *)
Definition forwardPass (inputData : Array) : M Machine unit :=
  (securityChecks inputData ;;
   recorded <- gets (fun m => mNetInputSize4D (this m)) ;;
   when (negb (vectorsAreEqual recorded (getSize inputData)))
     (set_this (set_mNetInputSize4D (getSize inputData))) ;;
   i <- gets (fun m => inputBlobIndex (this m)) ;;
   dst <- read_slot i ;;
   on_device (fun d =>
     (tt, Cuda.cudaMemcpyH2D dst (getConstPtr inputData)
            (SizeT.wrap (getVolume inputData * SizeT.sizeof_float)) d)) ;;
   ctx <- gets (fun m => context (this m)) ;;
   match ctx with
   | None => undefined NullDeref
   | Some engine =>
       b <- gets (fun m => buffers (this m)) ;;
       ok <- on_device (TensorRT.execute engine 1 b) ;;
       when (negb ok) (error "Inference execution failed" 149)
   end)%cpp.

(** The block guarded by the [try] of [NetRT::getOutputBlob] (netRT.cpp,
    lines 158-162); [USE_CAFFE] is the preprocessor switch of the build. *)
Definition getOutputBlob_try (USE_CAFFE : bool) : M Machine (option Blob) :=
  if USE_CAFFE then gets (fun m => spOutputBlob (this m)) else ret None.

(** Its handler (lines 164-168): [error(e.what(), ...); return nullptr;] *)
Definition getOutputBlob_catch (e : exn) : M Machine (option Blob) :=
  (error (what e) 166 ;; ret None)%cpp.

(** [NetRT::getOutputBlob] (netRT.cpp, lines 154-169) *)
Definition getOutputBlob (USE_CAFFE : bool) : M Machine (option Blob) :=
  try_catch (getOutputBlob_try USE_CAFFE) getOutputBlob_catch.

(** [NetRT::~NetRT]: destroys the implementation object. *)
Definition NetRT_dtor : M Machine unit := ImplNetRT_dtor.

End NetRT.

(** The object once the engine and its context are stored. *)
Definition with_engine (e : TensorRT.ICudaEngine) (m : Machine) : Machine :=
  {| world := world m;
     this := set_context (Some e) (set_nvengine (Some e) (this m)) |}.

(** Forward passes issued one after the other on the same object. *)
Fixpoint forwardPasses (inputs : list Array) : M Machine unit :=
  match inputs with
  | [] => ret tt
  | a :: rest => NetRT.forwardPass a ;; forwardPasses rest
  end.

(** The engine's input binding is the one named "image" and its output
    binding the one named "net_output". *)
Definition bound_by_name (e : TensorRT.ICudaEngine) : Prop :=
  TensorRT.slot_of true (TensorRT.bindings e) 0 =
    Some (Z.to_nat (TensorRT.getBindingIndex e NetRT.INPUT_BLOB_NAME)) /\
  TensorRT.slot_of false (TensorRT.bindings e) 0 =
    Some (Z.to_nat (TensorRT.getBindingIndex e NetRT.OUTPUT_BLOB_NAME)).

(** The handle [initializationOnThread] builds over device address [p]. *)
Definition output_handle (p : Z) : Blob :=
  {| shape := [1; 57; 40; 30]; gpu_data := Some p |}.

(** An initialised object: context [e], input buffer at [pin], output buffer
    at [pout], and the handle over [pout]. *)
Record Ready (e : TensorRT.ICudaEngine) (pin pout : Z) (m : Machine) : Prop := {
  ready_context : context (this m) = Some e;
  ready_input_index : 0 <= inputBlobIndex (this m) < 2;
  ready_input_slot : TensorRT.slot_of true (TensorRT.bindings e) 0 =
                       Some (Z.to_nat (inputBlobIndex (this m)));
  ready_output_slot : TensorRT.slot_of false (TensorRT.bindings e) 0 =
                        Some (Z.to_nat (outputBlobIndex (this m)));
  ready_input : buffers (this m) !! Z.to_nat (inputBlobIndex (this m)) = Some pin;
  ready_output : buffers (this m) !! Z.to_nat (outputBlobIndex (this m)) = Some pout;
  ready_distinct : pin <> pout;
  ready_input_live : exists b, Cuda.heap (device (world m)) !! pin = Some b /\
                               Cuda.bytes b = NetRT.input_bytes;
  ready_output_live : exists b, Cuda.heap (device (world m)) !! pout = Some b /\
                                Cuda.bytes b = NetRT.output_bytes;
  ready_handle : spOutputBlob (this m) = Some (output_handle pout)
}.

(** A computation leaves an observation of the state alone, whatever its
    outcome. *)
Definition preserves {S A B} (obs : S -> B) (c : M S A) : Prop :=
  forall s, obs (final (c s)) = obs s.

(** ** The logging block of the constructor under concurrent construction *)

(** Lines 51-59 of netRT.cpp, one shared-memory access per step, for any
    number of threads that construct a [NetRT] at the same time. *)
Module Concurrent.

Inductive pc : Type :=
| OuterCheck    (* line 51: if (enableGoogleLogging && !flag) *)
| Acquire       (* line 53: std::lock_guard<std::mutex> lock{sMutexNetRT} *)
| InnerCheck    (* line 54: if (enableGoogleLogging && !flag) *)
| CallInit      (* line 56: google::InitGoogleLogging("OpenPose") *)
| StoreFlag     (* line 57: flag = true *)
| Release       (* line 59: the guard leaves scope *)
| Finished.

Record Thread : Type := { enableGoogleLogging : bool; at_pc : pc }.

Record Shared : Type := {
  flag : bool;              (* sGoogleLoggingInitializedRT *)
  owner : option nat;       (* holder of sMutexNetRT *)
  initCalls : nat           (* calls of google::InitGoogleLogging *)
}.

Definition goto (t : Thread) (p : pc) : Thread :=
  {| enableGoogleLogging := enableGoogleLogging t; at_pc := p |}.

(** One step of thread [tid]; [None] when the thread cannot move (it waits
    for the mutex, or it has finished). *)
Definition step (tid : nat) (t : Thread) (s : Shared) : option (Thread * Shared) :=
  match at_pc t with
  | OuterCheck =>
      Some (goto t (if enableGoogleLogging t && negb (flag s)
                    then Acquire else Finished), s)
  | Acquire =>
      match owner s with
      | None => Some (goto t InnerCheck,
                      {| flag := flag s; owner := Some tid; initCalls := initCalls s |})
      | Some _ => None
      end
  | InnerCheck =>
      Some (goto t (if enableGoogleLogging t && negb (flag s)
                    then CallInit else Release), s)
  | CallInit =>
      Some (goto t StoreFlag,
            {| flag := flag s; owner := owner s; initCalls := S (initCalls s) |})
  | StoreFlag =>
      Some (goto t Release,
            {| flag := true; owner := owner s; initCalls := initCalls s |})
  | Release =>
      Some (goto t Finished,
            {| flag := flag s; owner := None; initCalls := initCalls s |})
  | Finished => None
  end.

Record Config : Type := { shared : Shared; threads : list Thread }.

(** The scheduler picks thread [tid]. *)
Definition schedule_step (c : Config) (tid : nat) : Config :=
  match threads c !! tid with
  | Some t =>
      match step tid t (shared c) with
      | Some (t', s') => {| shared := s'; threads := <[tid := t']> (threads c) |}
      | None => c
      end
  | None => c
  end.

Definition run (schedule : list nat) (c : Config) : Config :=
  fold_left schedule_step schedule c.

(** All constructors about to enter the block, the flag holding [flag0]. *)
Definition start_from (flag0 : bool) (enables : list bool) : Config :=
  {| shared := {| flag := flag0; owner := None; initCalls := 0 |};
     threads := map (fun b => {| enableGoogleLogging := b; at_pc := OuterCheck |})
                  enables |}.

(** The program as written: the flag holds its static initialiser. *)
Definition start (enables : list bool) : Config :=
  start_from sGoogleLoggingInitializedRT_initial enables.

Definition in_critical_section (p : pc) : bool :=
  match p with
  | InnerCheck | CallInit | StoreFlag | Release => true
  | _ => false
  end.

(** The invariant behind the double-checked lock. *)
Record Inv (c : Config) : Prop := {
  inv_owner : forall tid t, threads c !! tid = Some t ->
      in_critical_section (at_pc t) = true -> owner (shared c) = Some tid;
  inv_call : forall tid t, threads c !! tid = Some t -> at_pc t = CallInit ->
      flag (shared c) = false /\ initCalls (shared c) = 0%nat;
  inv_store : forall tid t, threads c !! tid = Some t -> at_pc t = StoreFlag ->
      flag (shared c) = false /\ initCalls (shared c) = 1%nat;
  inv_unset : (forall tid t, threads c !! tid = Some t -> at_pc t <> StoreFlag) ->
      flag (shared c) = false -> initCalls (shared c) = 0%nat;
  inv_once : (initCalls (shared c) <= 1)%nat
}.

(** With the flag already set, a constructor only ever passes the outer
    check. *)
Definition Idle (c : Config) : Prop :=
  flag (shared c) = true /\ initCalls (shared c) = 0%nat /\
  Forall (fun t => at_pc t = OuterCheck \/ at_pc t = Finished) (threads c).

End Concurrent.

(** ** Concrete fixtures *)

Module Fixtures.

Definition pose_engine : TensorRT.ICudaEngine :=
  {| TensorRT.bindings :=
       [ {| TensorRT.bindingName := "image"; TensorRT.bindingIsInput := true |};
         {| TensorRT.bindingName := "net_output"; TensorRT.bindingIsInput := false |} ];
     TensorRT.network := fun input i => input i + 1 |}.

(** An engine whose output tensor carries another name. *)
Definition heatmaps_engine : TensorRT.ICudaEngine :=
  {| TensorRT.bindings :=
       [ {| TensorRT.bindingName := "image"; TensorRT.bindingIsInput := true |};
         {| TensorRT.bindingName := "heatmaps"; TensorRT.bindingIsInput := false |} ];
     TensorRT.network := fun input i => input i + 1 |}.

(** An engine whose input tensor carries another name. *)
Definition data_engine : TensorRT.ICudaEngine :=
  {| TensorRT.bindings :=
       [ {| TensorRT.bindingName := "data"; TensorRT.bindingIsInput := true |};
         {| TensorRT.bindingName := "net_output"; TensorRT.bindingIsInput := false |} ];
     TensorRT.network := fun input i => input i + 1 |}.

(** An engine with three bindings. *)
Definition three_engine : TensorRT.ICudaEngine :=
  {| TensorRT.bindings :=
       [ {| TensorRT.bindingName := "image"; TensorRT.bindingIsInput := true |};
         {| TensorRT.bindingName := "net_output"; TensorRT.bindingIsInput := false |};
         {| TensorRT.bindingName := "aux"; TensorRT.bindingIsInput := false |} ];
     TensorRT.network := fun input => input |}.

Definition plan_bytes : list Byte.byte := [Byte.x50; Byte.x4c; Byte.x41; Byte.x4e].

(** The deserializer of a runtime that recognises four plans by first byte. *)
Definition deser (b : list Byte.byte) : option TensorRT.ICudaEngine :=
  match b with
  | Byte.x50 :: _ => Some pose_engine
  | Byte.x48 :: _ => Some heatmaps_engine
  | Byte.x44 :: _ => Some data_engine
  | Byte.x33 :: _ => Some three_engine
  | _ => None
  end.

Definition fs : gmap string File :=
  <["pose.plan" := {| fsize := 4; fdata := plan_bytes |}]>
  (<["heatmaps.plan" := {| fsize := 1; fdata := [Byte.x48] |}]>
  (<["data.plan" := {| fsize := 1; fdata := [Byte.x44] |}]>
  (<["three.plan" := {| fsize := 1; fdata := [Byte.x33] |}]>
  (<["truncated.plan" := {| fsize := 4; fdata := [Byte.x50; Byte.x4c] |}]> ∅)))).

Definition gpu : Cuda.Device :=
  {| Cuda.heap := ∅; Cuda.brk := 4096; Cuda.available := 8 * 1024 * 1024;
     Cuda.lastError := None; Cuda.calls := [] |}.

Definition process : World := boot fs deser gpu.

Definition junk : Indeterminate :=
  {| garbage_nvengine := None; garbage_context := None;
     garbage_buffers := (48879, 57005);
     garbage_inputBlobIndex := 0; garbage_outputBlobIndex := 1 |}.

(** The same memory, but with the pointers of an earlier object still in
    place of [nvengine] and [context]. *)
Definition stale : Indeterminate :=
  {| garbage_nvengine := Some pose_engine; garbage_context := Some pose_engine;
     garbage_buffers := (48879, 57005);
     garbage_inputBlobIndex := 0; garbage_outputBlobIndex := 1 |}.

(** Construct a [NetRT] on [plan] with the default arguments, in [process]. *)
Definition constructed_with (g : Indeterminate) (plan lastBlobName : string)
  : outcome World ImplNetRT :=
  NetRT.NetRT_ctor plan NetRT.default_gpuId NetRT.default_enableGoogleLogging
    lastBlobName g process.

Definition constructed (plan lastBlobName : string) : outcome World ImplNetRT :=
  constructed_with junk plan lastBlobName.

Definition machine_of (o : outcome World ImplNetRT) : option Machine :=
  match o with
  | Ret i w => Some {| world := w; this := i |}
  | _ => None
  end.

(** A [NetRT] that was constructed but never initialised. *)
Definition fresh_with (g : Indeterminate) (plan lastBlobName : string) : Machine :=
  match machine_of (constructed_with g plan lastBlobName) with
  | Some m => m
  | None => {| world := process;
               this := {| mGpuId := 0; mRTPlan := plan;
                          mLastBlobName := lastBlobName; mNetInputSize4D := [];
                          nvengine := None; context := None; buffers := [0; 0];
                          inputBlobIndex := 0; outputBlobIndex := 0;
                          spOutputBlob := None |} |}
  end.

Definition fresh (plan lastBlobName : string) : Machine :=
  fresh_with junk plan lastBlobName.

(** The same object after its plan file was removed from the file system. *)
Definition unlinked : Machine :=
  let m := fresh "pose.plan" "net_output" in
  {| world := {| files := delete "pose.plan" (files (world m));
                 deserializer := deserializer (world m);
                 sGoogleLoggingInitializedRT := sGoogleLoggingInitializedRT (world m);
                 glogInitCalls := glogInitCalls (world m);
                 device := device (world m) |};
     this := this m |}.

(** A [NetRT] on the pose plan after [initializationOnThread]. *)
Definition ready : Machine :=
  final (NetRT.initializationOnThread (fresh "pose.plan" "net_output")).

Definition tensor (sizes : list Z) : Array :=
  {| mSize := sizes; mVolume := elements sizes; spData := fun i => i |}.

Definition image : Array := tensor [1; 3; 320; 240].
Definition batch_of_two : Array := tensor [2; 3; 320; 240].
Definition no_rows : Array := tensor [0; 3; 320; 240].
Definition huge : Array := tensor [1; 3; 1024; 4194379].

End Fixtures.

(** ** class RTLogger *)

Module RTLogger.

(** [nvinfer1::ILogger::Severity]: the four enumerators the switch names, and
    any other value of the enumeration. *)
Inductive Severity : Type :=
| kINTERNAL_ERROR
| kERROR
| kWARNING
| kINFO
| kOTHER (value : Z).

(** [std::cerr << text]; the state is what was written to the stream. *)
Definition put (text : string) : M string unit :=
  modify (fun cerr => cerr ++ text).

Definition newline : string := String "010" "".

(** [RTLogger::log] (netRT.hpp, lines 16-27) *)
Definition log (severity : Severity) (msg : string) : M string unit :=
  match severity with
  | kINTERNAL_ERROR => put "INTERNAL_ERROR: "
  | kERROR => put "ERROR: "
  | kWARNING => put "WARNING: "
  | kINFO => put "INFO: "
  | kOTHER _ => put "UNKNOWN: "
  end ;;
  put msg ;;
  put newline.

(** Messages handed to the logger one after the other. *)
Fixpoint log_all (entries : list (Severity * string)) : M string unit :=
  match entries with
  | [] => ret tt
  | (severity, msg) :: rest => log severity msg ;; log_all rest
  end.

End RTLogger.

(** ** Further scenarios *)

Module Scenarios.

(** An object whose plan file was overwritten, after construction, with
    bytes the runtime does not recognise. *)
Definition garbled : Machine :=
  let m := Fixtures.fresh "pose.plan" "net_output" in
  {| world := {| files := <["pose.plan" := {| fsize := 2;
                                               fdata := [Byte.x00; Byte.x01] |}]>
                            (files (world m));
                 deserializer := deserializer (world m);
                 sGoogleLoggingInitializedRT := sGoogleLoggingInitializedRT (world m);
                 glogInitCalls := glogInitCalls (world m);
                 device := device (world m) |};
     this := this m |}.

End Scenarios.

(** Calls that are all allocations, two at most. *)
Definition up_to_two_mallocs (added : list Cuda.Call) : Prop :=
  Forall (fun c => Cuda.is_malloc c = true) added /\ (length added <= 2)%nat.

(** * Properties *)

(** The external calls are reasoned about through their lemmas. *)
Arguments Cuda.cudaMalloc : simpl never.
Arguments Cuda.cudaFree : simpl never.
Arguments Cuda.cudaMemcpyH2D : simpl never.
Arguments TensorRT.execute : simpl never.
Arguments TensorRT.getBindingIndex : simpl never.
Arguments NetRT.input_bytes : simpl never.
Arguments NetRT.output_bytes : simpl never.
Arguments SizeT.wrap : simpl never.
Arguments Int32.wrap : simpl never.

(** ** Machine arithmetic *)

Lemma wrap_in_range (x : Z) : Int32.in_range x -> Int32.wrap x = x.
Proof.
  unfold Int32.in_range, Int32.min_int, Int32.max_int, Int32.wrap. intros H.
  rewrite Z.mod_small by lia. lia.
Qed.

Lemma wrap_mul_wrap_l (x a : Z) : Int32.wrap (Int32.wrap x * a) = Int32.wrap (x * a).
Proof.
  unfold Int32.wrap. f_equal.
  rewrite (Z.mod_eq (x + 2 ^ 31) (2 ^ 32)) by lia.
  replace ((x + 2 ^ 31 - 2 ^ 32 * ((x + 2 ^ 31) / 2 ^ 32) - 2 ^ 31) * a + 2 ^ 31)
    with (x * a + 2 ^ 31 + (- ((x + 2 ^ 31) / 2 ^ 32) * a) * 2 ^ 32) by ring.
  apply Z_mod_plus_full.
Qed.

(** The accumulated product is the mathematical product, wrapped once. *)
Lemma accumulate_mul_wrap (l : list Z) (x : Z) :
  Int32.accumulate_mul l (Int32.wrap x) = Int32.wrap (x * fold_right Z.mul 1 l).
Proof.
  revert x. induction l as [|a l IH]; intros x; simpl.
  - f_equal. ring.
  - unfold Int32.accumulate_mul in *. simpl. unfold Int32.mul at 2.
    rewrite wrap_mul_wrap_l, IH. f_equal. ring.
Qed.

Lemma accumulate_mul_exact (l : list Z) :
  Int32.in_range (fold_right Z.mul 1 l) ->
  Int32.accumulate_mul l 1 = fold_right Z.mul 1 l.
Proof.
  intros H. change 1 with (Int32.wrap 1) at 1.
  rewrite accumulate_mul_wrap, Z.mul_1_l. now apply wrap_in_range.
Qed.

(** ** Text *)

Lemma append_nil (s : string) : "" ++ s = s.
Proof. reflexivity. Qed.

Lemma append_cons (a : ascii) (s t : string) :
  String a s ++ t = String a (s ++ t).
Proof. reflexivity. Qed.

Lemma append_assoc (a b c : string) : (a ++ b) ++ c = a ++ (b ++ c).
Proof.
  induction a as [|x a IH]; [reflexivity |].
  now rewrite !append_cons, IH.
Qed.

Lemma starts_with_append (p s : string) : starts_with p (p ++ s) = true.
Proof.
  induction p as [|a p IH]; [reflexivity |].
  rewrite append_cons. simpl. now rewrite Ascii.eqb_refl, IH.
Qed.

Lemma contains_unfold (needle hay : string) :
  contains needle hay =
  starts_with needle hay ||
  match hay with
  | EmptyString => false
  | String _ hay' => contains needle hay'
  end.
Proof. destruct hay; reflexivity. Qed.

Lemma contains_middle (pre needle post : string) :
  contains needle (pre ++ needle ++ post) = true.
Proof.
  induction pre as [|a pre IH].
  - rewrite append_nil, contains_unfold, starts_with_append. reflexivity.
  - rewrite append_cons, contains_unfold, IH. apply orb_true_r.
Qed.

(** ** The one-time logging setup *)

Section Logging.
Import Concurrent.

Lemma lookup_updated (l : list Thread) (i j : nat) (t' t2 : Thread) :
  <[i := t']> l !! j = Some t2 ->
  (j = i /\ t2 = t') \/ (j <> i /\ l !! j = Some t2).
Proof.
  intros H. apply list_lookup_insert_Some in H.
  destruct H as [(-> & -> & _)|[Hne H]]; [left | right]; auto.
Qed.

(** No thread but the holder of the mutex is inside the guarded block. *)
Lemma critical_section_exclusive (c : Config) (i j : nat) (ti tj : Thread) :
  Inv c -> threads c !! i = Some ti -> threads c !! j = Some tj ->
  in_critical_section (at_pc ti) = true ->
  in_critical_section (at_pc tj) = true -> i = j.
Proof.
  intros I Hi Hj Ci Cj.
  pose proof (inv_owner c I i ti Hi Ci) as E1.
  pose proof (inv_owner c I j tj Hj Cj) as E2. congruence.
Qed.

(** A thread that is not about to store the flag leaves that property of the
    thread list unchanged when it moves on. *)
Lemma no_store_before (l : list Thread) (tid : nat) (t t' : Thread) :
  l !! tid = Some t -> at_pc t <> StoreFlag ->
  (forall j tj, <[tid := t']> l !! j = Some tj -> at_pc tj <> StoreFlag) ->
  forall j tj, l !! j = Some tj -> at_pc tj <> StoreFlag.
Proof.
  intros Ht Hne H j tj Hj. destruct (decide (j = tid)) as [->|Hjt].
  - congruence.
  - apply (H j). now rewrite list_lookup_insert_ne.
Qed.

Lemma Inv_start (flag0 : bool) (enables : list bool) :
  Inv (start_from flag0 enables).
Proof.
  assert (forall tid t, threads (start_from flag0 enables) !! tid = Some t ->
                        at_pc t = OuterCheck) as H.
  { intros tid t. unfold start_from. simpl. rewrite list_lookup_fmap.
    destruct (enables !! tid); simpl; [|discriminate].
    intros [= <-]. reflexivity. }
  constructor; simpl.
  - intros tid t Ht. rewrite (H _ _ Ht). discriminate.
  - intros tid t Ht. rewrite (H _ _ Ht). discriminate.
  - intros tid t Ht. rewrite (H _ _ Ht). discriminate.
  - reflexivity.
  - lia.
Qed.

Lemma Inv_schedule_step (c : Config) (tid : nat) :
  Inv c -> Inv (schedule_step c tid).
Proof.
  intros I. unfold schedule_step.
  destruct (threads c !! tid) as [t|] eqn:Ht; [|exact I].
  destruct (step tid t (shared c)) as [[t' s']|] eqn:Hs; [|exact I].
  pose proof (lookup_lt_Some _ _ _ Ht) as Hlen.
  assert (forall j tj, threads c !! j = Some tj ->
            in_critical_section (at_pc tj) = true ->
            in_critical_section (at_pc t) = true -> j = tid) as Excl.
  { intros j tj Hj Cj Ct. exact (critical_section_exclusive c j tid tj t I Hj Ht Cj Ct). }
  unfold step in Hs. destruct (at_pc t) eqn:Hpc.
  - (* OuterCheck *)
    injection Hs as <- <-.
    assert (in_critical_section
              (if enableGoogleLogging t && negb (flag (shared c))
               then Acquire else Finished) = false) as Hout
      by (destruct (enableGoogleLogging t && negb (flag (shared c))); reflexivity).
    constructor; simpl.
    + intros j tj Hj Cj. apply lookup_updated in Hj as [[-> ->]|[Hne Hj]].
      * simpl in Cj. congruence.
      * exact (inv_owner c I j tj Hj Cj).
    + intros j tj Hj Cj. apply lookup_updated in Hj as [[-> ->]|[Hne Hj]].
      * simpl in Cj. rewrite Cj in Hout. discriminate.
      * exact (inv_call c I j tj Hj Cj).
    + intros j tj Hj Cj. apply lookup_updated in Hj as [[-> ->]|[Hne Hj]].
      * simpl in Cj. rewrite Cj in Hout. discriminate.
      * exact (inv_store c I j tj Hj Cj).
    + intros H. apply (inv_unset c I).
      eapply no_store_before; [exact Ht | congruence | exact H].
    + exact (inv_once c I).
  - (* Acquire *)
    destruct (owner (shared c)) eqn:Ho; [discriminate|].
    injection Hs as <- <-.
    constructor; simpl.
    + intros j tj Hj Cj. apply lookup_updated in Hj as [[-> ->]|[Hne Hj]].
      * reflexivity.
      * pose proof (inv_owner c I j tj Hj Cj). congruence.
    + intros j tj Hj Cj. apply lookup_updated in Hj as [[-> ->]|[Hne Hj]].
      * discriminate.
      * exact (inv_call c I j tj Hj Cj).
    + intros j tj Hj Cj. apply lookup_updated in Hj as [[-> ->]|[Hne Hj]].
      * discriminate.
      * exact (inv_store c I j tj Hj Cj).
    + intros H. apply (inv_unset c I).
      eapply no_store_before; [exact Ht | congruence | exact H].
    + exact (inv_once c I).
  - (* InnerCheck *)
    injection Hs as <- <-.
    assert (owner (shared c) = Some tid) as Ho
      by (apply (inv_owner c I tid t Ht); first [reflexivity | now rewrite Hpc]).
    assert (forall j tj, threads c !! j = Some tj -> at_pc tj <> StoreFlag) as Hns.
    { intros j tj Hj Cj.
      assert (j = tid) as -> by (apply (Excl j tj Hj); [now rewrite Cj | first [reflexivity | now rewrite Hpc]]).
      congruence. }
    constructor; simpl.
    + intros j tj Hj Cj. apply lookup_updated in Hj as [[-> ->]|[Hne Hj]].
      * exact Ho.
      * exact (inv_owner c I j tj Hj Cj).
    + intros j tj Hj Cj. apply lookup_updated in Hj as [[-> ->]|[Hne Hj]].
      * simpl in Cj.
        destruct (enableGoogleLogging t); simpl in Cj; [|discriminate].
        destruct (flag (shared c)) eqn:Hf; simpl in Cj; [discriminate|].
        split; [reflexivity|]. now apply (inv_unset c I).
      * exact (inv_call c I j tj Hj Cj).
    + intros j tj Hj Cj. apply lookup_updated in Hj as [[-> ->]|[Hne Hj]].
      * simpl in Cj.
        destruct (enableGoogleLogging t && negb (flag (shared c))); discriminate.
      * exact (inv_store c I j tj Hj Cj).
    + intros H. now apply (inv_unset c I).
    + exact (inv_once c I).
  - (* CallInit *)
    injection Hs as <- <-.
    destruct (inv_call c I tid t Ht Hpc) as [Hf Hn].
    assert (forall j tj, threads c !! j = Some tj -> j <> tid ->
              in_critical_section (at_pc tj) = true -> False) as Alone.
    { intros j tj Hj Hne Cj. apply Hne, (Excl j tj Hj Cj). first [reflexivity | now rewrite Hpc]. }
    constructor; simpl.
    + intros j tj Hj Cj. apply lookup_updated in Hj as [[-> ->]|[Hne Hj]].
      * apply (inv_owner c I tid t Ht). first [reflexivity | now rewrite Hpc].
      * exact (inv_owner c I j tj Hj Cj).
    + intros j tj Hj Cj. apply lookup_updated in Hj as [[-> ->]|[Hne Hj]].
      * discriminate.
      * exfalso. apply (Alone j tj Hj Hne). now rewrite Cj.
    + intros j tj Hj Cj. apply lookup_updated in Hj as [[-> ->]|[Hne Hj]].
      * split; [exact Hf | now rewrite Hn].
      * exfalso. apply (Alone j tj Hj Hne). now rewrite Cj.
    + intros H. exfalso. apply (H tid (goto t StoreFlag)); [|reflexivity].
      now apply list_lookup_insert_eq.
    + rewrite Hn. lia.
  - (* StoreFlag *)
    injection Hs as <- <-.
    destruct (inv_store c I tid t Ht Hpc) as [Hf Hn].
    assert (forall j tj, threads c !! j = Some tj -> j <> tid ->
              in_critical_section (at_pc tj) = true -> False) as Alone.
    { intros j tj Hj Hne Cj. apply Hne, (Excl j tj Hj Cj). first [reflexivity | now rewrite Hpc]. }
    constructor; simpl.
    + intros j tj Hj Cj. apply lookup_updated in Hj as [[-> ->]|[Hne Hj]].
      * apply (inv_owner c I tid t Ht). first [reflexivity | now rewrite Hpc].
      * exact (inv_owner c I j tj Hj Cj).
    + intros j tj Hj Cj. apply lookup_updated in Hj as [[-> ->]|[Hne Hj]].
      * discriminate.
      * exfalso. apply (Alone j tj Hj Hne). now rewrite Cj.
    + intros j tj Hj Cj. apply lookup_updated in Hj as [[-> ->]|[Hne Hj]].
      * discriminate.
      * exfalso. apply (Alone j tj Hj Hne). now rewrite Cj.
    + discriminate.
    + exact (inv_once c I).
  - (* Release *)
    injection Hs as <- <-.
    assert (forall j tj, threads c !! j = Some tj -> j <> tid ->
              in_critical_section (at_pc tj) = true -> False) as Alone.
    { intros j tj Hj Hne Cj. apply Hne, (Excl j tj Hj Cj). first [reflexivity | now rewrite Hpc]. }
    constructor; simpl.
    + intros j tj Hj Cj. apply lookup_updated in Hj as [[-> ->]|[Hne Hj]].
      * discriminate.
      * exfalso. exact (Alone j tj Hj Hne Cj).
    + intros j tj Hj Cj. apply lookup_updated in Hj as [[-> ->]|[Hne Hj]].
      * discriminate.
      * exact (inv_call c I j tj Hj Cj).
    + intros j tj Hj Cj. apply lookup_updated in Hj as [[-> ->]|[Hne Hj]].
      * discriminate.
      * exact (inv_store c I j tj Hj Cj).
    + intros H. apply (inv_unset c I).
      eapply no_store_before; [exact Ht | congruence | exact H].
    + exact (inv_once c I).
  - discriminate.
Qed.

Lemma Inv_run (schedule : list nat) (c : Config) : Inv c -> Inv (run schedule c).
Proof.
  revert c. induction schedule as [|tid schedule IH]; intros c I; [exact I|].
  apply IH, Inv_schedule_step, I.
Qed.

(** Whatever value the flag starts from, and however the constructors
    interleave, the double-checked lock lets the setup run at most once. *)
Lemma setup_at_most_once (flag0 : bool) (enables : list bool) (schedule : list nat) :
  (initCalls (shared (run schedule (start_from flag0 enables))) <= 1)%nat.
Proof. apply inv_once, Inv_run, Inv_start. Qed.

(** Had the flag started from [false], two constructors that interleave
    step by step would perform the setup once. *)
Example setup_once_from_false :
  initCalls (shared (run [0; 1; 0; 1; 0; 1; 0; 1; 0; 1; 0; 1; 1; 1; 1; 1]%nat
                       (start_from false [true; true]))) = 1%nat.
Proof. reflexivity. Qed.

Lemma Idle_schedule_step (c : Config) (tid : nat) :
  Idle c -> Idle (schedule_step c tid).
Proof.
  intros (Hf & Hn & Hall). unfold schedule_step.
  destruct (threads c !! tid) as [t|] eqn:Ht; [|now repeat split].
  destruct (Forall_lookup_1 _ _ _ _ Hall Ht) as [Hpc|Hpc].
  - unfold step. rewrite Hpc, Hf, andb_false_r. repeat split; simpl; auto.
    apply Forall_insert; [exact Hall | now right].
  - unfold step. rewrite Hpc. now repeat split.
Qed.

Lemma Idle_run (schedule : list nat) (c : Config) : Idle c -> Idle (run schedule c).
Proof.
  revert c. induction schedule as [|tid schedule IH]; intros c I; [exact I|].
  apply IH, Idle_schedule_step, I.
Qed.

(** C2 (the code departs from the claim).  The claim: across any number of
    constructions with logging enabled, the one-time logging setup
    (InitGoogleLogging) runs exactly once, the shared flag being false until
    the first such construction.  The code: the flag is initialised to true,
    so for every set of constructors and every interleaving of their steps
    the setup is never run and the flag stays true. *)
Theorem logging_setup_never_runs (enables : list bool) (schedule : list nat) :
  flag (shared (start enables)) = true /\
  initCalls (shared (run schedule (start enables))) = 0%nat /\
  flag (shared (run schedule (start enables))) = true.
Proof.
  assert (Idle (run schedule (start enables))) as (Hf & Hn & _).
  { apply Idle_run. repeat split. unfold start, start_from. simpl.
    apply Forall_fmap, Forall_forall. intros b _. now left. }
  auto.
Qed.

End Logging.

(** The same for the constructor run by a single thread: in a freshly booted
    process no construction calls InitGoogleLogging. *)
Lemma ctor_skips_logging_setup (RTPlan : string) (gpuId : Z) (enable : bool)
    (lastBlobName : string) (g : Indeterminate) (w : World) :
  sGoogleLoggingInitializedRT w = true ->
  glogInitCalls (final (NetRT.NetRT_ctor RTPlan gpuId enable lastBlobName g w))
  = glogInitCalls w /\
  sGoogleLoggingInitializedRT
    (final (NetRT.NetRT_ctor RTPlan gpuId enable lastBlobName g w)) = true.
Proof.
  intros Hf. unfold NetRT.NetRT_ctor, NetRT.ImplNetRT_ctor, NetRT.existFile,
    bind, gets, when, error, throw, ret.
  destruct (bool_decide (is_Some (files w !! RTPlan))); simpl; [|auto].
  rewrite Hf, andb_false_r. simpl. auto.
Qed.

(** ** Loading the plan *)

Lemma plan_stream_mode (fs : gmap string File) (path : string) :
  binary (ifstream_open fs path true true) = true /\
  tellg (ifstream_open fs path true true) =
    match fs !! path with Some f => fsize f | None => -1 end /\
  gpos (seekg_beg (ifstream_open fs path true true)) = 0.
Proof. unfold ifstream_open, tellg, seekg_beg. destruct (fs !! path); auto. Qed.

(** An intact plan file is read in full. *)
Lemma loadPlan_intact (m : Machine) (f : File) :
  files (world m) !! mRTPlan (this m) = Some f -> File_intact f ->
  NetRT.loadPlan m = Ret (fdata f) m.
Proof.
  intros Hf [Hsize Hmax]. unfold vector_max_size in Hmax.
  unfold NetRT.loadPlan, bind, gets, when, ifstream_open. rewrite Hf. simpl.
  unfold tellg, seekg_beg, read. simpl.
  assert (SizeT.wrap (fsize f) = fsize f) as ->
    by (unfold SizeT.wrap; apply Z.mod_small; lia).
  assert ((vector_max_size <? fsize f) = false) as ->
    by (apply Z.ltb_ge; unfold vector_max_size; lia).
  simpl. unfold ret. simpl.
  rewrite Hsize, Nat2Z.id, drop_0, firstn_all, Z.ltb_irrefl. reflexivity.
Qed.

(** A short read is reported by [op::error]. *)
Lemma loadPlan_short_read (m : Machine) (f : File) :
  files (world m) !! mRTPlan (this m) = Some f ->
  Z.of_nat (length (fdata f)) < fsize f <= vector_max_size ->
  NetRT.loadPlan m = Throw (OpError "Could not load tensorrt engine." 89) m.
Proof.
  intros Hf [Hshort Hmax]. unfold vector_max_size in Hmax.
  unfold NetRT.loadPlan, bind, gets, when, ifstream_open. rewrite Hf. simpl.
  unfold tellg, seekg_beg, read. simpl.
  assert (SizeT.wrap (fsize f) = fsize f) as ->
    by (unfold SizeT.wrap; apply Z.mod_small; lia).
  assert ((vector_max_size <? fsize f) = false) as ->
    by (apply Z.ltb_ge; unfold vector_max_size; lia).
  simpl. unfold ret. simpl. rewrite drop_0.
  assert ((Z.of_nat (length (take (Z.to_nat (fsize f)) (fdata f))) <? fsize f) = true)
    as ->.
  { apply Z.ltb_lt. rewrite length_take. lia. }
  reflexivity.
Qed.

(** A plan that cannot be opened: [tellg] yields -1, and the buffer
    constructor throws before the read is attempted. *)
Lemma loadPlan_unopened (m : Machine) :
  files (world m) !! mRTPlan (this m) = None ->
  NetRT.loadPlan m = Throw VectorLength m.
Proof.
  intros Hf. unfold NetRT.loadPlan, bind, gets, when, ifstream_open.
  rewrite Hf. reflexivity.
Qed.

(** ** Initialization *)

Lemma initialization_after_load (m : Machine) (f : File) (e : TensorRT.ICudaEngine) :
  files (world m) !! mRTPlan (this m) = Some f -> File_intact f ->
  deserializer (world m) (fdata f) = Some e ->
  NetRT.initializationOnThread m =
  (NetRT.checkBindings e ;; NetRT.bindNames e ;; NetRT.allocateBuffers ;;
   NetRT.redirectToBlob ;; NetRT.cudaCheck 116) (with_engine e m).
Proof.
  intros Hf Hi Hd. unfold NetRT.initializationOnThread.
  unfold bind at 1. rewrite (loadPlan_intact m f Hf Hi).
  unfold bind at 1. unfold NetRT.createEngine, bind, gets, set_this, modify.
  simpl. rewrite Hd. reflexivity.
Qed.

Lemma index_of_range (n : string) (l : list TensorRT.Binding) (i : Z) :
  TensorRT.index_of n l i = -1 \/
  i <= TensorRT.index_of n l i < i + Z.of_nat (length l).
Proof.
  revert i. induction l as [|b l IH]; intros i; simpl; [now left|].
  destruct (String.eqb (TensorRT.bindingName b) n); [right; lia|].
  destruct (IH (i + 1)) as [H|H]; [now left | right; lia].
Qed.

Lemma getBindingIndex_range (e : TensorRT.ICudaEngine) (n : string) :
  TensorRT.getBindingIndex e n = -1 \/
  0 <= TensorRT.getBindingIndex e n < TensorRT.getNbBindings e.
Proof. apply index_of_range. Qed.

(** C4.  For every deserialized engine whose binding count is not exactly 2,
    initializationOnThread fails with the binding-count error and allocates
    no device buffer: the device (its allocation table and its call trace)
    and the buffer slots are as they were before the call. *)
Theorem binding_count_mismatch_no_allocation
    (m : Machine) (f : File) (e : TensorRT.ICudaEngine) :
  files (world m) !! mRTPlan (this m) = Some f -> File_intact f ->
  deserializer (world m) (fdata f) = Some e ->
  TensorRT.getNbBindings e <> 2 ->
  exists m',
    NetRT.initializationOnThread m =
      Throw (OpError "The engine should have 2 binding (One input and one output)" 100)
        m' /\
    device (world m') = device (world m) /\
    buffers (this m') = buffers (this m) /\
    Cuda.count Cuda.is_malloc (device (world m')) =
      Cuda.count Cuda.is_malloc (device (world m)).
Proof.
  intros Hf Hi Hd Hn. exists (with_engine e m).
  rewrite (initialization_after_load m f e Hf Hi Hd).
  unfold bind at 1. unfold NetRT.checkBindings, when, NetRT.NB_BINDINGS.
  apply Z.eqb_neq in Hn. rewrite Hn. simpl. auto.
Qed.

(** C10.  Beyond the binding-count check the slot indices are not validated:
    for every engine with exactly two bindings of which none is named "image",
    or none is named "net_output", initializationOnThread raises no error at
    slot resolution; the not-found result -1 is stored as the slot index and
    is then used to index the two-slot buffer array, which is outside the
    array. *)
Theorem unresolved_name_indexes_buffers
    (m : Machine) (f : File) (e : TensorRT.ICudaEngine) :
  files (world m) !! mRTPlan (this m) = Some f -> File_intact f ->
  deserializer (world m) (fdata f) = Some e ->
  TensorRT.getNbBindings e = 2 ->
  TensorRT.getBindingIndex e NetRT.INPUT_BLOB_NAME = -1 \/
  TensorRT.getBindingIndex e NetRT.OUTPUT_BLOB_NAME = -1 ->
  exists m',
    NetRT.initializationOnThread m = Undefined (OutOfBounds (-1)) m' /\
    inputBlobIndex (this m') = TensorRT.getBindingIndex e NetRT.INPUT_BLOB_NAME /\
    outputBlobIndex (this m') = TensorRT.getBindingIndex e NetRT.OUTPUT_BLOB_NAME /\
    (inputBlobIndex (this m') = -1 \/ outputBlobIndex (this m') = -1).
Proof.
  intros Hf Hi Hd Hn Hmiss.
  rewrite (initialization_after_load m f e Hf Hi Hd).
  pose proof (getBindingIndex_range e NetRT.INPUT_BLOB_NAME) as Hr.
  rewrite Hn in Hr.
  set (i := TensorRT.getBindingIndex e NetRT.INPUT_BLOB_NAME) in *.
  set (o := TensorRT.getBindingIndex e NetRT.OUTPUT_BLOB_NAME) in *.
  unfold bind at 1. unfold NetRT.checkBindings, when, NetRT.NB_BINDINGS.
  rewrite Hn. simpl.
  unfold bind at 1. unfold NetRT.bindNames, bind, set_this, modify.
  fold i o. simpl.
  unfold NetRT.allocateBuffers, bind, gets. simpl.
  destruct (Z.eq_dec i (-1)) as [Hin|Hin].
  - unfold NetRT.cudaMalloc_slot at 1. rewrite Hin. simpl.
    eexists. split; [reflexivity|]. simpl. auto.
  - destruct Hmiss as [Hin'|Hout]; [contradiction|].
    destruct Hr as [?|Hr]; [contradiction|].
    unfold NetRT.cudaMalloc_slot at 1. unfold NetRT.NB_BINDINGS.
    assert ((0 <=? i) && (i <? 2) = true) as ->.
    { apply andb_true_iff. split; [apply Z.leb_le | apply Z.ltb_lt]; lia. }
    unfold bind, on_device. simpl.
    destruct (Cuda.cudaMalloc NetRT.input_bytes (device (world m))) as [[p|] d'];
      simpl; unfold set_this, modify, ret; simpl;
      unfold NetRT.cudaMalloc_slot; rewrite Hout; simpl;
      (eexists; split; [reflexivity|]); simpl; auto.
Qed.

(** The two slots are resolved by the fixed names, whatever name the
    constructor was given. *)
Lemma bindNames_fixed_names (e : TensorRT.ICudaEngine) (m : Machine) :
  exists m',
    NetRT.bindNames e m = Ret tt m' /\
    inputBlobIndex (this m') = TensorRT.getBindingIndex e "image" /\
    outputBlobIndex (this m') = TensorRT.getBindingIndex e "net_output" /\
    mLastBlobName (this m') = mLastBlobName (this m).
Proof. eexists. split; [reflexivity|]. simpl. auto. Qed.

(** C3 (the code departs from the claim).  The claim: the output-tensor name
    given at construction determines which binding slot is resolved as the
    output, so the output slot index is the engine's binding index of that
    name.  The code: a NetRT constructed with lastBlobName "heatmaps" on an
    engine whose bindings are "image" and "heatmaps" stores the name, looks
    up "net_output" instead, obtains -1 where the binding index of "heatmaps"
    is 1, and indexes the buffer array with it. *)
Theorem lastBlobName_is_not_consulted :
  let m := Fixtures.fresh "heatmaps.plan" "heatmaps" in
  let after := NetRT.initializationOnThread m in
  mLastBlobName (this m) = "heatmaps" /\
  option_map TensorRT.bindings (context (this (final after))) =
    Some (TensorRT.bindings Fixtures.heatmaps_engine) /\
  TensorRT.getBindingIndex Fixtures.heatmaps_engine "heatmaps" = 1 /\
  outputBlobIndex (this (final after)) = -1 /\
  returns after = false /\
  match after with Undefined u _ => u = OutOfBounds (-1) | _ => False end.
Proof. vm_compute. repeat split; reflexivity. Qed.

(** C7 (the code departs from the claim).  The claim: when the plan file
    cannot be opened, initialization fails with the plan-read error.  The
    code: on a stream that failed to open, tellg yields -1, the buffer is
    requested with that size, and the std::vector constructor throws before
    the read and its check are reached; the exception that leaves
    initializationOnThread is not the one raised by op::error. *)
Theorem unopened_plan_fails_in_vector (m : Machine) :
  files (world m) !! mRTPlan (this m) = None ->
  NetRT.initializationOnThread m = Throw VectorLength m /\
  VectorLength <> OpError "Could not load tensorrt engine." 89.
Proof.
  intros Hf. split; [|discriminate].
  unfold NetRT.initializationOnThread, bind.
  now rewrite (loadPlan_unopened m Hf).
Qed.

Lemma unopened_plan_fails_in_vector_witness :
  files (world Fixtures.unlinked) !! mRTPlan (this Fixtures.unlinked) = None /\
  NetRT.initializationOnThread Fixtures.unlinked = Throw VectorLength Fixtures.unlinked /\
  VectorLength <> OpError "Could not load tensorrt engine." 89.
Proof.
  assert (files (world Fixtures.unlinked) !! mRTPlan (this Fixtures.unlinked) = None)
    as H by (vm_compute; reflexivity).
  split; [exact H | exact (unopened_plan_fails_in_vector Fixtures.unlinked H)].
Defined.

(** What the claim gets right: the intact plan is read in full, and a short
    read raises the plan-read error. *)
Lemma short_read_is_plan_read_error (m : Machine) (f : File) :
  files (world m) !! mRTPlan (this m) = Some f ->
  Z.of_nat (length (fdata f)) < fsize f <= vector_max_size ->
  NetRT.initializationOnThread m =
    Throw (OpError "Could not load tensorrt engine." 89) m.
Proof.
  intros Hf Hs. unfold NetRT.initializationOnThread, bind.
  now rewrite (loadPlan_short_read m f Hf Hs).
Qed.

(** ** Destruction *)

(** The constructor calls nothing on the device. *)
Lemma ctor_leaves_device (RTPlan : string) (gpuId : Z) (enable : bool)
    (lastBlobName : string) (g : Indeterminate) :
  preserves device (NetRT.NetRT_ctor RTPlan gpuId enable lastBlobName g).
Proof.
  intros [fs ds initialized n d].
  unfold NetRT.NetRT_ctor, NetRT.ImplNetRT_ctor, NetRT.existFile,
    bind, gets, when, error, throw, ret. simpl.
  destruct (bool_decide (is_Some (fs !! RTPlan))); simpl; [|reflexivity].
  destruct enable, initialized; reflexivity.
Qed.

Lemma cudaFree_calls (p : Z) (d : Cuda.Device) :
  Cuda.calls (Cuda.cudaFree p d) = Cuda.Free p :: Cuda.calls d.
Proof.
  unfold Cuda.cudaFree. destruct (p =? 0); [reflexivity|].
  destruct (Cuda.heap d !! p); reflexivity.
Qed.

Lemma in_range_true (i : Z) : 0 <= i < 2 -> (0 <=? i) && (i <? 2) = true.
Proof. intros H. apply andb_true_iff. split; [apply Z.leb_le | apply Z.ltb_lt]; lia. Qed.

Lemma in_range_false (i : Z) : ~ 0 <= i < 2 -> (0 <=? i) && (i <? 2) = false.
Proof.
  intros H. apply andb_false_iff.
  destruct (Z.leb_spec 0 i); [right; apply Z.ltb_ge; lia | now left].
Qed.

(** With both indices inside the array, the destructor calls cudaFree on the
    two slots, in that order, and nothing else on the device. *)
Lemma dtor_calls (m : Machine) (p q : Z) :
  0 <= inputBlobIndex (this m) < 2 -> 0 <= outputBlobIndex (this m) < 2 ->
  buffers (this m) !! Z.to_nat (inputBlobIndex (this m)) = Some p ->
  buffers (this m) !! Z.to_nat (outputBlobIndex (this m)) = Some q ->
  Cuda.calls (device (world (final (NetRT.NetRT_dtor m)))) =
    Cuda.Free q :: Cuda.Free p :: Cuda.calls (device (world m)).
Proof.
  intros Hi Ho Hp Hq.
  unfold NetRT.NetRT_dtor, NetRT.ImplNetRT_dtor, NetRT.cudaFree_slot,
    NetRT.read_slot, NetRT.NB_BINDINGS, NetRT.cudaCheck, bind, gets, on_device,
    error, throw, ret.
  rewrite (in_range_true _ Hi), Hp. simpl.
  rewrite (in_range_true _ Ho), Hq. simpl.
  destruct (Cuda.lastError _); simpl; now rewrite !cudaFree_calls.
Qed.

(** With an index outside the array, the destructor reads outside it. *)
Lemma dtor_out_of_bounds (m : Machine) :
  ~ 0 <= inputBlobIndex (this m) < 2 \/ ~ 0 <= outputBlobIndex (this m) < 2 ->
  length (buffers (this m)) = 2%nat ->
  (exists i, NetRT.NetRT_dtor m = Undefined (OutOfBounds i) (final (NetRT.NetRT_dtor m))) /\
  Cuda.count Cuda.is_malloc (device (world (final (NetRT.NetRT_dtor m)))) =
    Cuda.count Cuda.is_malloc (device (world m)).
Proof.
  intros Hout Hlen.
  unfold NetRT.NetRT_dtor, NetRT.ImplNetRT_dtor, NetRT.cudaFree_slot,
    NetRT.read_slot, NetRT.NB_BINDINGS, bind, gets, on_device.
  destruct (decide (0 <= inputBlobIndex (this m) < 2)) as [Hi|Hi].
  - destruct Hout as [?|Ho]; [contradiction|].
    rewrite (in_range_true _ Hi).
    destruct (lookup_lt_is_Some_2 (buffers (this m))
                (Z.to_nat (inputBlobIndex (this m)))) as [p Hp]; [lia|].
    rewrite Hp. simpl. rewrite (in_range_false _ Ho). simpl.
    split; [eexists; reflexivity|].
    unfold Cuda.count. now rewrite cudaFree_calls.
  - rewrite (in_range_false _ Hi). simpl. split; [eexists; reflexivity | reflexivity].
Qed.

(** C5 (the code departs from the claim).  The claim: destroying a NetRT
    whose initializationOnThread never ran releases only buffers that were
    allocated, allocation and free counts matching one to one.  The code:
    whatever values the uninitialised members hold, the destructor of a
    constructed, never initialised object has no allocation to match; it
    either indexes outside the buffer array, or calls cudaFree twice, on
    addresses that no cudaMalloc handed out. *)
Theorem destructor_frees_without_allocation (g : Indeterminate) :
  let m := Fixtures.fresh_with g "pose.plan" "net_output" in
  let after := NetRT.NetRT_dtor m in
  let d := device (world (final after)) in
  Cuda.count Cuda.is_malloc d = 0%nat /\
  ((exists i, after = Undefined (OutOfBounds i) (final after)) \/
   (Cuda.count Cuda.is_free d = 2%nat /\
    forall p, In (Cuda.Free p) (Cuda.calls d) ->
              Cuda.count (Cuda.allocates p) d = 0%nat)).
Proof.
  destruct g as [ge gc [b0 b1] gi go]. cbv zeta.
  set (m := Fixtures.fresh_with _ _ _).
  assert (buffers (this m) = [b0; b1] /\ inputBlobIndex (this m) = gi /\
          outputBlobIndex (this m) = go /\ Cuda.calls (device (world m)) = [])
    as (Hb & Hi & Ho & Hc) by (repeat split; reflexivity).
  destruct (decide (0 <= gi < 2)) as [Hgi|Hgi];
    [destruct (decide (0 <= go < 2)) as [Hgo|Hgo]|].
  - destruct (lookup_lt_is_Some_2 [b0; b1] (Z.to_nat gi)) as [p Hp]; [simpl; lia|].
    destruct (lookup_lt_is_Some_2 [b0; b1] (Z.to_nat go)) as [q Hq]; [simpl; lia|].
    rewrite <- Hb, <- Hi in Hp. rewrite <- Hb, <- Ho in Hq.
    rewrite <- Hi in Hgi. rewrite <- Ho in Hgo.
    pose proof (dtor_calls m p q Hgi Hgo Hp Hq) as Hcalls. rewrite Hc in Hcalls.
    unfold Cuda.count. rewrite Hcalls. simpl.
    split; [reflexivity | right; split; [reflexivity | auto]].
  - destruct (dtor_out_of_bounds m) as [Hub Hn].
    + right. now rewrite Ho.
    + now rewrite Hb.
    + split; [rewrite Hn; unfold Cuda.count; now rewrite Hc | now left].
  - destruct (dtor_out_of_bounds m) as [Hub Hn].
    + left. now rewrite Hi.
    + now rewrite Hb.
    + split; [rewrite Hn; unfold Cuda.count; now rewrite Hc | now left].
Qed.

(** The values of the running example: two stale addresses are handed to
    cudaFree, which rejects them. *)
Example destructor_on_stale_addresses :
  let after := NetRT.NetRT_dtor (Fixtures.fresh "pose.plan" "net_output") in
  Cuda.calls (device (world (final after))) = [Cuda.Free 57005; Cuda.Free 48879] /\
  Cuda.lastError (device (world (final after))) =
    Some Cuda.cudaErrorInvalidDevicePointer.
Proof. vm_compute. split; reflexivity. Qed.

(** The same after an initialization that failed at the binding count. *)
Example destructor_after_failed_initialization :
  let failed := NetRT.initializationOnThread (Fixtures.fresh "three.plan" "net_output") in
  let after := NetRT.NetRT_dtor (final failed) in
  returns failed = false /\
  Cuda.calls (device (world (final after))) = [Cuda.Free 57005; Cuda.Free 48879].
Proof. vm_compute. split; reflexivity. Qed.

(** ** The forward pass *)

Lemma securityChecks_empty (a : Array) (m : Machine) :
  empty a = true ->
  NetRT.securityChecks a m =
    Throw (OpError "The Array inputData cannot be empty." 123) m.
Proof. intros H. unfold NetRT.securityChecks, bind, when. now rewrite H. Qed.

Lemma securityChecks_shape (a : Array) (m : Machine) :
  empty a = false ->
  getNumberDimensions a <> 4 \/ getSizeAt a 1 <> 3 ->
  NetRT.securityChecks a m =
    Throw (OpError "The Array inputData must have 4 dimensions: [batch size, 3 (RGB), height, width]."
             126) m.
Proof.
  intros He Hs. unfold NetRT.securityChecks, bind, when. rewrite He. simpl.
  assert (negb (getNumberDimensions a =? 4) || negb (getSizeAt a 1 =? 3) = true) as ->.
  { apply orb_true_iff. destruct Hs as [H|H]; [left | right];
      apply negb_true_iff, Z.eqb_neq, H. }
  reflexivity.
Qed.

Lemma securityChecks_volume (a : Array) (m : Machine) :
  empty a = false -> getNumberDimensions a = 4 -> getSizeAt a 1 = 3 ->
  Int32.accumulate_mul (getSize a) 1 <> 230400 ->
  NetRT.securityChecks a m =
    Throw (OpError (NetRT.dimension_conflict
                      (Int32.accumulate_mul (getSize a) 1) (getSize a)) 134) m.
Proof.
  intros He Hd Hc Hv. unfold NetRT.securityChecks, bind, when.
  rewrite He, Hd, Hc. simpl.
  change (NetRT.int_product 1 NetRT.INPUT_IMAGE_NBR_CHANNELS
            NetRT.INPUT_IMAGE_WIDTH NetRT.INPUT_IMAGE_HEIGHT) with 230400.
  apply Z.eqb_neq in Hv. rewrite Hv. reflexivity.
Qed.

Lemma securityChecks_pass (a : Array) (m : Machine) :
  empty a = false -> getNumberDimensions a = 4 -> getSizeAt a 1 = 3 ->
  Int32.accumulate_mul (getSize a) 1 = 230400 ->
  NetRT.securityChecks a m = Ret tt m.
Proof.
  intros He Hd Hc Hv. unfold NetRT.securityChecks, bind, when.
  rewrite He, Hd, Hc. simpl.
  change (NetRT.int_product 1 NetRT.INPUT_IMAGE_NBR_CHANNELS
            NetRT.INPUT_IMAGE_WIDTH NetRT.INPUT_IMAGE_HEIGHT) with 230400.
  rewrite Hv. reflexivity.
Qed.

(** A failed check ends the forward pass where it started. *)
Lemma forwardPass_rejected (a : Array) (m : Machine) (e : exn) :
  NetRT.securityChecks a m = Throw e m -> NetRT.forwardPass a m = Throw e m.
Proof. intros H. unfold NetRT.forwardPass, bind at 1. now rewrite H. Qed.

(** As long as the product of the sizes fits [int], the accumulated
    product is the number of elements. *)
Lemma totalSize_exact (a : Array) :
  Array_wf a -> mSize a <> [] -> mVolume a <= Int32.max_int ->
  Int32.accumulate_mul (getSize a) 1 = mVolume a.
Proof.
  intros (Hpos & Hvol & _) Hne Hmax. unfold getSize.
  assert (elements (mSize a) = fold_right Z.mul 1 (mSize a)) as E
    by (destruct (mSize a); [contradiction | reflexivity]).
  assert (0 <= fold_right Z.mul 1 (mSize a)) as Hnonneg.
  { clear -Hpos. induction Hpos as [|x l [Hx _] _ IH]; simpl; lia. }
  rewrite Hvol, E in *. apply accumulate_mul_exact.
  unfold Int32.in_range, Int32.min_int. lia.
Qed.

(** What the claim C1 gets right: an array that is empty, or not
    four-dimensional with three channels, or whose element count fits [int]
    and differs from 1x3x320x240, is rejected by the first check it fails, and
    the object and the device are as before: no transfer, no execution. *)
Lemma forwardPass_rejects (a : Array) (m : Machine) :
  Array_wf a -> mVolume a <= Int32.max_int ->
  empty a = true \/ getNumberDimensions a <> 4 \/ getSizeAt a 1 <> 3 \/
  mVolume a <> 230400 ->
  exists msg line,
    NetRT.forwardPass a m = Throw (OpError msg line) m /\
    (empty a = true -> line = 123) /\
    (empty a = false -> getNumberDimensions a <> 4 \/ getSizeAt a 1 <> 3 ->
     line = 126) /\
    (empty a = false -> getNumberDimensions a = 4 -> getSizeAt a 1 = 3 ->
     line = 134).
Proof.
  intros Hwf Hmax Hbad.
  destruct (empty a) eqn:He.
  { do 2 eexists. split; [apply forwardPass_rejected, securityChecks_empty, He|].
    repeat split; congruence. }
  destruct (Z.eq_dec (getNumberDimensions a) 4) as [Hd|Hd].
  2: { do 2 eexists.
       split; [apply forwardPass_rejected, securityChecks_shape; auto|].
       repeat split; congruence. }
  destruct (Z.eq_dec (getSizeAt a 1) 3) as [Hc|Hc].
  2: { do 2 eexists.
       split; [apply forwardPass_rejected, securityChecks_shape; auto|].
       repeat split; congruence. }
  assert (mVolume a <> 230400) as Hv by (destruct Hbad as [?|[?|[?|?]]]; congruence).
  assert (mSize a <> []) as Hne.
  { intros E. unfold getNumberDimensions in Hd. rewrite E in Hd. discriminate. }
  do 2 eexists. split.
  - apply forwardPass_rejected, securityChecks_volume; auto.
    now rewrite (totalSize_exact a Hwf Hne Hmax).
  - repeat split; intros; try congruence. destruct H0; congruence.
Qed.

Lemma cudaMemcpyH2D_calls (dst : Z) (src : Z -> Z) (n : Z) (d : Cuda.Device) :
  Cuda.calls (Cuda.cudaMemcpyH2D dst src n d) = Cuda.MemcpyH2D dst n :: Cuda.calls d.
Proof. unfold Cuda.cudaMemcpyH2D. repeat case_match; reflexivity. Qed.

Lemma execute_calls (e : TensorRT.ICudaEngine) (batch : Z) (b : list Z)
    (d : Cuda.Device) :
  Cuda.calls (snd (TensorRT.execute e batch b d)) = Cuda.Execute batch :: Cuda.calls d.
Proof. unfold TensorRT.execute. repeat case_match; reflexivity. Qed.

(** The forward pass once the checks have passed, with the input slot
    resolved to [dst] and the context to [e]. *)
Lemma forwardPass_after_checks (a : Array) (m : Machine)
    (e : TensorRT.ICudaEngine) (dst : Z) :
  NetRT.securityChecks a m = Ret tt m ->
  context (this m) = Some e ->
  0 <= inputBlobIndex (this m) < 2 ->
  buffers (this m) !! Z.to_nat (inputBlobIndex (this m)) = Some dst ->
  let this' := if vectorsAreEqual (mNetInputSize4D (this m)) (getSize a)
               then this m else set_mNetInputSize4D (getSize a) (this m) in
  let d1 := Cuda.cudaMemcpyH2D dst (getConstPtr a)
              (SizeT.wrap (getVolume a * SizeT.sizeof_float)) (device (world m)) in
  let r := TensorRT.execute e 1 (buffers (this m)) d1 in
  NetRT.forwardPass a m =
    (if fst r then Ret tt else Throw (OpError "Inference execution failed" 149))
      {| world := with_device (snd r) (world m); this := this' |}.
Proof.
  intros Hc He Hr Hb. cbv zeta. unfold NetRT.forwardPass. unfold bind at 1. rewrite Hc.
  unfold NetRT.read_slot, NetRT.NB_BINDINGS.
  unfold bind, gets, when, set_this, modify, on_device, ret, error, throw.
  destruct (vectorsAreEqual (mNetInputSize4D (this m)) (getSize a)); simpl;
    rewrite (in_range_true _ Hr), Hb; simpl; rewrite He; simpl;
    match goal with
    | |- context [TensorRT.execute ?e ?n ?b ?d] =>
        destruct (TensorRT.execute e n b d) as [[|] d']
    end; reflexivity.
Qed.

Lemma forwardPass_executes_once (a : Array) (m : Machine)
    (e : TensorRT.ICudaEngine) (dst : Z) :
  NetRT.securityChecks a m = Ret tt m ->
  context (this m) = Some e ->
  0 <= inputBlobIndex (this m) < 2 ->
  buffers (this m) !! Z.to_nat (inputBlobIndex (this m)) = Some dst ->
  Cuda.calls (device (world (final (NetRT.forwardPass a m)))) =
    Cuda.Execute 1
    :: Cuda.MemcpyH2D dst (SizeT.wrap (getVolume a * SizeT.sizeof_float))
    :: Cuda.calls (device (world m)).
Proof.
  intros Hc He Hr Hb.
  rewrite (forwardPass_after_checks a m e dst Hc He Hr Hb).
  match goal with
  | |- context [TensorRT.execute ?e ?n ?b ?d] =>
      pose proof (execute_calls e n b d) as Hx;
      destruct (TensorRT.execute e n b d) as [[|] d']
  end; simpl in *; rewrite Hx, cudaMemcpyH2D_calls; reflexivity.
Qed.

(** C1 (the code departs from the claim).  The claim: every input whose total
    element count differs from 1x3x320x240 is rejected with a validation
    error before any transfer or execution.  The code: the count is
    accumulated in 32-bit [int]; for the four-dimensional, three-channel array
    of sizes 1 x 3 x 1024 x 4194379 (12885132288 elements) the accumulated
    product wraps to 230400, the checks pass, and the forward pass issues the
    host-to-device copy and the execution. *)
Theorem wrapped_volume_passes_checks :
  let a := Fixtures.huge in
  let after := NetRT.forwardPass a Fixtures.ready in
  let d := device (world (final after)) in
  getNumberDimensions a = 4 /\ getSizeAt a 1 = 3 /\
  getVolume a = 12885132288 /\ getVolume a <> 1 * 3 * 320 * 240 /\
  Int32.accumulate_mul (getSize a) 1 = 230400 /\
  returns (NetRT.securityChecks a Fixtures.ready) = true /\
  thrown after = None /\
  Cuda.count Cuda.is_memcpy d = 1%nat /\
  Cuda.count Cuda.is_execute d = 1%nat /\
  Cuda.calls d =
    Cuda.Execute 1 :: Cuda.MemcpyH2D 4096 51540529152
    :: Cuda.calls (device (world Fixtures.ready)).
Proof. vm_compute. repeat split; try reflexivity. discriminate. Qed.

Lemma huge_is_well_formed : Array_wf Fixtures.huge.
Proof.
  unfold Array_wf. split; [|split].
  - unfold Fixtures.huge, Fixtures.tensor, Int32.max_int. simpl.
    repeat constructor; lia.
  - reflexivity.
  - reflexivity.
Qed.

(** The arrays the claim has in mind behave as it says. *)
Example batch_of_two_is_rejected :
  thrown (NetRT.forwardPass Fixtures.batch_of_two Fixtures.ready) =
    Some (OpError
      "Dimension conflict [total size = 230400] vs total size = 460800[batch size = 2, channel (RGB) = 3, height = 320, width = 240]"
      134) /\
  device (world (final (NetRT.forwardPass Fixtures.batch_of_two Fixtures.ready)))
  = device (world Fixtures.ready).
Proof. split; reflexivity. Qed.

Example image_is_executed_once :
  returns (NetRT.forwardPass Fixtures.image Fixtures.ready) = true /\
  Cuda.count Cuda.is_execute
    (device (world (final (NetRT.forwardPass Fixtures.image Fixtures.ready))))
  = 1%nat.
Proof. vm_compute. split; reflexivity. Qed.

(** ** The message of the volume check *)

Lemma dimension_conflict_text (total b c h w : Z) :
  NetRT.dimension_conflict total [b; c; h; w] =
  "Dimension conflict [total size = 230400] vs total size = "
  ++ Int32.to_string total
  ++ "[batch size = " ++ Int32.to_string b
  ++ ", channel (RGB) = " ++ Int32.to_string c
  ++ ", height = " ++ Int32.to_string h
  ++ ", width = " ++ Int32.to_string w ++ "]".
Proof. reflexivity. Qed.

Lemma contains_skip (needle pre s : string) :
  contains needle s = true -> contains needle (pre ++ s) = true.
Proof.
  intros H. induction pre as [|x pre IH]; [exact H|].
  rewrite append_cons, contains_unfold, IH. apply orb_true_r.
Qed.

(** A needle made of a literal and a rendered number, found right after the
    separator [sep]. *)
Lemma contains_labelled (label value sep rest : string) :
  contains (label ++ value) (sep ++ label ++ value ++ rest) = true.
Proof.
  replace (sep ++ label ++ value ++ rest) with (sep ++ (label ++ value) ++ rest)
    by now rewrite (append_assoc label value rest).
  apply contains_middle.
Qed.

(** The claim C6 as stated fails on an empty four-dimensional, three-channel
    array: its element count (0) differs from 230400, yet the error it
    receives is the one of the emptiness check, which mentions neither the
    expected total nor the sizes. *)
Lemma empty_array_gets_other_message :
  let a := Fixtures.no_rows in
  Array_wf a /\ getNumberDimensions a = 4 /\ getSizeAt a 1 = 3 /\
  getVolume a <> 1 * 3 * 320 * 240 /\
  exists msg line,
    NetRT.forwardPass a Fixtures.ready = Throw (OpError msg line) Fixtures.ready /\
    contains "230400" msg = false /\
    contains "batch size" msg = false.
Proof.
  cbv zeta. split; [|split; [|split; [|split]]].
  - unfold Array_wf. split; [|split].
    + unfold Fixtures.no_rows, Fixtures.tensor, Int32.max_int. simpl.
      repeat constructor; lia.
    + reflexivity.
    + reflexivity.
  - reflexivity.
  - reflexivity.
  - vm_compute. discriminate.
  - exists "The Array inputData cannot be empty.", 123. split.
    + apply forwardPass_rejected, securityChecks_empty. reflexivity.
    + split; vm_compute; reflexivity.
Qed.

(** C6 (amended).  For every non-empty four-dimensional input with three
    channels whose element count fits [int] and differs from the fixed volume
    1x3x320x240, forwardPass fails with the dimension-conflict error, whose
    message includes the expected fixed total 230400, the actual total, and
    the actual batch, channel, height and width. *)
Theorem volume_mismatch_message (a : Array) (m : Machine) (b h w : Z) :
  Array_wf a -> mSize a = [b; 3; h; w] -> empty a = false ->
  mVolume a <= Int32.max_int -> mVolume a <> 230400 ->
  exists msg,
    NetRT.forwardPass a m = Throw (OpError msg 134) m /\
    contains "[total size = 230400]" msg = true /\
    contains ("total size = " ++ Int32.to_string (mVolume a)) msg = true /\
    contains ("batch size = " ++ Int32.to_string b) msg = true /\
    contains ("channel (RGB) = " ++ Int32.to_string 3) msg = true /\
    contains ("height = " ++ Int32.to_string h) msg = true /\
    contains ("width = " ++ Int32.to_string w) msg = true.
Proof.
  intros Hwf Hs He Hmax Hv.
  assert (mSize a <> []) as Hne by (rewrite Hs; discriminate).
  pose proof (totalSize_exact a Hwf Hne Hmax) as Ht.
  exists (NetRT.dimension_conflict (mVolume a) [b; 3; h; w]). split.
  - apply forwardPass_rejected.
    rewrite (securityChecks_volume a m He);
      [ now rewrite Ht; unfold getSize; rewrite Hs
      | unfold getNumberDimensions; now rewrite Hs
      | unfold getSizeAt; now rewrite Hs
      | now rewrite Ht ].
  - rewrite dimension_conflict_text.
    set (T := Int32.to_string (mVolume a)).
    set (B := Int32.to_string b). set (C := Int32.to_string 3).
    set (H := Int32.to_string h). set (W := Int32.to_string w).
    repeat apply conj.
    + apply (contains_middle "Dimension conflict " "[total size = 230400]").
    + apply (contains_labelled "total size = " T
               "Dimension conflict [total size = 230400] vs ").
    + apply (contains_skip _ "Dimension conflict [total size = 230400] vs total size = ").
      apply contains_skip.
      apply (contains_labelled "batch size = " B "[").
    + apply (contains_skip _ "Dimension conflict [total size = 230400] vs total size = ").
      apply contains_skip, (contains_skip _ "[batch size = "), contains_skip.
      apply (contains_labelled "channel (RGB) = " C ", ").
    + apply (contains_skip _ "Dimension conflict [total size = 230400] vs total size = ").
      apply contains_skip, (contains_skip _ "[batch size = "), contains_skip.
      apply (contains_skip _ ", channel (RGB) = "), contains_skip.
      apply (contains_labelled "height = " H ", ").
    + apply (contains_skip _ "Dimension conflict [total size = 230400] vs total size = ").
      apply contains_skip, (contains_skip _ "[batch size = "), contains_skip.
      apply (contains_skip _ ", channel (RGB) = "), contains_skip.
      apply (contains_skip _ ", height = "), contains_skip.
      apply (contains_labelled "width = " W ", ").
Qed.

Lemma batch_of_two_is_well_formed : Array_wf Fixtures.batch_of_two.
Proof.
  unfold Array_wf. split; [|split].
  - unfold Fixtures.batch_of_two, Fixtures.tensor, Int32.max_int. simpl.
    repeat constructor; lia.
  - reflexivity.
  - reflexivity.
Qed.

Lemma volume_mismatch_message_witness :
  exists msg,
    NetRT.forwardPass Fixtures.batch_of_two Fixtures.ready =
      Throw (OpError msg 134) Fixtures.ready /\
    contains "[total size = 230400]" msg = true /\
    contains ("total size = " ++ Int32.to_string (mVolume Fixtures.batch_of_two)) msg
      = true /\
    contains ("batch size = " ++ Int32.to_string 2) msg = true /\
    contains ("channel (RGB) = " ++ Int32.to_string 3) msg = true /\
    contains ("height = " ++ Int32.to_string 320) msg = true /\
    contains ("width = " ++ Int32.to_string 240) msg = true.
Proof.
  apply (volume_mismatch_message Fixtures.batch_of_two Fixtures.ready 2 320 240).
  - exact batch_of_two_is_well_formed.
  - reflexivity.
  - reflexivity.
  - vm_compute. discriminate.
  - vm_compute. discriminate.
Defined.

(** ** The output handle *)



(** The other operations propagate their failures the same way. *)
Example other_operations_throw :
  thrown (Fixtures.constructed "missing.plan" "net_output") =
    Some (OpError "TensorRT plan not found: missing.plan" 49) /\
  thrown (NetRT.initializationOnThread (Fixtures.fresh "three.plan" "net_output")) =
    Some (OpError "The engine should have 2 binding (One input and one output)" 100) /\
  thrown (NetRT.forwardPass Fixtures.no_rows Fixtures.ready) =
    Some (OpError "The Array inputData cannot be empty." 123).
Proof. vm_compute. repeat split; reflexivity. Qed.

(** ** The output handle after initialization *)

Lemma loadPlan_state (m : Machine) : final (NetRT.loadPlan m) = m.
Proof.
  unfold NetRT.loadPlan, bind, gets, when, throw, error, ret. simpl.
  destruct (vector_max_size <? SizeT.wrap _); simpl; [reflexivity|].
  destruct (failbit (snd _)); reflexivity.
Qed.

Lemma cudaMalloc_Some (size p : Z) (d d' : Cuda.Device) :
  Cuda.cudaMalloc size d = (Some p, d') ->
  p = Cuda.brk d /\
  Cuda.heap d' = <[p := {| Cuda.bytes := size; Cuda.cells := fun _ => 0 |}]> (Cuda.heap d) /\
  Cuda.brk d' = Cuda.brk d + size /\
  Cuda.lastError d' = Cuda.lastError d /\
  Cuda.calls d' = Cuda.Malloc p size :: Cuda.calls d.
Proof.
  unfold Cuda.cudaMalloc. destruct (size <=? Cuda.available d); [|discriminate].
  intros [= <- <-]. simpl. auto.
Qed.

Lemma cudaMalloc_None (size : Z) (d d' : Cuda.Device) :
  Cuda.cudaMalloc size d = (None, d') -> Cuda.lastError d' <> None.
Proof.
  unfold Cuda.cudaMalloc. destruct (size <=? Cuda.available d); [discriminate|].
  intros [= <-]. discriminate.
Qed.

Lemma cudaMalloc_keeps_error (size : Z) (d : Cuda.Device) :
  Cuda.lastError d <> None -> Cuda.lastError (snd (Cuda.cudaMalloc size d)) <> None.
Proof.
  unfold Cuda.cudaMalloc. destruct (size <=? Cuda.available d); simpl; [auto | discriminate].
Qed.

Lemma redirect_then_check (s m' : Machine) :
  (NetRT.redirectToBlob ;; NetRT.cudaCheck 116) s = Ret tt m' ->
  Cuda.lastError (device (world s)) = None /\
  0 <= outputBlobIndex (this s) < 2 /\
  exists p,
    buffers (this s) !! Z.to_nat (outputBlobIndex (this s)) = Some p /\
    m' = {| world := world s;
            this := set_spOutputBlob (Some (output_handle p)) (this s) |}.
Proof.
  unfold NetRT.redirectToBlob, NetRT.read_slot, NetRT.NB_BINDINGS, NetRT.cudaCheck.
  unfold bind, gets, set_this, modify, ret, error, throw, undefined. simpl.
  destruct ((0 <=? outputBlobIndex (this s)) && (outputBlobIndex (this s) <? 2))
    eqn:Ho; [|discriminate].
  apply andb_true_iff in Ho as [Ho1%Z.leb_le Ho2%Z.ltb_lt].
  destruct (buffers (this s) !! Z.to_nat (outputBlobIndex (this s))) as [p|] eqn:Hp;
    [|discriminate].
  simpl. destruct (Cuda.lastError (device (world s))) eqn:He; [discriminate|].
  intros [= <-]. repeat split; try lia. exists p. split; reflexivity.
Qed.

Lemma bind_Ret_inv {S A B} (c : M S A) (k : A -> M S B) (s s' : S) (b : B) :
  bind c k s = Ret b s' -> exists a s1, c s = Ret a s1 /\ k a s1 = Ret b s'.
Proof.
  unfold bind. destruct (c s) as [a s1| |]; try discriminate.
  intros H. now exists a, s1.
Qed.

Lemma createEngine_Ret_inv (bytes : list Byte.byte) (m m1 : Machine) :
  NetRT.createEngine bytes m = Ret tt m1 ->
  exists e, deserializer (world m) bytes = Some e /\ m1 = with_engine e m.
Proof.
  unfold NetRT.createEngine, bind, gets, set_this, modify. simpl.
  destruct (deserializer (world m) bytes) as [e|]; [|discriminate].
  intros [= <-]. now exists e.
Qed.

Lemma checkBindings_Ret_inv (e : TensorRT.ICudaEngine) (m m1 : Machine) :
  NetRT.checkBindings e m = Ret tt m1 -> TensorRT.getNbBindings e = 2 /\ m1 = m.
Proof.
  unfold NetRT.checkBindings, when, NetRT.NB_BINDINGS.
  destruct (TensorRT.getNbBindings e =? 2) eqn:Hn; [|discriminate].
  intros [= <-]. split; [now apply Z.eqb_eq | reflexivity].
Qed.

Lemma cudaMalloc_slot_Ret_inv (index size : Z) (m m1 : Machine) :
  NetRT.cudaMalloc_slot index size m = Ret tt m1 ->
  0 <= index < 2 /\
  m1 = {| world := with_device (snd (Cuda.cudaMalloc size (device (world m)))) (world m);
          this := match fst (Cuda.cudaMalloc size (device (world m))) with
                  | Some addr =>
                      set_buffers (<[Z.to_nat index := addr]> (buffers (this m))) (this m)
                  | None => this m
                  end |}.
Proof.
  unfold NetRT.cudaMalloc_slot, NetRT.NB_BINDINGS.
  destruct ((0 <=? index) && (index <? 2)) eqn:Hi; [|discriminate].
  apply andb_true_iff in Hi as [Hi1%Z.leb_le Hi2%Z.ltb_lt].
  unfold bind, on_device, set_this, modify, ret.
  destruct (Cuda.cudaMalloc size (device (world m))) as [[addr|] d]; simpl;
    intros [= <-]; (split; [lia | reflexivity]).
Qed.

Lemma initialization_Ret_inv (m m' : Machine) :
  NetRT.initializationOnThread m = Ret tt m' ->
  exists e pin pout d1 d2,
    let i := TensorRT.getBindingIndex e NetRT.INPUT_BLOB_NAME in
    let o := TensorRT.getBindingIndex e NetRT.OUTPUT_BLOB_NAME in
    TensorRT.getNbBindings e = 2 /\
    0 <= i < 2 /\ 0 <= o < 2 /\
    Cuda.cudaMalloc NetRT.input_bytes (device (world m)) = (Some pin, d1) /\
    Cuda.cudaMalloc NetRT.output_bytes d1 = (Some pout, d2) /\
    Cuda.lastError d2 = None /\
    <[Z.to_nat o := pout]> (<[Z.to_nat i := pin]> (buffers (this m))) !! Z.to_nat o
      = Some pout /\
    m' = {| world := with_device d2 (world m);
            this := set_spOutputBlob (Some (output_handle pout))
                      (set_buffers
                         (<[Z.to_nat o := pout]> (<[Z.to_nat i := pin]> (buffers (this m))))
                         (set_outputBlobIndex o
                            (set_inputBlobIndex i (this (with_engine e m))))) |}.
Proof.
  intros H. unfold NetRT.initializationOnThread in H.
  apply bind_Ret_inv in H as (bytes & m1 & Hload & H).
  pose proof (loadPlan_state m) as Hl. rewrite Hload in Hl. simpl in Hl. subst m1.
  apply bind_Ret_inv in H as ([] & m2 & Hcreate & H).
  apply createEngine_Ret_inv in Hcreate as (e & Hd & ->).
  apply bind_Ret_inv in H as (ctx & m3 & Hctx & H).
  injection Hctx as <- <-. simpl in H.
  apply bind_Ret_inv in H as ([] & m4 & Hcheck & H).
  apply checkBindings_Ret_inv in Hcheck as (Hn & ->).
  apply bind_Ret_inv in H as ([] & m5 & Hbind & H).
  injection Hbind as <-.
  set (i := TensorRT.getBindingIndex e NetRT.INPUT_BLOB_NAME) in *.
  set (o := TensorRT.getBindingIndex e NetRT.OUTPUT_BLOB_NAME) in *.
  apply bind_Ret_inv in H as ([] & m6 & Halloc & H).
  unfold NetRT.allocateBuffers in Halloc.
  apply bind_Ret_inv in Halloc as (i' & m7 & Hi' & Halloc).
  injection Hi' as <- <-. simpl in Halloc.
  apply bind_Ret_inv in Halloc as ([] & m8 & Hm1 & Halloc).
  apply cudaMalloc_slot_Ret_inv in Hm1 as (Hi & ->).
  apply bind_Ret_inv in Halloc as (o' & m9 & Ho' & Halloc).
  injection Ho' as <- <-.
  apply cudaMalloc_slot_Ret_inv in Halloc as (Ho & ->).
  apply redirect_then_check in H as (Herr & _ & p & Hp & ->).
  clear Hload Hd. cbn [world this device with_device] in Herr, Hp |- *.
  destruct (Cuda.cudaMalloc NetRT.input_bytes (device (world m))) as [[pin|] d1] eqn:M1.
  - destruct (Cuda.cudaMalloc NetRT.output_bytes d1) as [[pout|] d2] eqn:M2.
    + cbn [fst snd] in Herr, Hp |- *. rewrite M2 in *. cbn [fst snd] in Herr, Hp |- *.
      cbn in Hp.
      assert (p = pout) as ->.
      { pose proof (lookup_lt_Some _ _ _ Hp) as Hlt. rewrite length_insert in Hlt.
        rewrite list_lookup_insert_eq in Hp by exact Hlt. congruence. }
      simpl in Ho.
      exists e, pin, pout, d1, d2. cbv zeta. fold i o.
      repeat apply conj;
        [exact Hn | lia | lia | lia | lia | reflexivity | exact M2 | exact Herr
        | exact Hp | reflexivity].
    + exfalso. cbn [fst snd] in Herr. rewrite M2 in Herr.
      now apply (cudaMalloc_None _ _ _ M2).
  - exfalso. cbn [fst snd] in Herr.
    apply (cudaMalloc_keeps_error NetRT.output_bytes d1); [|exact Herr].
    now apply (cudaMalloc_None _ _ _ M1).
Qed.

Lemma slot_of_spec (input : bool) (l : list TensorRT.Binding) (k n : nat) :
  TensorRT.slot_of input l k = Some n ->
  (k <= n)%nat /\
  exists b, l !! (n - k)%nat = Some b /\ TensorRT.bindingIsInput b = input.
Proof.
  revert k. induction l as [|b l IH]; intros k; simpl; [discriminate|].
  destruct (Bool.eqb (TensorRT.bindingIsInput b) input) eqn:Hb.
  - intros [= <-]. split; [lia|]. exists b. rewrite Nat.sub_diag.
    split; [reflexivity | now apply Bool.eqb_prop].
  - intros H. apply IH in H as (Hle & b' & Hl & Hi). split; [lia|].
    exists b'. split; [|exact Hi].
    replace (n - k)%nat with (S (n - S k)) by lia. exact Hl.
Qed.

Lemma input_and_output_slots_differ (l : list TensorRT.Binding) (i o : nat) :
  TensorRT.slot_of true l 0 = Some i -> TensorRT.slot_of false l 0 = Some o -> i <> o.
Proof.
  intros Hi Ho ->.
  apply slot_of_spec in Hi as (_ & b & Hb & Hin).
  apply slot_of_spec in Ho as (_ & b' & Hb' & Hout). congruence.
Qed.

Lemma input_bytes_value : NetRT.input_bytes = 921600.
Proof. reflexivity. Qed.

Lemma output_bytes_value : NetRT.output_bytes = 273600.
Proof. reflexivity. Qed.

(** What a successful initialization leaves behind. *)
Lemma initialization_Ready (m m' : Machine) (e : TensorRT.ICudaEngine) :
  NetRT.initializationOnThread m = Ret tt m' ->
  context (this m') = Some e -> bound_by_name e ->
  length (buffers (this m)) = 2%nat ->
  exists pin pout,
    Ready e pin pout m' /\
    Cuda.calls (device (world m')) =
      Cuda.Malloc pout NetRT.output_bytes :: Cuda.Malloc pin NetRT.input_bytes
      :: Cuda.calls (device (world m)).
Proof.
  intros H Hctx [Bin Bout] Hlen.
  apply initialization_Ret_inv in H
    as (e0 & pin & pout & d1 & d2 & Hn & Hi & Ho & M1 & M2 & Herr & Hp & ->).
  simpl in Hctx. injection Hctx as ->.
  set (i := TensorRT.getBindingIndex e NetRT.INPUT_BLOB_NAME) in *.
  set (o := TensorRT.getBindingIndex e NetRT.OUTPUT_BLOB_NAME) in *.
  pose proof (input_and_output_slots_differ _ _ _ Bin Bout) as Hio.
  apply cudaMalloc_Some in M1 as (Hpin & Hh1 & Hb1 & He1 & Hc1).
  apply cudaMalloc_Some in M2 as (Hpout & Hh2 & Hb2 & He2 & Hc2).
  exists pin, pout. split.
  - constructor; simpl.
    + reflexivity.
    + exact Hi.
    + exact Bin.
    + exact Bout.
    + rewrite list_lookup_insert_ne by auto.
      apply list_lookup_insert_eq. lia.
    + exact Hp.
    + rewrite Hpout, Hb1, Hpin, input_bytes_value. lia.
    + eexists. rewrite Hh2, lookup_insert_ne, Hh1, lookup_insert_eq;
        [split; reflexivity|].
      rewrite Hpout, Hb1, Hpin, input_bytes_value. lia.
    + eexists. rewrite Hh2, lookup_insert_eq. split; reflexivity.
    + reflexivity.
  - simpl. now rewrite Hc2, Hc1.
Qed.

Lemma securityChecks_state (a : Array) (m : Machine) :
  final (NetRT.securityChecks a m) = m.
Proof.
  unfold NetRT.securityChecks, bind, when, error, throw, ret.
  destruct (empty a); simpl; [reflexivity|].
  destruct (negb (getNumberDimensions a =? 4) || negb (getSizeAt a 1 =? 3));
    simpl; [reflexivity|].
  destruct (negb (Int32.accumulate_mul (getSize a) 1 =? _)); reflexivity.
Qed.

Lemma forwardPass_Ret_checks (a : Array) (m m' : Machine) :
  NetRT.forwardPass a m = Ret tt m' -> NetRT.securityChecks a m = Ret tt m.
Proof.
  intros H. unfold NetRT.forwardPass in H. unfold bind at 1 in H.
  pose proof (securityChecks_state a m) as Hs.
  destruct (NetRT.securityChecks a m) as [[] s| |]; try discriminate H.
  simpl in Hs. now subst s.
Qed.

(** The copy reaches the destination buffer when it fits, and touches no
    other allocation. *)
Lemma cudaMemcpyH2D_heap (dst : Z) (src : Z -> Z) (n : Z) (d : Cuda.Device)
    (b : Cuda.Buffer) :
  Cuda.heap d !! dst = Some b ->
  exists b',
    Cuda.heap (Cuda.cudaMemcpyH2D dst src n d) !! dst = Some b' /\
    Cuda.bytes b' = Cuda.bytes b /\
    (n <= Cuda.bytes b ->
     Cuda.cells b' = Cuda.copy_cells (n / SizeT.sizeof_float) src (Cuda.cells b)) /\
    forall q, q <> dst ->
      Cuda.heap (Cuda.cudaMemcpyH2D dst src n d) !! q = Cuda.heap d !! q.
Proof.
  intros Hb. unfold Cuda.cudaMemcpyH2D. rewrite Hb.
  destruct (n <=? Cuda.bytes b) eqn:Hn; simpl.
  - eexists. rewrite lookup_insert_eq. repeat apply conj; try reflexivity.
    intros q Hq. now rewrite lookup_insert_ne.
  - apply Z.leb_gt in Hn. exists b. repeat apply conj; auto. lia.
Qed.

Lemma execute_bound (e : TensorRT.ICudaEngine) (batch : Z) (bufs : list Z)
    (d : Cuda.Device) (i o : nat) (pin pout : Z) (bin bout : Cuda.Buffer) :
  TensorRT.slot_of true (TensorRT.bindings e) 0 = Some i ->
  TensorRT.slot_of false (TensorRT.bindings e) 0 = Some o ->
  bufs !! i = Some pin -> bufs !! o = Some pout ->
  Cuda.heap d !! pin = Some bin -> Cuda.heap d !! pout = Some bout ->
  fst (TensorRT.execute e batch bufs d) = true /\
  Cuda.heap (snd (TensorRT.execute e batch bufs d)) =
    <[pout := {| Cuda.bytes := Cuda.bytes bout;
                 Cuda.cells := TensorRT.network e (Cuda.cells bin) |}]> (Cuda.heap d).
Proof.
  intros Hi Ho Hpi Hpo Hbi Hbo. unfold TensorRT.execute.
  rewrite Hi, Ho, Hpi, Hpo, Hbi, Hbo. split; reflexivity.
Qed.

(** A forward pass that returns leaves the object initialised, on the same
    two buffers, and the output buffer holds what the engine computes from
    the input buffer. *)
Lemma forwardPass_Ready (e : TensorRT.ICudaEngine) (pin pout : Z)
    (a : Array) (m m' : Machine) :
  Ready e pin pout m -> NetRT.forwardPass a m = Ret tt m' ->
  Ready e pin pout m' /\
  Cuda.count Cuda.is_malloc (device (world m')) =
    Cuda.count Cuda.is_malloc (device (world m)) /\
  exists bin bout,
    Cuda.heap (device (world m')) !! pin = Some bin /\
    Cuda.heap (device (world m')) !! pout = Some bout /\
    Cuda.cells bout = TensorRT.network e (Cuda.cells bin) /\
    (getVolume a = 230400 ->
     forall k, 0 <= k < 230400 -> Cuda.cells bin k = getConstPtr a k).
Proof.
  intros R H. pose proof (forwardPass_Ret_checks a m m' H) as Hc.
  destruct R as [Rc Ri Ris Ros Rin Rout Rd (bin0 & Hbin0 & Hsz0) (bout0 & Hbout0 & Hszo) Rh].
  rewrite (forwardPass_after_checks a m e pin Hc Rc Ri Rin) in H.
  set (n := SizeT.wrap (getVolume a * SizeT.sizeof_float)) in *.
  set (d1 := Cuda.cudaMemcpyH2D pin (getConstPtr a) n (device (world m))) in *.
  destruct (cudaMemcpyH2D_heap pin (getConstPtr a) n (device (world m)) bin0 Hbin0)
    as (bin & Hbin & Hsz & Hcells & Hother).
  fold d1 in Hbin, Hother.
  assert (Cuda.heap d1 !! pout = Some bout0) as Hbout
    by (rewrite Hother; auto).
  destruct (execute_bound e 1 (buffers (this m)) d1 _ _ pin pout bin bout0
              Ris Ros Rin Rout Hbin Hbout) as [Hok Hheap].
  rewrite Hok in H. injection H as <-.
  split; [|split].
  - constructor; simpl; try (destruct (vectorsAreEqual _ _); simpl; assumption).
    + exact Rd.
    + exists bin. rewrite Hheap, lookup_insert_ne by auto. split; [exact Hbin | congruence].
    + eexists. rewrite Hheap, lookup_insert_eq. split; [reflexivity | exact Hszo].
  - simpl. unfold Cuda.count. rewrite execute_calls. simpl.
    unfold d1. rewrite cudaMemcpyH2D_calls. reflexivity.
  - exists bin. eexists. simpl. rewrite Hheap.
    rewrite lookup_insert_ne by auto. rewrite lookup_insert_eq.
    repeat apply conj; try reflexivity; [exact Hbin|].
    intros Hv k Hk. rewrite Hcells.
    + unfold n. rewrite Hv. unfold Cuda.copy_cells.
      change (SizeT.wrap (230400 * SizeT.sizeof_float) / SizeT.sizeof_float) with 230400.
      destruct (Z.leb_spec 0 k); [|lia]. destruct (Z.ltb_spec k 230400); [|lia].
      reflexivity.
    + unfold n. rewrite Hv, Hsz0. vm_compute. discriminate.
Qed.

Lemma forwardPasses_Ready (e : TensorRT.ICudaEngine) (pin pout : Z)
    (inputs : list Array) (m m' : Machine) :
  Ready e pin pout m -> forwardPasses inputs m = Ret tt m' -> Ready e pin pout m'.
Proof.
  revert m. induction inputs as [|a inputs IH]; intros m R H; simpl in H.
  - now injection H as <-.
  - apply bind_Ret_inv in H as ([] & m1 & H1 & H).
    apply (IH m1); [|exact H]. now apply (forwardPass_Ready e pin pout a m m1).
Qed.

Lemma forwardPasses_app (l1 l2 : list Array) (m : Machine) :
  forwardPasses (l1 ++ l2) m = (forwardPasses l1 ;; forwardPasses l2) m.
Proof.
  revert m. induction l1 as [|a l1 IH]; intros m; simpl; [reflexivity|].
  unfold bind in *. destruct (NetRT.forwardPass a m) as [[] s| |]; try reflexivity.
  apply IH.
Qed.

Lemma getOutputBlob_stored (m : Machine) (b : Blob) :
  spOutputBlob (this m) = Some b -> NetRT.getOutputBlob true m = Ret (Some b) m.
Proof.
  intros H. unfold NetRT.getOutputBlob, NetRT.getOutputBlob_try, try_catch, gets.
  now rewrite H.
Qed.

(** C8.  After a successful initialization of an object built by the
    constructor, on an engine whose output binding is the one named
    "net_output" (and whose input binding is the one named "image"), the
    handle returned by getOutputBlob has shape [1, 57, 40, 30] and its device
    memory is the address handed out by the cudaMalloc call for the output
    buffer, which is live, has the size of 57x40x30 floats and sits in the
    output slot; no copy is involved.  After any further sequence of forward
    passes that return, getOutputBlob returns the same handle, no allocation
    was added, and the memory behind the handle holds what the engine computed
    from the input buffer in the last pass. *)
Theorem output_handle_is_output_buffer (m m' : Machine) (e : TensorRT.ICudaEngine) :
  NetRT.initializationOnThread m = Ret tt m' ->
  context (this m') = Some e -> bound_by_name e ->
  length (buffers (this m)) = 2%nat ->
  exists pin pout,
    Cuda.calls (device (world m')) =
      Cuda.Malloc pout NetRT.output_bytes :: Cuda.Malloc pin NetRT.input_bytes
      :: Cuda.calls (device (world m)) /\
    NetRT.output_bytes = 57 * 40 * 30 * 4 /\
    NetRT.getOutputBlob true m' =
      Ret (Some {| shape := [1; 57; 40; 30]; gpu_data := Some pout |}) m' /\
    buffers (this m') !! Z.to_nat (outputBlobIndex (this m')) = Some pout /\
    (exists b, Cuda.heap (device (world m')) !! pout = Some b /\
               Cuda.bytes b = NetRT.output_bytes) /\
    forall (inputs : list Array) (a : Array) (m'' : Machine),
      forwardPasses (inputs ++ [a]) m' = Ret tt m'' ->
      NetRT.getOutputBlob true m'' =
        Ret (Some {| shape := [1; 57; 40; 30]; gpu_data := Some pout |}) m'' /\
      Cuda.count Cuda.is_malloc (device (world m'')) =
        Cuda.count Cuda.is_malloc (device (world m')) /\
      exists bin bout,
        Cuda.heap (device (world m'')) !! pin = Some bin /\
        Cuda.heap (device (world m'')) !! pout = Some bout /\
        Cuda.cells bout = TensorRT.network e (Cuda.cells bin) /\
        (getVolume a = 230400 ->
         forall k, 0 <= k < 230400 -> Cuda.cells bin k = getConstPtr a k).
Proof.
  intros Hinit Hctx Hbound Hlen.
  destruct (initialization_Ready m m' e Hinit Hctx Hbound Hlen)
    as (pin & pout & R & Hcalls).
  exists pin, pout. repeat apply conj.
  - exact Hcalls.
  - reflexivity.
  - apply getOutputBlob_stored, (ready_handle _ _ _ _ R).
  - exact (ready_output _ _ _ _ R).
  - exact (ready_output_live _ _ _ _ R).
  - intros inputs a m'' H. rewrite forwardPasses_app in H.
    apply bind_Ret_inv in H as ([] & m1 & H1 & H). simpl in H.
    apply bind_Ret_inv in H as ([] & m2 & H2 & H). injection H as <-.
    pose proof (forwardPasses_Ready e pin pout inputs m' m1 R H1) as R1.
    destruct (forwardPass_Ready e pin pout a m1 m2 R1 H2) as (R2 & Hn & Hcells).
    repeat apply conj.
    + apply getOutputBlob_stored, (ready_handle _ _ _ _ R2).
    + rewrite Hn. clear -R H1. revert m' R H1.
      induction inputs as [|x inputs IH]; intros m' R H1; simpl in H1.
      * now injection H1 as <-.
      * apply bind_Ret_inv in H1 as ([] & mx & Hx & H1).
        destruct (forwardPass_Ready e pin pout x m' mx R Hx) as (Rx & Hnx & _).
        rewrite (IH mx Rx H1). exact Hnx.
    + exact Hcells.
Qed.

Lemma returns_final {S} (o : outcome S unit) :
  returns o = true -> o = Ret tt (final o).
Proof. destruct o as [[] s| |]; simpl; [reflexivity | discriminate | discriminate]. Qed.

Lemma pose_engine_bound_by_name : bound_by_name Fixtures.pose_engine.
Proof. split; reflexivity. Qed.

Lemma output_handle_is_output_buffer_witness :
  exists pin pout,
    Cuda.calls (device (world Fixtures.ready)) =
      Cuda.Malloc pout NetRT.output_bytes :: Cuda.Malloc pin NetRT.input_bytes
      :: Cuda.calls (device (world (Fixtures.fresh "pose.plan" "net_output"))) /\
    NetRT.output_bytes = 57 * 40 * 30 * 4 /\
    NetRT.getOutputBlob true Fixtures.ready =
      Ret (Some {| shape := [1; 57; 40; 30]; gpu_data := Some pout |}) Fixtures.ready /\
    buffers (this Fixtures.ready) !! Z.to_nat (outputBlobIndex (this Fixtures.ready))
      = Some pout /\
    (exists b, Cuda.heap (device (world Fixtures.ready)) !! pout = Some b /\
               Cuda.bytes b = NetRT.output_bytes) /\
    forall (inputs : list Array) (a : Array) (m'' : Machine),
      forwardPasses (inputs ++ [a]) Fixtures.ready = Ret tt m'' ->
      NetRT.getOutputBlob true m'' =
        Ret (Some {| shape := [1; 57; 40; 30]; gpu_data := Some pout |}) m'' /\
      Cuda.count Cuda.is_malloc (device (world m'')) =
        Cuda.count Cuda.is_malloc (device (world Fixtures.ready)) /\
      exists bin bout,
        Cuda.heap (device (world m'')) !! pin = Some bin /\
        Cuda.heap (device (world m'')) !! pout = Some bout /\
        Cuda.cells bout = TensorRT.network Fixtures.pose_engine (Cuda.cells bin) /\
        (getVolume a = 230400 ->
         forall k, 0 <= k < 230400 -> Cuda.cells bin k = getConstPtr a k).
Proof.
  apply (output_handle_is_output_buffer
           (Fixtures.fresh "pose.plan" "net_output") Fixtures.ready Fixtures.pose_engine).
  - unfold Fixtures.ready.
    refine (returns_final (NetRT.initializationOnThread
                             (Fixtures.fresh "pose.plan" "net_output")) _).
    vm_compute. reflexivity.
  - vm_compute. reflexivity.
  - exact pose_engine_bound_by_name.
  - vm_compute. reflexivity.
Defined.

(** ** Instances of the initialization theorems *)

Lemma binding_count_mismatch_no_allocation_witness :
  exists m',
    NetRT.initializationOnThread (Fixtures.fresh "three.plan" "net_output") =
      Throw (OpError "The engine should have 2 binding (One input and one output)" 100)
        m' /\
    device (world m') = device (world (Fixtures.fresh "three.plan" "net_output")) /\
    buffers (this m') = buffers (this (Fixtures.fresh "three.plan" "net_output")) /\
    Cuda.count Cuda.is_malloc (device (world m')) =
      Cuda.count Cuda.is_malloc
        (device (world (Fixtures.fresh "three.plan" "net_output"))).
Proof.
  apply (binding_count_mismatch_no_allocation
           (Fixtures.fresh "three.plan" "net_output")
           {| fsize := 1; fdata := [Byte.x33] |} Fixtures.three_engine).
  - vm_compute. reflexivity.
  - split; [reflexivity | vm_compute; discriminate].
  - reflexivity.
  - vm_compute. discriminate.
Defined.

Lemma unresolved_name_indexes_buffers_witness :
  exists m',
    NetRT.initializationOnThread (Fixtures.fresh "data.plan" "net_output") =
      Undefined (OutOfBounds (-1)) m' /\
    inputBlobIndex (this m') =
      TensorRT.getBindingIndex Fixtures.data_engine NetRT.INPUT_BLOB_NAME /\
    outputBlobIndex (this m') =
      TensorRT.getBindingIndex Fixtures.data_engine NetRT.OUTPUT_BLOB_NAME /\
    (inputBlobIndex (this m') = -1 \/ outputBlobIndex (this m') = -1).
Proof.
  apply (unresolved_name_indexes_buffers
           (Fixtures.fresh "data.plan" "net_output")
           {| fsize := 1; fdata := [Byte.x44] |} Fixtures.data_engine).
  - vm_compute. reflexivity.
  - split; [reflexivity | vm_compute; discriminate].
  - reflexivity.
  - reflexivity.
  - left. reflexivity.
Defined.

(** * Further properties *)

(** ** The diagnostics sink *)

Lemma append_inj_l (p a b : string) : p ++ a = p ++ b -> a = b.
Proof.
  induction p as [|c p IH]; [trivial|].
  rewrite !append_cons. intros [= H]. now apply IH.
Qed.

Lemma append_length (a b : string) :
  String.length (a ++ b) = (String.length a + String.length b)%nat.
Proof.
  induction a as [|c a IH]; [reflexivity|].
  rewrite append_cons. simpl. now rewrite IH.
Qed.

Lemma append_inj_r (a b s : string) : a ++ s = b ++ s -> a = b.
Proof.
  revert b. induction a as [|c a IH]; intros [|d b] H.
  - reflexivity.
  - exfalso. apply (f_equal String.length) in H.
    rewrite append_nil, append_cons in H. simpl in H.
    rewrite append_length in H. lia.
  - exfalso. apply (f_equal String.length) in H.
    rewrite append_nil, append_cons in H. simpl in H.
    rewrite append_length in H. lia.
  - rewrite !append_cons in H. injection H as -> H. f_equal. now apply IH.
Qed.

(** What one call writes. *)
Lemma log_writes (severity : RTLogger.Severity) (msg cerr : string) :
  exists label,
    RTLogger.log severity msg cerr =
      Ret tt (cerr ++ label ++ msg ++ RTLogger.newline) /\
    label = match severity with
            | RTLogger.kINTERNAL_ERROR => "INTERNAL_ERROR: "
            | RTLogger.kERROR => "ERROR: "
            | RTLogger.kWARNING => "WARNING: "
            | RTLogger.kINFO => "INFO: "
            | RTLogger.kOTHER _ => "UNKNOWN: "
            end.
Proof.
  eexists. split; [|reflexivity].
  unfold RTLogger.log, RTLogger.put, bind, modify.
  destruct severity; simpl; now rewrite !append_assoc.
Qed.

(** X1.  On the same content of the stream, a line of the log determines
    what was logged: two calls that start from the same content of the
    diagnostic stream and leave it in the same state had the same message,
    and the same severity unless both severities are outside the four named
    ones (those share the label "UNKNOWN: "). *)
Theorem log_line_determines_entry
    (s1 s2 : RTLogger.Severity) (msg1 msg2 cerr : string) :
  RTLogger.log s1 msg1 cerr = RTLogger.log s2 msg2 cerr ->
  msg1 = msg2 /\
  (s1 = s2 \/ exists v1 v2, s1 = RTLogger.kOTHER v1 /\ s2 = RTLogger.kOTHER v2).
Proof.
  destruct (log_writes s1 msg1 cerr) as (l1 & -> & H1).
  destruct (log_writes s2 msg2 cerr) as (l2 & -> & H2).
  intros [= H]. apply append_inj_l in H. subst l1 l2.
  destruct s1, s2; vm_compute in H; try discriminate H;
    (split; [| first [left; reflexivity | right; eauto]]);
    repeat (injection H as H); now apply (append_inj_r _ _ RTLogger.newline).
Qed.

Lemma log_line_determines_entry_witness :
  "disk full" = "disk full" /\
  (RTLogger.kOTHER 4 = RTLogger.kOTHER 7 \/
   exists v1 v2, RTLogger.kOTHER 4 = RTLogger.kOTHER v1 /\
                 RTLogger.kOTHER 7 = RTLogger.kOTHER v2).
Proof.
  apply (log_line_determines_entry (RTLogger.kOTHER 4) (RTLogger.kOTHER 7)
           "disk full" "disk full" "INFO: start").
  reflexivity.
Defined.

(** The common starting content matters: a message may itself hold a line
    break and a label, so from different contents two different entries can
    leave the stream in the same state. *)
Remark log_lines_from_different_contents :
  RTLogger.log RTLogger.kINFO ("a" ++ RTLogger.newline ++ "ERROR: b") "" =
  RTLogger.log RTLogger.kERROR "b" ("INFO: a" ++ RTLogger.newline).
Proof. reflexivity. Qed.

(** X2.  Logging a sequence of entries never fails and only appends: the
    text written depends on the entries alone, and whatever the stream held
    before is kept in front of it. *)
Theorem log_all_appends (entries : list (RTLogger.Severity * string)) :
  exists text,
    forall before, RTLogger.log_all entries before = Ret tt (before ++ text).
Proof.
  induction entries as [|[s msg] entries IH].
  - exists "". intros before. simpl. unfold ret. f_equal.
    induction before as [|c b IH]; [reflexivity|].
    now rewrite append_cons, <- IH.
  - destruct IH as (text & Hall).
    destruct (log_writes s msg "") as (label & _ & Hlabel).
    exists ((label ++ msg ++ RTLogger.newline) ++ text).
    intros before. simpl. unfold bind.
    destruct (log_writes s msg before) as (label' & -> & Hlabel').
    rewrite Hall. f_equal. rewrite append_assoc. congruence.
Qed.

(** ** Construction *)

Lemma append_nil_r (s : string) : s ++ "" = s.
Proof. induction s as [|c s IH]; [reflexivity|]. now rewrite append_cons, IH. Qed.

Lemma contains_suffix (needle pre : string) : contains needle (pre ++ needle) = true.
Proof.
  rewrite <- (append_nil_r needle) at 2. apply contains_middle.
Qed.

(** X3.  The constructor checks the plan file and nothing else: on a missing
    file it raises the plan-not-found error, whose message ends with the path,
    and leaves the process as it was; on an existing file it returns an object
    that stores the three arguments and has no output handle and no recorded
    input shape, while the engine and context pointers, the buffer slots and
    the two indices are assigned nothing: they hold whatever indeterminate
    values the memory of the object had.  It touches neither the file system
    nor the device. *)
Theorem constructor_outcome (RTPlan : string) (gpuId : Z) (enable : bool)
    (lastBlobName : string) (g : Indeterminate) (w : World) :
  match files w !! RTPlan with
  | None =>
      NetRT.NetRT_ctor RTPlan gpuId enable lastBlobName g w =
        Throw (OpError ("TensorRT plan not found: " ++ RTPlan) 49) w /\
      contains RTPlan ("TensorRT plan not found: " ++ RTPlan) = true
  | Some _ =>
      exists i w',
        NetRT.NetRT_ctor RTPlan gpuId enable lastBlobName g w = Ret i w' /\
        mRTPlan i = RTPlan /\ mGpuId i = gpuId /\ mLastBlobName i = lastBlobName /\
        spOutputBlob i = None /\ mNetInputSize4D i = [] /\
        nvengine i = garbage_nvengine g /\ context i = garbage_context g /\
        buffers i = [fst (garbage_buffers g); snd (garbage_buffers g)] /\
        inputBlobIndex i = garbage_inputBlobIndex g /\
        outputBlobIndex i = garbage_outputBlobIndex g /\
        files w' = files w /\ device w' = device w
  end.
Proof.
  destruct w as [fs ds initialized n d]. cbn [files].
  destruct (fs !! RTPlan) as [f|] eqn:Hf.
  - unfold NetRT.NetRT_ctor, NetRT.ImplNetRT_ctor, NetRT.existFile,
      bind, gets, when, error, throw, ret. cbn [files]. rewrite Hf.
    rewrite bool_decide_eq_true_2 by eauto. simpl.
    destruct enable, initialized; simpl; do 2 eexists;
      (split; [reflexivity|]); simpl; repeat apply conj; reflexivity.
  - split; [|apply contains_suffix].
    unfold NetRT.NetRT_ctor, NetRT.ImplNetRT_ctor, NetRT.existFile,
      bind, gets, when, error, throw, ret. cbn [files]. rewrite Hf.
    rewrite bool_decide_eq_false_2 by (intros [? ?]; discriminate).
    reflexivity.
Qed.

(** ** The double-checked lock *)

(** X4.  Whatever value the flag starts from, however many constructors run
    and however their steps interleave: at no moment are two threads inside
    the block guarded by the mutex. *)
Theorem logging_block_is_exclusive (flag0 : bool) (enables : list bool)
    (schedule : list nat) (i j : nat) (ti tj : Concurrent.Thread) :
  let c := Concurrent.run schedule (Concurrent.start_from flag0 enables) in
  Concurrent.threads c !! i = Some ti -> Concurrent.threads c !! j = Some tj ->
  Concurrent.in_critical_section (Concurrent.at_pc ti) = true ->
  Concurrent.in_critical_section (Concurrent.at_pc tj) = true ->
  i = j.
Proof.
  cbv zeta. apply critical_section_exclusive, Inv_run, Inv_start.
Qed.

Lemma logging_block_is_exclusive_witness : 0%nat = 0%nat.
Proof.
  apply (logging_block_is_exclusive false [true; true] [0; 1; 0]%nat 0 0
           {| Concurrent.enableGoogleLogging := true;
              Concurrent.at_pc := Concurrent.InnerCheck |}
           {| Concurrent.enableGoogleLogging := true;
              Concurrent.at_pc := Concurrent.InnerCheck |});
    reflexivity.
Defined.

(** X5.  Whatever value the flag starts from, and in every interleaving, the
    logging setup is called at most once, and never when the flag started
    from true. *)
Theorem logging_setup_at_most_once (flag0 : bool) (enables : list bool)
    (schedule : list nat) :
  let c := Concurrent.run schedule (Concurrent.start_from flag0 enables) in
  (Concurrent.initCalls (Concurrent.shared c) <= 1)%nat /\
  (if flag0 then Concurrent.initCalls (Concurrent.shared c) = 0%nat else True).
Proof.
  cbv zeta. split; [apply setup_at_most_once|].
  destruct flag0; [|exact I].
  assert (Concurrent.Idle (Concurrent.run schedule (Concurrent.start_from true enables)))
    as (_ & Hn & _); [|exact Hn].
  apply Idle_run. repeat split. simpl.
  apply Forall_fmap, Forall_forall. intros b _. now left.
Qed.

(** ** The checks of the forward pass *)

Lemma wrap_eq_iff (x v : Z) :
  Int32.in_range v -> (Int32.wrap x = v <-> x mod 2 ^ 32 = v mod 2 ^ 32).
Proof.
  unfold Int32.in_range, Int32.min_int, Int32.max_int, Int32.wrap. intros Hv.
  pose proof (Z.mod_pos_bound (x + 2 ^ 31) (2 ^ 32) ltac:(lia)) as Hb.
  split; intros H.
  - rewrite <- H.
    replace ((x + 2 ^ 31) mod 2 ^ 32 - 2 ^ 31)
      with (x + (- ((x + 2 ^ 31) / 2 ^ 32)) * 2 ^ 32)
      by (rewrite (Z.mod_eq (x + 2 ^ 31) (2 ^ 32)) by lia; ring).
    now rewrite Z_mod_plus_full.
  - assert ((x + 2 ^ 31) mod 2 ^ 32 = v + 2 ^ 31); [|lia].
    rewrite Zplus_mod, H, <- Zplus_mod. apply Z.mod_small. lia.
Qed.

(** X6.  The three checks accept exactly the arrays that are not empty, have
    four dimensions of which the second is 3, and whose product of sizes is
    congruent to 230400 modulo 2^32: the total is accumulated in [int], so
    the volume check compares the wrapped product. *)
Theorem checks_accept_iff (a : Array) (m : Machine) :
  NetRT.securityChecks a m = Ret tt m <->
  empty a = false /\ getNumberDimensions a = 4 /\ getSizeAt a 1 = 3 /\
  fold_right Z.mul 1 (getSize a) mod 2 ^ 32 = 230400.
Proof.
  assert (Int32.accumulate_mul (getSize a) 1 = 230400 <->
          fold_right Z.mul 1 (getSize a) mod 2 ^ 32 = 230400) as Hacc.
  { change 1 with (Int32.wrap 1) at 1. rewrite accumulate_mul_wrap, Z.mul_1_l.
    rewrite wrap_eq_iff by (vm_compute; split; discriminate). reflexivity. }
  split.
  - intros H. destruct (empty a) eqn:He.
    { rewrite securityChecks_empty in H by exact He. discriminate. }
    destruct (Z.eq_dec (getNumberDimensions a) 4) as [Hd|Hd].
    2: { rewrite securityChecks_shape in H by auto. discriminate. }
    destruct (Z.eq_dec (getSizeAt a 1) 3) as [Hc|Hc].
    2: { rewrite securityChecks_shape in H by auto. discriminate. }
    destruct (Z.eq_dec (Int32.accumulate_mul (getSize a) 1) 230400) as [Hv|Hv].
    2: { rewrite securityChecks_volume in H by auto. discriminate. }
    repeat split; auto. now apply Hacc.
  - intros (He & Hd & Hc & Hv). apply securityChecks_pass; auto. now apply Hacc.
Qed.

(** X7.  The volume check does not look at the individual sizes: a non-empty
    array [b, 3, h, w] with b*h*w = 76800 passes all checks whatever b, h and
    w are, for instance with height and width exchanged. *)
Theorem checks_accept_any_layout (a : Array) (m : Machine) (b h w : Z) :
  Array_wf a -> mSize a = [b; 3; h; w] -> b * h * w = 76800 ->
  NetRT.securityChecks a m = Ret tt m.
Proof.
  intros (Hpos & Hvol & _) Hs Hp.
  assert (fold_right Z.mul 1 [b; 3; h; w] = 230400) as Hprod by (simpl; lia).
  apply securityChecks_pass.
  - unfold empty. rewrite Hvol, Hs. unfold elements. now rewrite Hprod.
  - unfold getNumberDimensions. now rewrite Hs.
  - unfold getSizeAt. now rewrite Hs.
  - unfold getSize. rewrite Hs, accumulate_mul_exact; rewrite Hprod;
      [reflexivity | unfold Int32.in_range, Int32.min_int, Int32.max_int; lia].
Qed.

Lemma checks_accept_any_layout_witness :
  NetRT.securityChecks (Fixtures.tensor [1; 3; 240; 320]) Fixtures.ready =
    Ret tt Fixtures.ready.
Proof.
  apply (checks_accept_any_layout (Fixtures.tensor [1; 3; 240; 320])
           Fixtures.ready 1 240 320).
  - unfold Array_wf. split; [|split].
    + unfold Fixtures.tensor, Int32.max_int. simpl. repeat constructor; lia.
    + reflexivity.
    + reflexivity.
  - reflexivity.
  - reflexivity.
Defined.

(** ** What a forward pass touches *)

Lemma cudaMalloc_calls (size : Z) (d : Cuda.Device) :
  exists c, Cuda.calls (snd (Cuda.cudaMalloc size d)) = c :: Cuda.calls d /\
            Cuda.is_malloc c = true.
Proof.
  unfold Cuda.cudaMalloc. destruct (size <=? Cuda.available d); simpl; eauto.
Qed.

(** The calls a forward pass adds to the trace. *)
Lemma forwardPass_calls (a : Array) (m : Machine) :
  exists added,
    Cuda.calls (device (world (final (NetRT.forwardPass a m)))) =
      (added ++ Cuda.calls (device (world m)))%list /\
    (added = [] \/
     (exists dst n, added = [Cuda.MemcpyH2D dst n]) \/
     (exists dst n, added = [Cuda.Execute 1; Cuda.MemcpyH2D dst n])).
Proof.
  unfold NetRT.forwardPass. unfold bind at 1.
  pose proof (securityChecks_state a m) as Hs.
  destruct (NetRT.securityChecks a m) as [[] s| |]; simpl in Hs; subst;
    try solve [exists []; simpl; auto].
  unfold NetRT.read_slot, NetRT.NB_BINDINGS.
  unfold bind, gets, when, set_this, modify, on_device, ret, error, throw, undefined.
  destruct (negb (vectorsAreEqual (mNetInputSize4D (this m)) (getSize a))); simpl;
    (destruct ((0 <=? inputBlobIndex (this m)) && (inputBlobIndex (this m) <? 2));
       [|exists []; simpl; auto]);
    (destruct (buffers (this m) !! Z.to_nat (inputBlobIndex (this m))) as [dst|];
       [|exists []; simpl; auto]);
    simpl;
    (destruct (context (this m)) as [e|]; simpl;
     [ match goal with
       | |- context [TensorRT.execute ?e ?n ?b ?d] =>
           pose proof (execute_calls e n b d) as Hx;
           destruct (TensorRT.execute e n b d) as [[|] d']
       end; simpl in *; rewrite Hx, cudaMemcpyH2D_calls;
       (eexists [_; _]; split; [reflexivity | right; right; eauto])
     | rewrite cudaMemcpyH2D_calls; eexists [_]; split;
       [reflexivity | right; left; eauto] ]).
Qed.

(** X8.  A forward pass never allocates and never frees device memory,
    whatever its input and whatever its outcome; it adds at most one copy
    and one execution to the device's call trace, and no execution without a
    copy before it. *)
Theorem forwardPass_never_allocates (a : Array) (m : Machine) :
  let before := device (world m) in
  let after := device (world (final (NetRT.forwardPass a m))) in
  Cuda.count Cuda.is_malloc after = Cuda.count Cuda.is_malloc before /\
  Cuda.count Cuda.is_free after = Cuda.count Cuda.is_free before /\
  (Cuda.count Cuda.is_execute after - Cuda.count Cuda.is_execute before <=
   Cuda.count Cuda.is_memcpy after - Cuda.count Cuda.is_memcpy before <= 1)%nat.
Proof.
  cbv zeta. destruct (forwardPass_calls a m) as (added & Hcalls & Hadded).
  unfold Cuda.count. rewrite Hcalls, !List.filter_app, !length_app.
  destruct Hadded as [->|[(dst & n & ->)|(dst & n & ->)]]; simpl; lia.
Qed.

(** X9.  A forward pass changes nothing of the object but the recorded
    input shape: when the checks pass, the object afterwards is the object
    before with [mNetInputSize4D] set to the sizes of the input, whether the
    pass then returns, throws or runs into undefined behaviour; when a check
    fails, the whole state is untouched. *)
Theorem forwardPass_records_shape (a : Array) (m : Machine) :
  if returns (NetRT.securityChecks a m)
  then this (final (NetRT.forwardPass a m)) =
         set_mNetInputSize4D (getSize a) (this m)
  else final (NetRT.forwardPass a m) = m.
Proof.
  pose proof (securityChecks_state a m) as Hs.
  destruct (NetRT.securityChecks a m) as [[] s|e s|u s] eqn:Hc; simpl in Hs; subst s;
    cbn [returns]; unfold NetRT.forwardPass; unfold bind at 1; rewrite Hc;
    try reflexivity.
  unfold NetRT.read_slot, NetRT.NB_BINDINGS.
  unfold bind, gets, when, set_this, modify, on_device, ret, error, throw, undefined.
  assert (vectorsAreEqual (mNetInputSize4D (this m)) (getSize a) = true ->
          this m = set_mNetInputSize4D (getSize a) (this m)) as Heq.
  { unfold vectorsAreEqual. intros H%bool_decide_eq_true. rewrite <- H.
    destruct (this m); reflexivity. }
  destruct (vectorsAreEqual (mNetInputSize4D (this m)) (getSize a)); simpl;
    [rewrite <- (Heq eq_refl)|];
    (destruct ((0 <=? inputBlobIndex (this m)) && (inputBlobIndex (this m) <? 2));
       [|reflexivity]);
    (destruct (buffers (this m) !! Z.to_nat (inputBlobIndex (this m))) as [dst|];
       [|reflexivity]);
    simpl;
    (destruct (context (this m)) as [e|]; simpl; [|reflexivity]);
    match goal with
    | |- context [TensorRT.execute ?e ?n ?b ?d] =>
        destruct (TensorRT.execute e n b d) as [[|] d']
    end; reflexivity.
Qed.

(** ** What initialization touches *)

Lemma cudaMalloc_slot_calls (index size : Z) (m : Machine) :
  exists added,
    Cuda.calls (device (world (final (NetRT.cudaMalloc_slot index size m)))) =
      (added ++ Cuda.calls (device (world m)))%list /\
    (added = [] \/ exists c, added = [c] /\ Cuda.is_malloc c = true).
Proof.
  unfold NetRT.cudaMalloc_slot, NetRT.NB_BINDINGS.
  destruct ((0 <=? index) && (index <? 2)); [|exists []; auto].
  unfold bind, on_device, set_this, modify, ret.
  destruct (cudaMalloc_calls size (device (world m))) as (c & Hc & Hm).
  destruct (Cuda.cudaMalloc size (device (world m))) as [[p|] d]; simpl in *;
    (exists [c]; split; [exact Hc | right; eauto]).
Qed.

Lemma redirect_check_device (line : Z) (m : Machine) :
  device (world (final ((NetRT.redirectToBlob ;; NetRT.cudaCheck line) m))) =
  device (world m).
Proof.
  unfold NetRT.redirectToBlob, NetRT.read_slot, NetRT.NB_BINDINGS, NetRT.cudaCheck.
  unfold bind, gets, set_this, modify, ret, error, throw, undefined. simpl.
  destruct ((0 <=? outputBlobIndex (this m)) && (outputBlobIndex (this m) <? 2));
    [|reflexivity].
  destruct (buffers (this m) !! Z.to_nat (outputBlobIndex (this m))); [|reflexivity].
  simpl. destruct (Cuda.lastError (device (world m))); reflexivity.
Qed.

Lemma up_to_two_mallocs_nil : up_to_two_mallocs [].
Proof. split; [apply Forall_nil_2 | simpl; lia]. Qed.

Lemma up_to_two_mallocs_app (l1 l2 : list Cuda.Call) :
  (l1 = [] \/ exists c, l1 = [c] /\ Cuda.is_malloc c = true) ->
  (l2 = [] \/ exists c, l2 = [c] /\ Cuda.is_malloc c = true) ->
  up_to_two_mallocs (l2 ++ l1)%list.
Proof.
  intros [->|(c1 & -> & H1)] [->|(c2 & -> & H2)]; (split; [|simpl; lia]); simpl;
    repeat (apply Forall_cons_2; [assumption|]); apply Forall_nil_2.
Qed.

(** X10.  Whatever its outcome, initializationOnThread calls nothing on the
    device but cudaMalloc, at most twice: it never frees, copies or
    executes. *)
Theorem initialization_only_allocates (m : Machine) :
  exists added,
    Cuda.calls (device (world (final (NetRT.initializationOnThread m)))) =
      (added ++ Cuda.calls (device (world m)))%list /\
    Forall (fun c => Cuda.is_malloc c = true) added /\ (length added <= 2)%nat.
Proof.
  change (exists added,
    Cuda.calls (device (world (final (NetRT.initializationOnThread m)))) =
      (added ++ Cuda.calls (device (world m)))%list /\ up_to_two_mallocs added).
  unfold NetRT.initializationOnThread. unfold bind at 1.
  pose proof (loadPlan_state m) as Hl.
  destruct (NetRT.loadPlan m) as [bytes s| |]; simpl in Hl; subst;
    try solve [exists []; split; [reflexivity | apply up_to_two_mallocs_nil]].
  unfold bind at 1. unfold NetRT.createEngine.
  unfold bind at 1 2 3, gets at 1 2, set_this at 1 2, modify at 1 2. simpl.
  destruct (deserializer (world m) bytes) as [e|]; simpl;
    [|exists []; split; [reflexivity | apply up_to_two_mallocs_nil]].
  unfold bind at 1, gets at 1. simpl.
  unfold bind at 1. unfold NetRT.checkBindings, when, NetRT.NB_BINDINGS.
  destruct (TensorRT.getNbBindings e =? 2); simpl;
    [|exists []; split; [reflexivity | apply up_to_two_mallocs_nil]].
  unfold bind at 1. unfold NetRT.bindNames.
  unfold bind at 1, set_this at 1 2, modify at 1 2. simpl.
  set (m1 := {| world := world m; this := _ |}).
  change (Cuda.calls (device (world m))) with (Cuda.calls (device (world m1))).
  generalize m1. clear. intros m.
  unfold bind at 1. unfold NetRT.allocateBuffers.
  unfold bind at 1, gets at 1. simpl.
  unfold bind at 1.
  destruct (cudaMalloc_slot_calls (inputBlobIndex (this m)) NetRT.input_bytes m)
    as (l1 & H1 & Hl1).
  pose proof (up_to_two_mallocs_app l1 [] Hl1 (or_introl eq_refl)) as Hone.
  destruct (NetRT.cudaMalloc_slot (inputBlobIndex (this m)) NetRT.input_bytes m)
    as [[] m1| |]; simpl in H1;
    try solve [exists l1; split; [exact H1 | exact Hone]].
  unfold bind at 1, gets at 1. simpl.
  destruct (cudaMalloc_slot_calls (outputBlobIndex (this m1)) NetRT.output_bytes m1)
    as (l2 & H2 & Hl2).
  pose proof (up_to_two_mallocs_app l1 l2 Hl1 Hl2) as Htwo.
  destruct (NetRT.cudaMalloc_slot (outputBlobIndex (this m1)) NetRT.output_bytes m1)
    as [[] m2| |]; simpl in H2;
    try solve [exists (l2 ++ l1)%list; split;
               [simpl; rewrite <- app_assoc, <- H1; exact H2 | exact Htwo]].
  change (match NetRT.redirectToBlob m2 with
          | Ret _ s' => NetRT.cudaCheck 116 s'
          | Throw e s' => Throw e s'
          | Undefined u s' => Undefined u s'
          end) with ((NetRT.redirectToBlob ;; NetRT.cudaCheck 116) m2).
  rewrite redirect_check_device.
  exists (l2 ++ l1)%list. split; [rewrite <- app_assoc, <- H1; exact H2 | exact Htwo].
Qed.

(** ** Initialization on a valid plan *)

Lemma cudaMalloc_fits (size : Z) (d : Cuda.Device) :
  size <= Cuda.available d ->
  exists d', Cuda.cudaMalloc size d = (Some (Cuda.brk d), d') /\
             Cuda.available d' = Cuda.available d - size /\
             Cuda.brk d' = Cuda.brk d + size /\
             Cuda.lastError d' = Cuda.lastError d.
Proof.
  intros H. unfold Cuda.cudaMalloc. apply Z.leb_le in H. rewrite H.
  eexists. split; [reflexivity|]. simpl. auto.
Qed.

Lemma bind_Ret {S A B} (c : M S A) (k : A -> M S B) (s s1 : S) (a : A) :
  c s = Ret a s1 -> bind c k s = k a s1.
Proof. intros H. unfold bind. now rewrite H. Qed.

Lemma cudaMalloc_slot_fits (index size : Z) (m : Machine) :
  0 <= index < 2 -> size <= Cuda.available (device (world m)) ->
  NetRT.cudaMalloc_slot index size m =
    Ret tt {| world := with_device (snd (Cuda.cudaMalloc size (device (world m))))
                         (world m);
              this := set_buffers
                        (<[Z.to_nat index := Cuda.brk (device (world m))]>
                           (buffers (this m))) (this m) |}.
Proof.
  intros Hi Hs. destruct (cudaMalloc_fits size _ Hs) as (d' & Hm & _).
  unfold NetRT.cudaMalloc_slot, NetRT.NB_BINDINGS. rewrite (in_range_true _ Hi).
  unfold bind, on_device, set_this, modify. rewrite Hm. reflexivity.
Qed.

Lemma checkBindings_two (e : TensorRT.ICudaEngine) (m : Machine) :
  TensorRT.getNbBindings e = 2 -> NetRT.checkBindings e m = Ret tt m.
Proof.
  intros H. unfold NetRT.checkBindings, when, NetRT.NB_BINDINGS. now rewrite H.
Qed.

(** Both allocations succeed when both sizes fit the free device memory. *)
Lemma allocateBuffers_fits (m : Machine) :
  0 <= inputBlobIndex (this m) < 2 -> 0 <= outputBlobIndex (this m) < 2 ->
  NetRT.input_bytes + NetRT.output_bytes <= Cuda.available (device (world m)) ->
  exists d2,
    NetRT.allocateBuffers m =
      Ret tt {| world := with_device d2 (world m);
                this := set_buffers
                          (<[Z.to_nat (outputBlobIndex (this m)) :=
                               Cuda.brk (device (world m)) + NetRT.input_bytes]>
                             (<[Z.to_nat (inputBlobIndex (this m)) :=
                                  Cuda.brk (device (world m))]>
                                (buffers (this m)))) (this m) |} /\
    Cuda.calls d2 =
      Cuda.Malloc (Cuda.brk (device (world m)) + NetRT.input_bytes) NetRT.output_bytes
      :: Cuda.Malloc (Cuda.brk (device (world m))) NetRT.input_bytes
      :: Cuda.calls (device (world m)) /\
    Cuda.available d2 =
      Cuda.available (device (world m)) - NetRT.input_bytes - NetRT.output_bytes /\
    Cuda.lastError d2 = Cuda.lastError (device (world m)) /\
    Cuda.brk d2 = Cuda.brk (device (world m)) + NetRT.input_bytes + NetRT.output_bytes /\
    Cuda.heap d2 =
      <[Cuda.brk (device (world m)) + NetRT.input_bytes :=
          {| Cuda.bytes := NetRT.output_bytes; Cuda.cells := fun _ => 0 |}]>
        (<[Cuda.brk (device (world m)) :=
             {| Cuda.bytes := NetRT.input_bytes; Cuda.cells := fun _ => 0 |}]>
           (Cuda.heap (device (world m)))).
Proof.
  intros Hi Ho Hmem.
  assert (0 <= NetRT.output_bytes) as Hpos by (rewrite output_bytes_value; lia).
  assert (0 <= NetRT.input_bytes) as Hpos' by (rewrite input_bytes_value; lia).
  destruct (cudaMalloc_fits NetRT.input_bytes (device (world m)) ltac:(lia))
    as (d1 & M1 & Ha1 & Hb1 & He1).
  destruct (cudaMalloc_fits NetRT.output_bytes d1 ltac:(lia))
    as (d2 & M2 & Ha2 & Hb2 & He2).
  exists d2. split.
  - unfold NetRT.allocateBuffers.
    rewrite (bind_Ret _ _ m m (inputBlobIndex (this m))) by reflexivity.
    rewrite (bind_Ret _ _ _ _ tt
               (cudaMalloc_slot_fits (inputBlobIndex (this m)) NetRT.input_bytes m Hi
                  ltac:(lia))).
    rewrite M1. cbn [snd].
    erewrite bind_Ret by reflexivity. cbn [this world outputBlobIndex set_buffers].
    rewrite cudaMalloc_slot_fits; cbn [this world device with_device outputBlobIndex set_buffers buffers];
      [|exact Ho|lia].
    rewrite Hb1, M2. reflexivity.
  - apply cudaMalloc_Some in M1 as (_ & Hh1 & _ & _ & Hc1).
    apply cudaMalloc_Some in M2 as (_ & Hh2 & _ & _ & Hc2).
    rewrite Hc2, Hc1, Hh2, Hh1, Hb1. repeat split; try lia. congruence.
Qed.

Lemma redirect_check_ok (m : Machine) (p : Z) :
  Cuda.lastError (device (world m)) = None ->
  0 <= outputBlobIndex (this m) < 2 ->
  buffers (this m) !! Z.to_nat (outputBlobIndex (this m)) = Some p ->
  (NetRT.redirectToBlob ;; NetRT.cudaCheck 116) m =
    Ret tt {| world := world m;
              this := set_spOutputBlob (Some (output_handle p)) (this m) |}.
Proof.
  intros He Ho Hp.
  unfold NetRT.redirectToBlob, NetRT.read_slot, NetRT.NB_BINDINGS, NetRT.cudaCheck.
  unfold bind, gets, set_this, modify, ret, error, throw, undefined. simpl.
  rewrite (in_range_true _ Ho), Hp. simpl. rewrite He. reflexivity.
Qed.

(** The state initialization reaches on a valid plan. *)
Lemma initialization_valid (m : Machine) (f : File) (e : TensorRT.ICudaEngine) :
  files (world m) !! mRTPlan (this m) = Some f -> File_intact f ->
  deserializer (world m) (fdata f) = Some e ->
  TensorRT.getNbBindings e = 2 ->
  TensorRT.getBindingIndex e NetRT.INPUT_BLOB_NAME <> -1 ->
  TensorRT.getBindingIndex e NetRT.OUTPUT_BLOB_NAME <> -1 ->
  length (buffers (this m)) = 2%nat ->
  (1 * 3 * 320 * 240 + 1 * 57 * 40 * 30) * 4 <= Cuda.available (device (world m)) ->
  Cuda.lastError (device (world m)) = None ->
  let i := TensorRT.getBindingIndex e NetRT.INPUT_BLOB_NAME in
  let o := TensorRT.getBindingIndex e NetRT.OUTPUT_BLOB_NAME in
  let pin := Cuda.brk (device (world m)) in
  let pout := Cuda.brk (device (world m)) + 921600 in
  exists d2,
    NetRT.initializationOnThread m =
      Ret tt {| world := with_device d2 (world m);
                this := set_spOutputBlob (Some (output_handle pout))
                          (set_buffers
                             (<[Z.to_nat o := pout]> (<[Z.to_nat i := pin]> (buffers (this m))))
                             (set_outputBlobIndex o
                                (set_inputBlobIndex i (this (with_engine e m))))) |} /\
    0 <= i < 2 /\ 0 <= o < 2 /\
    Cuda.calls d2 =
      Cuda.Malloc pout 273600 :: Cuda.Malloc pin 921600 :: Cuda.calls (device (world m)) /\
    Cuda.available d2 = Cuda.available (device (world m)) - 921600 - 273600 /\
    Cuda.lastError d2 = None /\
    Cuda.brk d2 = pin + 921600 + 273600 /\
    Cuda.heap d2 =
      <[pout := {| Cuda.bytes := 273600; Cuda.cells := fun _ => 0 |}]>
        (<[pin := {| Cuda.bytes := 921600; Cuda.cells := fun _ => 0 |}]>
           (Cuda.heap (device (world m)))).
Proof.
  intros Hf Hi Hd Hn Hin Hout Hlen Hmem Herr. cbv zeta.
  rewrite (initialization_after_load m f e Hf Hi Hd).
  destruct (getBindingIndex_range e NetRT.INPUT_BLOB_NAME) as [?|Hri]; [contradiction|].
  destruct (getBindingIndex_range e NetRT.OUTPUT_BLOB_NAME) as [?|Hro]; [contradiction|].
  rewrite Hn in Hri, Hro.
  rewrite (bind_Ret _ _ _ _ tt (checkBindings_two e _ Hn)).
  erewrite bind_Ret by reflexivity.
  set (i := TensorRT.getBindingIndex e NetRT.INPUT_BLOB_NAME) in *.
  set (o := TensorRT.getBindingIndex e NetRT.OUTPUT_BLOB_NAME) in *.
  match goal with
  | |- context [bind NetRT.allocateBuffers _ ?s] =>
      destruct (allocateBuffers_fits s) as (d2 & Halloc & Hc & Ha & He & Hb & Hh);
        [exact Hri | exact Hro
        | rewrite input_bytes_value, output_bytes_value; simpl; lia |]
  end.
  rewrite (bind_Ret _ _ _ _ tt Halloc).
  cbn [world this device with_engine set_outputBlobIndex set_inputBlobIndex
       inputBlobIndex outputBlobIndex buffers set_context set_nvengine] in *.
  rewrite input_bytes_value, output_bytes_value in *.
  rewrite (redirect_check_ok _ (Cuda.brk (device (world m)) + 921600)).
  - exists d2. split; [reflexivity|].
    repeat apply conj; try lia; try assumption. congruence.
  - cbn [world device with_device]. congruence.
  - cbn [this outputBlobIndex set_buffers]. exact Hro.
  - cbn [this outputBlobIndex set_buffers buffers].
    apply list_lookup_insert_eq. rewrite length_insert. lia.
Qed.

(** X11.  On an intact plan that deserializes to an engine with exactly two
    bindings, named "image" and "net_output", with enough free device memory
    for both buffers and no earlier device error pending, initialization of a
    constructed object returns; it has made exactly the two allocations, of
    1x3x320x240 and 1x57x40x30 floats, and the output handle is present and
    refers to the second one. *)
Theorem initialization_succeeds (m : Machine) (f : File) (e : TensorRT.ICudaEngine) :
  files (world m) !! mRTPlan (this m) = Some f -> File_intact f ->
  deserializer (world m) (fdata f) = Some e ->
  TensorRT.getNbBindings e = 2 ->
  TensorRT.getBindingIndex e NetRT.INPUT_BLOB_NAME <> -1 ->
  TensorRT.getBindingIndex e NetRT.OUTPUT_BLOB_NAME <> -1 ->
  length (buffers (this m)) = 2%nat ->
  (1 * 3 * 320 * 240 + 1 * 57 * 40 * 30) * 4 <= Cuda.available (device (world m)) ->
  Cuda.lastError (device (world m)) = None ->
  exists m',
    NetRT.initializationOnThread m = Ret tt m' /\
    Cuda.calls (device (world m')) =
      Cuda.Malloc (Cuda.brk (device (world m)) + 921600) 273600
      :: Cuda.Malloc (Cuda.brk (device (world m))) 921600
      :: Cuda.calls (device (world m)) /\
    spOutputBlob (this m') =
      Some (output_handle (Cuda.brk (device (world m)) + 921600)) /\
    Cuda.available (device (world m')) =
      Cuda.available (device (world m)) - (1 * 3 * 320 * 240 + 1 * 57 * 40 * 30) * 4.
Proof.
  intros Hf Hi Hd Hn Hin Hout Hlen Hmem Herr.
  destruct (initialization_valid m f e Hf Hi Hd Hn Hin Hout Hlen Hmem Herr)
    as (d2 & Hinit & _ & _ & Hc & Ha & _ & _ & _).
  eexists. split; [exact Hinit|]. cbn [world this device with_device spOutputBlob
                                       set_spOutputBlob].
  split; [exact Hc | split; [reflexivity | lia]].
Qed.

Lemma initialization_succeeds_witness :
  exists m',
    NetRT.initializationOnThread (Fixtures.fresh "pose.plan" "net_output") = Ret tt m' /\
    Cuda.calls (device (world m')) =
      Cuda.Malloc (Cuda.brk (device (world (Fixtures.fresh "pose.plan" "net_output")))
                   + 921600) 273600
      :: Cuda.Malloc (Cuda.brk (device (world (Fixtures.fresh "pose.plan" "net_output"))))
           921600
      :: Cuda.calls (device (world (Fixtures.fresh "pose.plan" "net_output"))) /\
    spOutputBlob (this m') =
      Some (output_handle
              (Cuda.brk (device (world (Fixtures.fresh "pose.plan" "net_output")))
               + 921600)) /\
    Cuda.available (device (world m')) =
      Cuda.available (device (world (Fixtures.fresh "pose.plan" "net_output")))
      - (1 * 3 * 320 * 240 + 1 * 57 * 40 * 30) * 4.
Proof.
  apply (initialization_succeeds (Fixtures.fresh "pose.plan" "net_output")
           {| fsize := 4; fdata := Fixtures.plan_bytes |} Fixtures.pose_engine).
  - vm_compute. reflexivity.
  - split; [reflexivity | vm_compute; discriminate].
  - reflexivity.
  - reflexivity.
  - vm_compute. discriminate.
  - vm_compute. discriminate.
  - reflexivity.
  - vm_compute. discriminate.
  - reflexivity.
Defined.

(** ** Initialization followed by destruction *)

Lemma index_of_name (n : string) (l : list TensorRT.Binding) (k : Z) :
  TensorRT.index_of n l k <> -1 -> 0 <= k ->
  exists b, l !! Z.to_nat (TensorRT.index_of n l k - k) = Some b /\
            TensorRT.bindingName b = n.
Proof.
  revert k. induction l as [|b l IH]; intros k H Hk; simpl in *; [contradiction|].
  destruct (String.eqb (TensorRT.bindingName b) n) eqn:Hb.
  - exists b. rewrite Z.sub_diag. split; [reflexivity | now apply String.eqb_eq].
  - destruct (IH (k + 1) H ltac:(lia)) as (b' & Hl & Hn). exists b'. split; [|exact Hn].
    destruct (index_of_range n l (k + 1)) as [?|Hr]; [contradiction|].
    replace (Z.to_nat (TensorRT.index_of n l (k + 1) - k))
      with (S (Z.to_nat (TensorRT.index_of n l (k + 1) - (k + 1)))) by lia.
    exact Hl.
Qed.

(** Two different names never resolve to the same slot. *)
Lemma getBindingIndex_distinct (e : TensorRT.ICudaEngine) (n1 n2 : string) :
  n1 <> n2 -> TensorRT.getBindingIndex e n1 <> -1 ->
  TensorRT.getBindingIndex e n1 <> TensorRT.getBindingIndex e n2.
Proof.
  intros Hne H1 Heq. unfold TensorRT.getBindingIndex in *.
  destruct (index_of_name n1 _ 0 H1 ltac:(lia)) as (b1 & Hl1 & Hn1).
  rewrite Heq in H1.
  destruct (index_of_name n2 _ 0 H1 ltac:(lia)) as (b2 & Hl2 & Hn2).
  rewrite Heq in Hl1. congruence.
Qed.

Lemma cudaFree_live (p : Z) (d : Cuda.Device) (b : Cuda.Buffer) :
  p <> 0 -> Cuda.heap d !! p = Some b ->
  Cuda.heap (Cuda.cudaFree p d) = delete p (Cuda.heap d) /\
  Cuda.available (Cuda.cudaFree p d) = Cuda.available d + Cuda.bytes b /\
  Cuda.lastError (Cuda.cudaFree p d) = Cuda.lastError d.
Proof.
  intros Hp Hb. unfold Cuda.cudaFree.
  apply Z.eqb_neq in Hp. rewrite Hp, Hb. simpl. auto.
Qed.

Lemma init_dtor_balanced
    (m : Machine) (f : File) (e : TensorRT.ICudaEngine) :
  files (world m) !! mRTPlan (this m) = Some f -> File_intact f ->
  deserializer (world m) (fdata f) = Some e ->
  TensorRT.getNbBindings e = 2 ->
  TensorRT.getBindingIndex e NetRT.INPUT_BLOB_NAME <> -1 ->
  TensorRT.getBindingIndex e NetRT.OUTPUT_BLOB_NAME <> -1 ->
  length (buffers (this m)) = 2%nat ->
  (1 * 3 * 320 * 240 + 1 * 57 * 40 * 30) * 4 <= Cuda.available (device (world m)) ->
  Cuda.lastError (device (world m)) = None ->
  0 < Cuda.brk (device (world m)) ->
  let pin := Cuda.brk (device (world m)) in
  let pout := Cuda.brk (device (world m)) + 921600 in
  exists m' m'',
    NetRT.initializationOnThread m = Ret tt m' /\
    NetRT.NetRT_dtor m' = Ret tt m'' /\
    Cuda.calls (device (world m'')) =
      Cuda.Free pout :: Cuda.Free pin
      :: Cuda.Malloc pout 273600 :: Cuda.Malloc pin 921600
      :: Cuda.calls (device (world m)) /\
    Cuda.heap (device (world m'')) !! pin = None /\
    Cuda.heap (device (world m'')) !! pout = None /\
    (forall q, q <> pin -> q <> pout ->
       Cuda.heap (device (world m'')) !! q = Cuda.heap (device (world m)) !! q) /\
    Cuda.available (device (world m'')) = Cuda.available (device (world m)).
Proof.
  intros Hf Hi Hd Hn Hin Hout Hlen Hmem Herr Hbrk. cbv zeta.
  destruct (initialization_valid m f e Hf Hi Hd Hn Hin Hout Hlen Hmem Herr)
    as (d2 & Hinit & Hri & Hro & Hc & Ha & He & _ & Hh).
  pose proof (getBindingIndex_distinct e NetRT.INPUT_BLOB_NAME NetRT.OUTPUT_BLOB_NAME
                ltac:(discriminate) Hin) as Hio.
  set (i := TensorRT.getBindingIndex e NetRT.INPUT_BLOB_NAME) in *.
  set (o := TensorRT.getBindingIndex e NetRT.OUTPUT_BLOB_NAME) in *.
  set (pin := Cuda.brk (device (world m))) in *.
  set (pout := pin + 921600) in *.
  eexists. eexists. split; [exact Hinit|].
  assert (Cuda.heap d2 !! pin = Some {| Cuda.bytes := 921600; Cuda.cells := fun _ => 0 |})
    as Hpin by (rewrite Hh, lookup_insert_ne, lookup_insert_eq; [reflexivity | lia]).
  destruct (cudaFree_live pin d2 _ ltac:(lia) Hpin) as (Hh3 & Ha3 & He3).
  assert (Cuda.heap (Cuda.cudaFree pin d2) !! pout =
            Some {| Cuda.bytes := 273600; Cuda.cells := fun _ => 0 |}) as Hpout.
  { rewrite Hh3, lookup_delete_ne by lia. now rewrite Hh, lookup_insert_eq. }
  destruct (cudaFree_live pout _ _ ltac:(lia) Hpout) as (Hh4 & Ha4 & He4).
  unfold NetRT.NetRT_dtor, NetRT.ImplNetRT_dtor, NetRT.cudaFree_slot,
    NetRT.read_slot, NetRT.NB_BINDINGS, NetRT.cudaCheck, bind, gets, on_device,
    error, throw, ret.
  cbn [world this device with_device inputBlobIndex outputBlobIndex buffers
       set_spOutputBlob set_buffers set_outputBlobIndex set_inputBlobIndex].
  rewrite (in_range_true _ Hri).
  rewrite list_lookup_insert_ne by lia.
  rewrite list_lookup_insert_eq by lia.
  cbn [fst snd world this device with_device inputBlobIndex outputBlobIndex buffers
       set_spOutputBlob set_buffers set_outputBlobIndex set_inputBlobIndex].
  rewrite (in_range_true _ Hro).
  rewrite list_lookup_insert_eq by (rewrite length_insert; lia).
  cbn [fst snd world this device with_device].
  rewrite He4, He3, He.
  split; [reflexivity|].
  cbn [world device with_device].
  rewrite !cudaFree_calls, Hc, Hh4, Hh3, Ha4, Ha3, Ha. cbn [Cuda.bytes].
  repeat apply conj.
  - reflexivity.
  - rewrite lookup_delete_ne by lia. apply lookup_delete_eq.
  - apply lookup_delete_eq.
  - intros q Hq1 Hq2.
    rewrite !lookup_delete_ne, Hh, !lookup_insert_ne by congruence. reflexivity.
  - lia.
Qed.

(** X12.  Initialization on a valid plan followed by destruction is
    balanced: the destructor returns, it frees exactly the two addresses the
    initialization allocated, input first, neither is live afterwards, every
    other allocation is as before, and the free device memory is back to what
    it was. *)
Theorem initialization_then_destruction
    (m : Machine) (f : File) (e : TensorRT.ICudaEngine) :
  files (world m) !! mRTPlan (this m) = Some f -> File_intact f ->
  deserializer (world m) (fdata f) = Some e ->
  TensorRT.getNbBindings e = 2 ->
  TensorRT.getBindingIndex e NetRT.INPUT_BLOB_NAME <> -1 ->
  TensorRT.getBindingIndex e NetRT.OUTPUT_BLOB_NAME <> -1 ->
  length (buffers (this m)) = 2%nat ->
  (1 * 3 * 320 * 240 + 1 * 57 * 40 * 30) * 4 <= Cuda.available (device (world m)) ->
  Cuda.lastError (device (world m)) = None ->
  0 < Cuda.brk (device (world m)) ->
  let pin := Cuda.brk (device (world m)) in
  let pout := Cuda.brk (device (world m)) + 921600 in
  exists m' m'',
    NetRT.initializationOnThread m = Ret tt m' /\
    NetRT.NetRT_dtor m' = Ret tt m'' /\
    Cuda.calls (device (world m'')) =
      Cuda.Free pout :: Cuda.Free pin
      :: Cuda.Malloc pout 273600 :: Cuda.Malloc pin 921600
      :: Cuda.calls (device (world m)) /\
    Cuda.heap (device (world m'')) !! pin = None /\
    Cuda.heap (device (world m'')) !! pout = None /\
    (forall q, q <> pin -> q <> pout ->
       Cuda.heap (device (world m'')) !! q = Cuda.heap (device (world m)) !! q) /\
    Cuda.available (device (world m'')) = Cuda.available (device (world m)).
Proof. exact (init_dtor_balanced m f e). Qed.

Lemma initialization_then_destruction_witness :
  let m := Fixtures.fresh "pose.plan" "net_output" in
  let pin := Cuda.brk (device (world m)) in
  let pout := Cuda.brk (device (world m)) + 921600 in
  exists m' m'',
    NetRT.initializationOnThread m = Ret tt m' /\
    NetRT.NetRT_dtor m' = Ret tt m'' /\
    Cuda.calls (device (world m'')) =
      Cuda.Free pout :: Cuda.Free pin
      :: Cuda.Malloc pout 273600 :: Cuda.Malloc pin 921600
      :: Cuda.calls (device (world m)) /\
    Cuda.heap (device (world m'')) !! pin = None /\
    Cuda.heap (device (world m'')) !! pout = None /\
    (forall q, q <> pin -> q <> pout ->
       Cuda.heap (device (world m'')) !! q = Cuda.heap (device (world m)) !! q) /\
    Cuda.available (device (world m'')) = Cuda.available (device (world m)).
Proof.
  apply (initialization_then_destruction (Fixtures.fresh "pose.plan" "net_output")
           {| fsize := 4; fdata := Fixtures.plan_bytes |} Fixtures.pose_engine).
  - vm_compute. reflexivity.
  - split; [reflexivity | vm_compute; discriminate].
  - reflexivity.
  - reflexivity.
  - vm_compute. discriminate.
  - vm_compute. discriminate.
  - reflexivity.
  - vm_compute. discriminate.
  - reflexivity.
  - reflexivity.
Defined.

(** ** Initialization without device memory *)

Lemma cudaMalloc_slot_refused (index size : Z) (m : Machine) :
  0 <= index < 2 -> Cuda.available (device (world m)) < size ->
  NetRT.cudaMalloc_slot index size m =
    Ret tt {| world := with_device
                         (Cuda.fail_with Cuda.cudaErrorMemoryAllocation
                            (Cuda.record (Cuda.MallocFailed size) (device (world m))))
                         (world m);
              this := this m |}.
Proof.
  intros Hi Hs. unfold NetRT.cudaMalloc_slot, NetRT.NB_BINDINGS.
  rewrite (in_range_true _ Hi). unfold bind, on_device, Cuda.cudaMalloc.
  apply Z.leb_gt in Hs. rewrite Hs. reflexivity.
Qed.

(** X13.  The results of the two cudaMalloc calls are not looked at: when the
    device cannot satisfy either request, initialization still goes on to
    build the output handle, over whatever address the output slot happened
    to hold, and only the final device check raises.  Nothing is allocated
    and the buffer slots keep their values. *)
Theorem initialization_without_memory
    (m : Machine) (f : File) (e : TensorRT.ICudaEngine) :
  files (world m) !! mRTPlan (this m) = Some f -> File_intact f ->
  deserializer (world m) (fdata f) = Some e ->
  TensorRT.getNbBindings e = 2 ->
  TensorRT.getBindingIndex e NetRT.INPUT_BLOB_NAME <> -1 ->
  TensorRT.getBindingIndex e NetRT.OUTPUT_BLOB_NAME <> -1 ->
  length (buffers (this m)) = 2%nat ->
  Cuda.available (device (world m)) < 1 * 57 * 40 * 30 * 4 ->
  exists m' p,
    NetRT.initializationOnThread m = Throw (OpError "Cuda check failed" 116) m' /\
    Cuda.calls (device (world m')) =
      Cuda.MallocFailed 273600 :: Cuda.MallocFailed 921600
      :: Cuda.calls (device (world m)) /\
    Cuda.heap (device (world m')) = Cuda.heap (device (world m)) /\
    buffers (this m') = buffers (this m) /\
    buffers (this m) !!
      Z.to_nat (TensorRT.getBindingIndex e NetRT.OUTPUT_BLOB_NAME) = Some p /\
    spOutputBlob (this m') = Some (output_handle p).
Proof.
  intros Hf Hi Hd Hn Hin Hout Hlen Hmem.
  rewrite (initialization_after_load m f e Hf Hi Hd).
  destruct (getBindingIndex_range e NetRT.INPUT_BLOB_NAME) as [?|Hri]; [contradiction|].
  destruct (getBindingIndex_range e NetRT.OUTPUT_BLOB_NAME) as [?|Hro]; [contradiction|].
  rewrite Hn in Hri, Hro.
  rewrite (bind_Ret _ _ _ _ tt (checkBindings_two e _ Hn)).
  erewrite bind_Ret by reflexivity.
  set (i := TensorRT.getBindingIndex e NetRT.INPUT_BLOB_NAME) in *.
  set (o := TensorRT.getBindingIndex e NetRT.OUTPUT_BLOB_NAME) in *.
  destruct (lookup_lt_is_Some_2 (buffers (this m)) (Z.to_nat o)) as [p Hp]; [lia|].
  unfold NetRT.allocateBuffers.
  unfold bind at 1. unfold bind at 1, gets at 1.
  cbn [world this device with_engine set_outputBlobIndex set_inputBlobIndex
       inputBlobIndex outputBlobIndex buffers set_context set_nvengine].
  erewrite bind_Ret;
    [|apply cudaMalloc_slot_refused; [exact Hri | rewrite input_bytes_value; simpl; lia]].
  unfold bind at 1, gets at 1.
  cbn [world this device with_device with_engine set_outputBlobIndex set_inputBlobIndex
       inputBlobIndex outputBlobIndex buffers set_context set_nvengine].
  rewrite (cudaMalloc_slot_refused o NetRT.output_bytes _ Hro)
    by (rewrite output_bytes_value; simpl; lia).
  unfold NetRT.redirectToBlob, NetRT.read_slot, NetRT.NB_BINDINGS, NetRT.cudaCheck.
  unfold bind, gets, set_this, modify, ret, error, throw, undefined.
  cbn [world this device with_device with_engine set_outputBlobIndex set_inputBlobIndex
       inputBlobIndex outputBlobIndex buffers set_context set_nvengine
       set_spOutputBlob spOutputBlob].
  rewrite (in_range_true _ Hro), Hp.
  cbn [world this device with_device Cuda.lastError Cuda.fail_with].
  do 2 eexists. split; [reflexivity|].
  cbn [world this device with_device Cuda.calls Cuda.heap Cuda.fail_with Cuda.record
       buffers set_spOutputBlob spOutputBlob].
  rewrite input_bytes_value, output_bytes_value.
  repeat apply conj; try reflexivity; try exact Hp.
Qed.

Lemma initialization_without_memory_witness :
  let m := {| world := with_device
                         {| Cuda.heap := ∅; Cuda.brk := 4096; Cuda.available := 1024;
                            Cuda.lastError := None; Cuda.calls := [] |}
                         (world (Fixtures.fresh "pose.plan" "net_output"));
              this := this (Fixtures.fresh "pose.plan" "net_output") |} in
  exists m' p,
    NetRT.initializationOnThread m = Throw (OpError "Cuda check failed" 116) m' /\
    Cuda.calls (device (world m')) =
      Cuda.MallocFailed 273600 :: Cuda.MallocFailed 921600
      :: Cuda.calls (device (world m)) /\
    Cuda.heap (device (world m')) = Cuda.heap (device (world m)) /\
    buffers (this m') = buffers (this m) /\
    buffers (this m) !!
      Z.to_nat (TensorRT.getBindingIndex Fixtures.pose_engine NetRT.OUTPUT_BLOB_NAME)
      = Some p /\
    spOutputBlob (this m') = Some (output_handle p).
Proof.
  cbv zeta.
  apply (initialization_without_memory _
           {| fsize := 4; fdata := Fixtures.plan_bytes |} Fixtures.pose_engine).
  - vm_compute. reflexivity.
  - split; [reflexivity | vm_compute; discriminate].
  - reflexivity.
  - reflexivity.
  - vm_compute. discriminate.
  - vm_compute. discriminate.
  - reflexivity.
  - reflexivity.
Defined.

(** ** Before initialization *)

Lemma ctor_Ret_fields (RTPlan : string) (gpuId : Z) (enable : bool)
    (lastBlobName : string) (g : Indeterminate) (w w' : World) (i : ImplNetRT) :
  NetRT.NetRT_ctor RTPlan gpuId enable lastBlobName g w = Ret i w' ->
  context i = garbage_context g /\
  inputBlobIndex i = garbage_inputBlobIndex g /\
  buffers i = [fst (garbage_buffers g); snd (garbage_buffers g)] /\
  device w' = device w.
Proof.
  intros Hctor.
  pose proof (ctor_leaves_device RTPlan gpuId enable lastBlobName g w) as Hd.
  rewrite Hctor in Hd. simpl in Hd.
  unfold NetRT.NetRT_ctor, NetRT.ImplNetRT_ctor in Hctor.
  repeat (apply bind_Ret_inv in Hctor as (? & ? & _ & Hctor)).
  injection Hctor as <- _. repeat apply conj; first [reflexivity | exact Hd].
Qed.

(** The pass up to the call through the context, when that pointer refers to
    no object. *)
Lemma forwardPass_without_context (a : Array) (m : Machine) (dst : Z) :
  NetRT.securityChecks a m = Ret tt m ->
  context (this m) = None ->
  0 <= inputBlobIndex (this m) < 2 ->
  buffers (this m) !! Z.to_nat (inputBlobIndex (this m)) = Some dst ->
  exists m',
    NetRT.forwardPass a m = Undefined NullDeref m' /\
    Cuda.calls (device (world m')) =
      Cuda.MemcpyH2D dst (SizeT.wrap (getVolume a * SizeT.sizeof_float))
      :: Cuda.calls (device (world m)).
Proof.
  intros Hc He Hr Hb. unfold NetRT.forwardPass. unfold bind at 1. rewrite Hc.
  unfold NetRT.read_slot, NetRT.NB_BINDINGS.
  unfold bind, gets, when, set_this, modify, on_device, ret, undefined.
  destruct (vectorsAreEqual (mNetInputSize4D (this m)) (getSize a)); simpl;
    rewrite (in_range_true _ Hr), Hb; simpl; rewrite He;
    eexists; (split; [reflexivity | simpl; apply cudaMemcpyH2D_calls]).
Qed.

(** The pass when the input index is outside the buffer array. *)
Lemma forwardPass_index_out_of_bounds (a : Array) (m : Machine) :
  NetRT.securityChecks a m = Ret tt m ->
  ~ 0 <= inputBlobIndex (this m) < 2 ->
  exists m',
    NetRT.forwardPass a m = Undefined (OutOfBounds (inputBlobIndex (this m))) m' /\
    device (world m') = device (world m).
Proof.
  intros Hc Hr. unfold NetRT.forwardPass. unfold bind at 1. rewrite Hc.
  unfold NetRT.read_slot, NetRT.NB_BINDINGS.
  unfold bind, gets, when, set_this, modify, on_device, ret, undefined.
  destruct (vectorsAreEqual (mNetInputSize4D (this m)) (getSize a)); simpl;
    rewrite (in_range_false _ Hr); eexists; split; reflexivity.
Qed.

(** X14.  forwardPass does not check that initialization ran.  On an object
    that was constructed but not initialised, an input that passes the checks
    meets no error about the missing initialization: the pass goes on with
    the indeterminate members.  When the indeterminate input index is outside
    the buffer array, indexing the array is undefined, before any device
    call.  Otherwise the pass issues the host-to-device copy to the
    indeterminate address that slot holds, and then calls through the
    indeterminate context pointer: undefined behaviour when the pointer
    refers to no object, one execution on whatever context it happens to
    refer to otherwise. *)
Theorem forwardPass_before_initialization
    (RTPlan : string) (gpuId : Z) (enable : bool) (lastBlobName : string)
    (g : Indeterminate) (w w' : World) (i : ImplNetRT) (a : Array) :
  NetRT.NetRT_ctor RTPlan gpuId enable lastBlobName g w = Ret i w' ->
  NetRT.securityChecks a {| world := w'; this := i |} =
    Ret tt {| world := w'; this := i |} ->
  let after := NetRT.forwardPass a {| world := w'; this := i |} in
  let index := garbage_inputBlobIndex g in
  let copy dst :=
    Cuda.MemcpyH2D dst (SizeT.wrap (getVolume a * SizeT.sizeof_float)) in
  if (0 <=? index) && (index <? 2) then
    exists dst,
      [fst (garbage_buffers g); snd (garbage_buffers g)] !! Z.to_nat index
        = Some dst /\
      match garbage_context g with
      | None =>
          exists m', after = Undefined NullDeref m' /\
            Cuda.calls (device (world m')) = copy dst :: Cuda.calls (device w)
      | Some _ =>
          Cuda.calls (device (world (final after))) =
            Cuda.Execute 1 :: copy dst :: Cuda.calls (device w)
      end
  else
    exists m', after = Undefined (OutOfBounds index) m' /\
      device (world m') = device w.
Proof.
  intros Hctor Hchecks. cbv zeta.
  destruct (ctor_Ret_fields _ _ _ _ _ _ _ _ Hctor) as (Hc & Hi & Hb & Hd).
  set (m := {| world := w'; this := i |}) in *.
  change i with (this m) in Hc, Hi, Hb. change w' with (world m) in Hd.
  rewrite <- Hd, <- Hi, <- Hb, <- Hc.
  destruct (decide (0 <= inputBlobIndex (this m) < 2)) as [Hr|Hr].
  - rewrite (in_range_true _ Hr).
    destruct (lookup_lt_is_Some_2 (buffers (this m))
                (Z.to_nat (inputBlobIndex (this m)))) as [dst Hdst].
    { rewrite Hb. cbn [length]. lia. }
    exists dst. split; [exact Hdst|].
    destruct (context (this m)) as [e|] eqn:He.
    + exact (forwardPass_executes_once a m e dst Hchecks He Hr Hdst).
    + exact (forwardPass_without_context a m dst Hchecks He Hr Hdst).
  - rewrite (in_range_false _ Hr).
    exact (forwardPass_index_out_of_bounds a m Hchecks Hr).
Qed.

Lemma forwardPass_before_initialization_witness :
  exists dst,
    [48879; 57005] !! 0%nat = Some dst /\
    exists m',
      NetRT.forwardPass Fixtures.image
        {| world := Fixtures.process;
           this := this (Fixtures.fresh "pose.plan" "net_output") |}
      = Undefined NullDeref m' /\
      Cuda.calls (device (world m')) =
        Cuda.MemcpyH2D dst
          (SizeT.wrap (getVolume Fixtures.image * SizeT.sizeof_float))
        :: Cuda.calls (device Fixtures.process).
Proof.
  refine (forwardPass_before_initialization "pose.plan" NetRT.default_gpuId
            NetRT.default_enableGoogleLogging "net_output" Fixtures.junk
            Fixtures.process Fixtures.process
            (this (Fixtures.fresh "pose.plan" "net_output")) Fixtures.image _ _).
  - vm_compute. reflexivity.
  - apply securityChecks_pass; reflexivity.
Defined.

(** With a stale context left in the memory of the object, the same pass
    on the never-initialised object goes as far as the execution. *)
Example forwardPass_on_stale_context :
  exists i w,
    Fixtures.constructed_with Fixtures.stale "pose.plan" "net_output" = Ret i w /\
    thrown (NetRT.forwardPass Fixtures.image {| world := w; this := i |}) =
      Some (OpError "Inference execution failed" 149) /\
    Cuda.calls (device (world (final
      (NetRT.forwardPass Fixtures.image {| world := w; this := i |})))) =
      [Cuda.Execute 1; Cuda.MemcpyH2D 48879 921600].
Proof.
  do 2 eexists. split; [vm_compute; reflexivity|].
  split; vm_compute; reflexivity.
Qed.

(** ** The flag and the setup *)

Lemma flag_after_setup_step (flag0 : bool) (c : Concurrent.Config) (tid : nat) :
  Concurrent.Inv c ->
  (Concurrent.flag (Concurrent.shared c) = true ->
   flag0 = true \/ Concurrent.initCalls (Concurrent.shared c) = 1%nat) ->
  Concurrent.flag (Concurrent.shared (Concurrent.schedule_step c tid)) = true ->
  flag0 = true \/
  Concurrent.initCalls (Concurrent.shared (Concurrent.schedule_step c tid)) = 1%nat.
Proof.
  intros I H. unfold Concurrent.schedule_step.
  destruct (Concurrent.threads c !! tid) as [t|] eqn:Ht; [|exact H].
  destruct (Concurrent.step tid t (Concurrent.shared c)) as [[t' s']|] eqn:Hs;
    [|exact H].
  unfold Concurrent.step in Hs. destruct (Concurrent.at_pc t) eqn:Hpc.
  - injection Hs as <- <-. exact H.
  - destruct (Concurrent.owner (Concurrent.shared c)); [discriminate|].
    injection Hs as <- <-. exact H.
  - injection Hs as <- <-. exact H.
  - injection Hs as <- <-. simpl. intros Hf.
    destruct (Concurrent.inv_call c I tid t Ht Hpc) as [Hf' _]. congruence.
  - injection Hs as <- <-. simpl. intros _.
    destruct (Concurrent.inv_store c I tid t Ht Hpc) as [_ Hn]. now right.
  - injection Hs as <- <-. exact H.
  - discriminate.
Qed.

(** X15.  The flag is published only after the setup: in every state any
    interleaving can reach, if the flag reads true then either it was true
    from the start or google::InitGoogleLogging has been called (exactly
    once).  A constructor that skips the lock because it read the flag as set
    therefore never runs ahead of the setup. *)
Theorem flag_set_only_after_setup (flag0 : bool) (enables : list bool)
    (schedule : list nat) :
  let c := Concurrent.run schedule (Concurrent.start_from flag0 enables) in
  Concurrent.flag (Concurrent.shared c) = true ->
  flag0 = true \/ Concurrent.initCalls (Concurrent.shared c) = 1%nat.
Proof.
  cbv zeta.
  assert (forall c,
    Concurrent.Inv c ->
    (Concurrent.flag (Concurrent.shared c) = true ->
     flag0 = true \/ Concurrent.initCalls (Concurrent.shared c) = 1%nat) ->
    Concurrent.flag (Concurrent.shared (Concurrent.run schedule c)) = true ->
    flag0 = true \/
    Concurrent.initCalls (Concurrent.shared (Concurrent.run schedule c)) = 1%nat) as H.
  { induction schedule as [|tid schedule IH]; intros c I Hc; [exact Hc|].
    simpl. apply IH; [now apply Inv_schedule_step|].
    now apply flag_after_setup_step. }
  apply H; [apply Inv_start|]. simpl. intros ->. now left.
Qed.

Lemma flag_set_only_after_setup_witness :
  false = true \/
  Concurrent.initCalls
    (Concurrent.shared
       (Concurrent.run [0; 0; 0; 0; 0; 1]%nat
          (Concurrent.start_from false [true; true]))) = 1%nat.
Proof.
  apply (flag_set_only_after_setup false [true; true] [0; 0; 0; 0; 0; 1]%nat).
  reflexivity.
Defined.

(** ** A plan the runtime does not recognise *)

(** X16.  The result of deserializeCudaEngine is not checked: when the
    runtime returns the null engine for the bytes of an intact plan file,
    initialization raises no error; it calls createExecutionContext through
    the null pointer.  Nothing was called on the device. *)
Theorem null_engine_is_dereferenced (m : Machine) (f : File) :
  files (world m) !! mRTPlan (this m) = Some f -> File_intact f ->
  deserializer (world m) (fdata f) = None ->
  exists m',
    NetRT.initializationOnThread m = Undefined NullDeref m' /\
    nvengine (this m') = None /\
    device (world m') = device (world m).
Proof.
  intros Hf Hi Hd. unfold NetRT.initializationOnThread.
  rewrite (bind_Ret _ _ _ _ _ (loadPlan_intact m f Hf Hi)).
  unfold NetRT.createEngine, bind, gets, set_this, modify, undefined. simpl.
  rewrite Hd. simpl. eexists. split; [reflexivity|]. split; reflexivity.
Qed.

(** ** Initializing twice *)

(** X17.  initializationOnThread does not release what an earlier call
    allocated: when it runs twice on a valid plan, the second call allocates
    two further buffers and overwrites the slots, the destructor then frees
    only the second pair, and the two buffers of the first call stay
    allocated. *)
Theorem reinitialization_leaks (m : Machine) (f : File) (e : TensorRT.ICudaEngine) :
  files (world m) !! mRTPlan (this m) = Some f -> File_intact f ->
  deserializer (world m) (fdata f) = Some e ->
  TensorRT.getNbBindings e = 2 ->
  TensorRT.getBindingIndex e NetRT.INPUT_BLOB_NAME <> -1 ->
  TensorRT.getBindingIndex e NetRT.OUTPUT_BLOB_NAME <> -1 ->
  length (buffers (this m)) = 2%nat ->
  2 * ((1 * 3 * 320 * 240 + 1 * 57 * 40 * 30) * 4) <= Cuda.available (device (world m)) ->
  Cuda.lastError (device (world m)) = None ->
  0 < Cuda.brk (device (world m)) ->
  exists m1 m2 m3,
    NetRT.initializationOnThread m = Ret tt m1 /\
    NetRT.initializationOnThread m1 = Ret tt m2 /\
    NetRT.NetRT_dtor m2 = Ret tt m3 /\
    Cuda.count Cuda.is_malloc (device (world m3)) =
      (4 + Cuda.count Cuda.is_malloc (device (world m)))%nat /\
    Cuda.count Cuda.is_free (device (world m3)) =
      (2 + Cuda.count Cuda.is_free (device (world m)))%nat /\
    is_Some (Cuda.heap (device (world m3)) !! Cuda.brk (device (world m))) /\
    is_Some (Cuda.heap (device (world m3)) !! (Cuda.brk (device (world m)) + 921600)) /\
    Cuda.available (device (world m3)) =
      Cuda.available (device (world m)) - (1 * 3 * 320 * 240 + 1 * 57 * 40 * 30) * 4.
Proof.
  intros Hf Hi Hd Hn Hin Hout Hlen Hmem Herr Hbrk.
  destruct (initialization_valid m f e Hf Hi Hd Hn Hin Hout Hlen ltac:(lia) Herr)
    as (d2 & Hinit & Hri & Hro & Hc & Ha & He & Hb & Hh).
  match type of Hinit with _ = Ret tt ?s => set (m1 := s) in * end.
  destruct (init_dtor_balanced m1 f e) as (m2 & m3 & Hinit2 & Hdtor & Hc3 & _ & _ & Hq & Ha3);
    try assumption.
  - simpl. rewrite !length_insert. exact Hlen.
  - simpl. lia.
  - simpl. lia.
  - exists m1, m2, m3. repeat apply conj; try assumption.
    + unfold Cuda.count. rewrite Hc3. simpl. rewrite Hc. reflexivity.
    + unfold Cuda.count. rewrite Hc3. simpl. rewrite Hc. reflexivity.
    + rewrite Hq; simpl; try lia.
      rewrite Hh, lookup_insert_ne, lookup_insert_eq by lia. eauto.
    + rewrite Hq; simpl; try lia.
      rewrite Hh, lookup_insert_eq. eauto.
    + rewrite Ha3. simpl. lia.
Qed.

Lemma reinitialization_leaks_witness :
  let m := Fixtures.fresh "pose.plan" "net_output" in
  exists m1 m2 m3,
    NetRT.initializationOnThread m = Ret tt m1 /\
    NetRT.initializationOnThread m1 = Ret tt m2 /\
    NetRT.NetRT_dtor m2 = Ret tt m3 /\
    Cuda.count Cuda.is_malloc (device (world m3)) =
      (4 + Cuda.count Cuda.is_malloc (device (world m)))%nat /\
    Cuda.count Cuda.is_free (device (world m3)) =
      (2 + Cuda.count Cuda.is_free (device (world m)))%nat /\
    is_Some (Cuda.heap (device (world m3)) !! Cuda.brk (device (world m))) /\
    is_Some (Cuda.heap (device (world m3)) !! (Cuda.brk (device (world m)) + 921600)) /\
    Cuda.available (device (world m3)) =
      Cuda.available (device (world m)) - (1 * 3 * 320 * 240 + 1 * 57 * 40 * 30) * 4.
Proof.
  apply (reinitialization_leaks (Fixtures.fresh "pose.plan" "net_output")
           {| fsize := 4; fdata := Fixtures.plan_bytes |} Fixtures.pose_engine).
  - vm_compute. reflexivity.
  - split; [reflexivity | vm_compute; discriminate].
  - reflexivity.
  - reflexivity.
  - vm_compute. discriminate.
  - vm_compute. discriminate.
  - reflexivity.
  - vm_compute. discriminate.
  - reflexivity.
  - reflexivity.
Defined.

(** ** Instances *)

Lemma null_engine_is_dereferenced_witness :
  exists m',
    NetRT.initializationOnThread Scenarios.garbled = Undefined NullDeref m' /\
    nvengine (this m') = None /\
    device (world m') = device (world Scenarios.garbled).
Proof.
  apply (null_engine_is_dereferenced Scenarios.garbled
           {| fsize := 2; fdata := [Byte.x00; Byte.x01] |}).
  - vm_compute. reflexivity.
  - split; [reflexivity | vm_compute; discriminate].
  - reflexivity.
Defined.

(** ** The parts of the forward pass and of the plan loading seen from outside *)

(** X18.  An array that is empty, or is not four-dimensional with three
    channels, or whose element count fits [int] and differs from
    1x3x320x240, is rejected by the first check it fails (line 123, 126 or
    134 of netRT.cpp), and the object, the device and the rest of the process
    are exactly as before the call. *)
Theorem invalid_input_is_rejected (a : Array) (m : Machine) :
  Array_wf a -> mVolume a <= Int32.max_int ->
  empty a = true \/ getNumberDimensions a <> 4 \/ getSizeAt a 1 <> 3 \/
  mVolume a <> 230400 ->
  exists msg line,
    NetRT.forwardPass a m = Throw (OpError msg line) m /\
    (empty a = true -> line = 123) /\
    (empty a = false -> getNumberDimensions a <> 4 \/ getSizeAt a 1 <> 3 ->
     line = 126) /\
    (empty a = false -> getNumberDimensions a = 4 -> getSizeAt a 1 = 3 ->
     line = 134).
Proof. exact (forwardPass_rejects a m). Qed.

Lemma invalid_input_is_rejected_witness :
  exists msg line,
    NetRT.forwardPass Fixtures.batch_of_two Fixtures.ready =
      Throw (OpError msg line) Fixtures.ready /\
    (empty Fixtures.batch_of_two = true -> line = 123) /\
    (empty Fixtures.batch_of_two = false ->
     getNumberDimensions Fixtures.batch_of_two <> 4 \/
     getSizeAt Fixtures.batch_of_two 1 <> 3 -> line = 126) /\
    (empty Fixtures.batch_of_two = false ->
     getNumberDimensions Fixtures.batch_of_two = 4 ->
     getSizeAt Fixtures.batch_of_two 1 = 3 -> line = 134).
Proof.
  apply (invalid_input_is_rejected Fixtures.batch_of_two Fixtures.ready).
  - exact batch_of_two_is_well_formed.
  - vm_compute. discriminate.
  - right. right. right. vm_compute. discriminate.
Defined.

(** X19.  On an object with a context and an input slot inside the buffer
    array, an input that passes the checks causes exactly one host-to-device
    copy, of getVolume() floats into the address in the input slot, followed
    by exactly one execution with batch size 1, whether or not the execution
    reports success. *)
Theorem valid_input_one_copy_one_execution (a : Array) (m : Machine)
    (e : TensorRT.ICudaEngine) (dst : Z) :
  NetRT.securityChecks a m = Ret tt m ->
  context (this m) = Some e ->
  0 <= inputBlobIndex (this m) < 2 ->
  buffers (this m) !! Z.to_nat (inputBlobIndex (this m)) = Some dst ->
  Cuda.calls (device (world (final (NetRT.forwardPass a m)))) =
    Cuda.Execute 1
    :: Cuda.MemcpyH2D dst (SizeT.wrap (getVolume a * SizeT.sizeof_float))
    :: Cuda.calls (device (world m)).
Proof. exact (forwardPass_executes_once a m e dst). Qed.

Lemma valid_input_one_copy_one_execution_witness :
  Cuda.calls (device (world (final (NetRT.forwardPass Fixtures.image Fixtures.ready)))) =
    Cuda.Execute 1
    :: Cuda.MemcpyH2D 4096 (SizeT.wrap (getVolume Fixtures.image * SizeT.sizeof_float))
    :: Cuda.calls (device (world Fixtures.ready)).
Proof.
  apply (valid_input_one_copy_one_execution Fixtures.image Fixtures.ready
           Fixtures.pose_engine 4096).
  - apply securityChecks_pass; reflexivity.
  - vm_compute. reflexivity.
  - vm_compute. split; [discriminate | reflexivity].
  - vm_compute. reflexivity.
Defined.

(** X20.  When the plan file delivers fewer bytes than its size announced,
    initialization raises the error "Could not load tensorrt engine." of line
    89 and leaves the object, the device and the process untouched: no
    runtime is created and nothing is allocated. *)
Theorem short_read_raises_plan_read_error (m : Machine) (f : File) :
  files (world m) !! mRTPlan (this m) = Some f ->
  Z.of_nat (length (fdata f)) < fsize f <= vector_max_size ->
  NetRT.initializationOnThread m =
    Throw (OpError "Could not load tensorrt engine." 89) m.
Proof. exact (short_read_is_plan_read_error m f). Qed.

Lemma short_read_raises_plan_read_error_witness :
  NetRT.initializationOnThread (Fixtures.fresh "truncated.plan" "net_output") =
    Throw (OpError "Could not load tensorrt engine." 89)
      (Fixtures.fresh "truncated.plan" "net_output").
Proof.
  apply (short_read_raises_plan_read_error
           (Fixtures.fresh "truncated.plan" "net_output")
           {| fsize := 4; fdata := [Byte.x50; Byte.x4c] |}).
  - vm_compute. reflexivity.
  - vm_compute. split; [reflexivity | discriminate].
Defined.
